(** * EcoTrade server: scan protocol, activity log and archive pipeline

    A shallow embedding of the parts of the server that decide how a QR scan
    is processed ([src/utils/crypto.js], [src/controllers/scanController.js]),
    how activities are queried and exported
    ([src/controllers/activityController.js],
    [src/controllers/activityExportController.js]), how raw activities are
    compacted into daily archive documents
    ([src/services/activityArchiveService.js]) and how the archive is queried
    ([src/controllers/deviceController.js]); then of the activity graph of
    [src/controllers/activityController.js], of the export limits, and of
    the archive administration with its nightly job
    ([src/config/scheduler.js]).

    Conventions.
    - A JavaScript number that comes out of [JSON.parse] is a rational [Q]
      (every finite double is one; the two infinities are left out).
      Counters kept by the server (points, scan counts) are integers [Z].
    - A [Date] is its number of milliseconds since the epoch, a [Z]; the
      process time zone is UTC, so that local calendar arithmetic
      ([setDate], [setHours]) is arithmetic on that number.
    - An ObjectId is its 24-character lower-case hexadecimal string.
    - A JavaScript string is the byte string of its UTF-8 encoding, so that
      a code point outside ASCII takes two or three bytes.
    - A collection is a list of documents in insertion order, [findOne]
      returns the first match; the archive collection, which carries a
      unique index on (workspaceId, date), is a finite map on that key. *)

From Stdlib Require Import ZArith QArith Lia List Bool Ascii String.
From stdpp Require Import base decidable option list strings gmap fin_maps sets sorting.

Import ListNotations.
Set Warnings "-register-all".
Local Open Scope string_scope.
Local Open Scope Z_scope.

(** ** White space of JavaScript strings

    [String.prototype.trim], which a schema path declared with [trim: true]
    applies to the values written and to the values of a query filter, and
    the white space [parseInt] skips: the code points WhiteSpace and
    LineTerminator of the language. *)

Module Text.

(** The number of bytes of the white-space code point a text starts with:
    U+0009 to U+000D, U+0020, U+00A0, U+1680, U+2000 to U+200A, U+2028,
    U+2029, U+202F, U+205F, U+3000 and U+FEFF; 0 when it starts with none. *)
Definition white_width (s : string) : nat :=
  match s with
  | String a rest =>
      let x := nat_of_ascii a in
      if ((x =? 32) || (9 <=? x) && (x <=? 13))%nat then 1%nat
      else
        match rest with
        | String b (String c _) =>
            let y := nat_of_ascii b in
            let z := nat_of_ascii c in
            if ((x =? 194) && (y =? 160))%nat then 2%nat
            else if ((x =? 225) && (y =? 154) && (z =? 128))%nat then 3%nat
            else if ((x =? 226) && (y =? 128)
                     && ((128 <=? z) && (z <=? 138)
                         || (z =? 168) || (z =? 169) || (z =? 175)))%nat
                 then 3%nat
            else if ((x =? 226) && (y =? 129) && (z =? 159))%nat then 3%nat
            else if ((x =? 227) && (y =? 128) && (z =? 128))%nat then 3%nat
            else if ((x =? 239) && (y =? 187) && (z =? 191))%nat then 3%nat
            else 0%nat
        | String b EmptyString =>
            if ((x =? 194) && (nat_of_ascii b =? 160))%nat then 2%nat else 0%nat
        | EmptyString => 0%nat
        end
  | EmptyString => 0%nat
  end.

Fixpoint drop_bytes (n : nat) (s : string) : string :=
  match n, s with
  | S n', String _ rest => drop_bytes n' rest
  | _, _ => s
  end.

(** At most [fuel] white-space code points are skipped; the length of the
    text is fuel enough. *)
Fixpoint skip_spaces_from (fuel : nat) (s : string) : string :=
  match fuel with
  | O => s
  | S fuel' =>
      match white_width s with
      | O => s
      | S w => skip_spaces_from fuel' (drop_bytes (S w) s)
      end
  end.

(** The text without its leading white space. *)
Definition skip_spaces (s : string) : string :=
  skip_spaces_from (String.length s) s.

(** The text without its trailing white space: it is cut where what is
    left is white space only. *)
Fixpoint trim_end (s : string) : string :=
  match s with
  | EmptyString => EmptyString
  | String c rest =>
      if String.eqb (skip_spaces s) EmptyString then EmptyString
      else String c (trim_end rest)
  end.

(** [s.trim()] *)
Definition trim (s : string) : string := trim_end (skip_spaces s).

End Text.

(** ** JSON values and the payload validator ([src/utils/crypto.js]) *)

Module Codec.

(** What [JSON.parse] returns. An object is the list of its properties. *)
Inductive value : Type :=
| JNull
| JBool (b : bool)
| JNum (q : Q)
| JStr (s : string)
| JArr (items : list value)
| JObj (props : list (string * value)).

(** JavaScript truthiness of a parsed value: [null], [false], [0] and the
    empty string are falsy, everything else (arrays and objects too) is
    truthy. *)
Definition truthy (v : value) : bool :=
  match v with
  | JNull => false
  | JBool b => b
  | JNum q => negb (Qeq_bool q 0)
  | JStr s => negb (String.eqb s EmptyString)
  | JArr _ => true
  | JObj _ => true
  end.

Fixpoint assoc (k : string) (props : list (string * value)) : option value :=
  match props with
  | [] => None
  | (k', v) :: rest => if String.eqb k k' then Some v else assoc k rest
  end.

(** [payload[field]] for the four field names the validator reads; [None]
    is [undefined]. Only an object has such a property: a string, an array
    or a number has none of these names. *)
Definition get_field (payload : value) (field : string) : option value :=
  match payload with
  | JObj props => assoc field props
  | _ => None
  end.

(** [payload[field] === undefined || payload[field] === null] *)
Definition missing (o : option value) : bool :=
  match o with
  | None => true
  | Some JNull => true
  | Some _ => false
  end.

Definition requiredFields : list string :=
  ["deviceId"; "type"; "action"; "uniqueCode"].

(** The reason carried by [{ valid: false, error }]. The source builds the
    strings ['Empty payload'], [`Missing field: ${field}`],
    [`Invalid action: ${payload.action}`] and
    ['uniqueCode must be a number']; the interpolated part is kept as
    data. *)
Inductive reason : Type :=
| EmptyPayload
| MissingField (field : string)
| InvalidAction (got : value)
| UniqueCodeNotNumber.

Inductive validation : Type :=
| Valid
| Invalid (error : reason).

(** [['SCAN', 'REGISTER'].includes(a)] *)
Definition action_in_enum (a : option value) : bool :=
  match a with
  | Some (JStr s) => String.eqb s "SCAN" || String.eqb s "REGISTER"
  | _ => false
  end.

(** [typeof u === 'number'] *)
Definition is_number (u : option value) : bool :=
  match u with
  | Some (JNum _) => true
  | _ => false
  end.

(** The [for (const field of requiredFields)] loop: the first missing
    field, if any. *)
Fixpoint first_missing (payload : value) (fields : list string) : option string :=
  match fields with
  | [] => None
  | f :: rest =>
      if missing (get_field payload f) then Some f
      else first_missing payload rest
  end.

Definition validatePayload (payload : value) : validation :=
  if negb (truthy payload) then Invalid EmptyPayload
  else
    match first_missing payload requiredFields with
    | Some f => Invalid (MissingField f)
    | None =>
        if negb (action_in_enum (get_field payload "action")) then
          match get_field payload "action" with
          | Some a => Invalid (InvalidAction a)
          | None => Invalid (InvalidAction JNull)
          end
        else if negb (is_number (get_field payload "uniqueCode")) then
          Invalid UniqueCodeNotNumber
        else Valid
    end.

(** A number is an integer when its reduced denominator is one. *)
Definition is_integer (q : Q) : bool :=
  Pos.eqb (Qden (Qred q)) 1.

(** The shape of a payload that has all four fields, an action of the enum
    and a numeric [uniqueCode]. *)
Definition well_formed (p : value) : Prop :=
  truthy p = true
  /\ (forall f, f ∈ requiredFields -> exists v, get_field p f = Some v /\ v <> JNull)
  /\ (get_field p "action" = Some (JStr "SCAN")
      \/ get_field p "action" = Some (JStr "REGISTER"))
  /\ (exists q, get_field p "uniqueCode" = Some (JNum q)).

Definition sample_payload (code : Q) : value :=
  JObj [("deviceId", JStr "BIN-004"); ("type", JStr "SMART_BIN");
        ("action", JStr "SCAN"); ("uniqueCode", JNum code)].

End Codec.

(** ** Documents of the collections the scan and the queries touch
    ([src/models/Device.js], [src/models/WorkspaceMember.js] and the
    Activity schema) *)

Module Model.

Record Device : Type := mkDevice {
  d_id : string;                 (* _id *)
  d_deviceId : option string;    (* hardware id, sparse *)
  d_name : string;
  d_type : string;
  d_workspaceId : string;
  d_lastUniqueCode : Q           (* Number, default 0 *)
}.

Record Member : Type := mkMember {
  m_userId : string;
  m_workspaceId : string;
  m_points : Z;
  m_scanCount : Z;
  m_joinedDate : Z
}.

Record User : Type := mkUser {
  u_id : string;
  u_points : Z;
  u_scanCount : Z
}.

Record Workspace : Type := mkWorkspace {
  w_id : string;
  w_name : string
}.

(** The [timestamp] string of an activity is [new Date().toString()]; its
    rendering is left out, [a_createdAt] is the instant it renders. *)
Record Activity : Type := mkActivity {
  a_workspaceId : string;
  a_userId : string;
  a_deviceId : option string;
  a_deviceType : option string;
  a_type : string;
  a_title : string;
  a_description : string;
  a_points : Z;
  a_createdAt : Z
}.

Record Store : Type := mkStore {
  devices : list Device;
  members : list Member;
  users : list User;
  workspaces : list Workspace;
  activities : list Activity
}.

Definition set_lastUniqueCode (d : Device) (code : Q) : Device :=
  mkDevice (d_id d) (d_deviceId d) (d_name d) (d_type d) (d_workspaceId d) code.

(** [membership.points += 10; membership.scanCount += 1] *)
Definition award_member (m : Member) : Member :=
  mkMember (m_userId m) (m_workspaceId m) (m_points m + 10) (m_scanCount m + 1)
           (m_joinedDate m).

(** [user.points += 10; user.scanCount += 1] *)
Definition award_user (u : User) : User :=
  mkUser (u_id u) (u_points u + 10) (u_scanCount u + 1).

(** [doc.save()] on a document found at position [i] of its collection. *)
Definition save_device (i : nat) (d : Device) (st : Store) : Store :=
  mkStore (<[i := d]> (devices st)) (members st) (users st) (workspaces st)
          (activities st).

Definition save_member (i : nat) (m : Member) (st : Store) : Store :=
  mkStore (devices st) (<[i := m]> (members st)) (users st) (workspaces st)
          (activities st).

Definition save_user (i : nat) (u : User) (st : Store) : Store :=
  mkStore (devices st) (members st) (<[i := u]> (users st)) (workspaces st)
          (activities st).

(** [Activity.create(a)] *)
Definition create_activity (a : Activity) (st : Store) : Store :=
  mkStore (devices st) (members st) (users st) (workspaces st)
          (activities st ++ [a]).

(** [WorkspaceMember.findOne({ workspaceId, userId })] *)
Definition findMember (st : Store) (workspaceId userId : string)
  : option (nat * Member) :=
  list_find (fun m => m_workspaceId m = workspaceId /\ m_userId m = userId)
            (members st).

(** [User.findById(userId)] *)
Definition findUser (st : Store) (userId : string) : option (nat * User) :=
  list_find (fun u => u_id u = userId) (users st).

(** [Workspace.findById(id)] *)
Definition findWorkspace (st : Store) (id : string) : option (nat * Workspace) :=
  list_find (fun w => w_id w = id) (workspaces st).

(** [Device.findOne({ deviceId })]. The schema declares [deviceId] with
    [trim: true]: the value of the filter is trimmed when the query is
    cast, before it is compared with the stored values. *)
Definition findDeviceByDeviceId (st : Store) (deviceId : string)
  : option (nat * Device) :=
  list_find (fun d => d_deviceId d = Some (Text.trim deviceId)) (devices st).

(** [Device.findOne({ deviceId, workspaceId })], the filter trimmed
    likewise. *)
Definition findDeviceIn (st : Store) (deviceId workspaceId : string)
  : option (nat * Device) :=
  list_find (fun d => d_deviceId d = Some (Text.trim deviceId)
                      /\ d_workspaceId d = workspaceId)
            (devices st).

(** [Device.findOne({ _id })] *)
Definition findDeviceById (st : Store) (id : string) : option (nat * Device) :=
  list_find (fun d => d_id d = id) (devices st).

(** [Device.findOne({ _id, workspaceId })] *)
Definition findDeviceByIdIn (st : Store) (id workspaceId : string)
  : option (nat * Device) :=
  list_find (fun d => d_id d = id /\ d_workspaceId d = workspaceId) (devices st).

End Model.

(** ** The scan processor ([src/controllers/scanController.js]) *)

Module Scan.
Import Codec Model.

(** The [message] of a failure: a fixed text, the validator's reason
    ([message: validation.error]) or none. *)
Inductive message : Type :=
| NoMessage
| Text (s : string)
| ValidationError (r : reason).

Record MismatchData : Type := mkMismatch {
  targetWorkspaceId : string;
  targetWorkspaceName : string;
  isMember : bool
}.

Record ScanData : Type := mkScanData {
  pointsEarned : Z;
  workspacePoints : Z;
  totalPoints : Z;
  scanCount : Z;
  activity : Activity
}.

(** [res.status(s).json({ success: false, error, message, data })] or
    [res.json({ success: true, data })]. *)
Inductive Response : Type :=
| Success (data : ScanData)
| Failure (status : Z) (error : string) (msg : message)
          (data : option MismatchData).

(** [req.body], [req.params.id] and [req.userId]. The plain fields of the
    legacy form are strings when present; the workspace and user ids are
    well-formed ObjectIds. *)
Record Request : Type := mkRequest {
  req_encryptedPayload : option string;
  req_deviceId : option string;
  req_action : option string;
  req_type : option string;
  req_workspaceId : string;
  req_userId : string
}.

(** The decrypted payload once validated, with [deviceId] and [type] read
    as the strings of the documented payload shape. *)
Record Payload : Type := mkPayload {
  p_deviceId : string;
  p_type : string;
  p_action : string;
  p_uniqueCode : Q
}.

Definition typed (v : value) : option Payload :=
  match get_field v "deviceId", get_field v "type",
        get_field v "action", get_field v "uniqueCode" with
  | Some (JStr d), Some (JStr t), Some (JStr a), Some (JNum u) =>
      Some (mkPayload d t a u)
  | _, _, _, _ => None
  end.

(** Truthiness of a string that may be [undefined]. *)
Definition present (o : option string) : bool :=
  match o with
  | Some s => negb (String.eqb s EmptyString)
  | None => false
  end.

Definition dquote : string := String (ascii_of_nat 34) EmptyString.
Definition bullet : string :=
  String (ascii_of_nat 226) (String (ascii_of_nat 128)
    (String (ascii_of_nat 162) EmptyString)).

Definition or_empty (o : option string) : string :=
  match o with Some s => s | None => EmptyString end.

(** [s.replace('_', ' ')]: the first underscore only. *)
Fixpoint replace_underscore (s : string) : string :=
  match s with
  | EmptyString => EmptyString
  | String c rest =>
      if Ascii.eqb c "_"%char then String " "%char rest
      else String c (replace_underscore rest)
  end.

Definition is_hex (c : ascii) : bool :=
  let n := nat_of_ascii c in
  ((48 <=? n) && (n <=? 57) || (65 <=? n) && (n <=? 70)
   || (97 <=? n) && (n <=? 102))%nat.

Fixpoint all_hex (s : string) : bool :=
  match s with
  | EmptyString => true
  | String c rest => is_hex c && all_hex rest
  end.

(** [s.match(/^[0-9a-fA-F]{24}$/)] *)
Definition isObjectIdShape (s : string) : bool :=
  (String.length s =? 24)%nat && all_hex s.

Definition lower (c : ascii) : ascii :=
  let n := nat_of_ascii c in
  if ((65 <=? n) && (n <=? 70))%nat then ascii_of_nat (n + 32) else c.

(** The cast of a 24-hex string to an ObjectId ignores the case of its
    digits. *)
Fixpoint castObjectId (s : string) : string :=
  match s with
  | EmptyString => EmptyString
  | String c rest => String (lower c) (castObjectId rest)
  end.

(** [device.lastUniqueCode || 0] *)
Definition lastUniqueCodeOrZero (d : Device) : Q :=
  if Qeq_bool (d_lastUniqueCode d) 0 then 0%Q else d_lastUniqueCode d.

Definition decryptionFailed : Response :=
  Failure 400 "Decryption failed"
    (Text "Invalid or corrupted QR code. Please try scanning again.") None.

Definition invalidPayload (r : reason) : Response :=
  Failure 400 "Invalid payload" (ValidationError r) None.

Definition replayDetected : Response :=
  Failure 400 "QR code sudah dipakai"
    (Text "QR code ini sudah pernah di-scan. Tunggu QR code baru dari mesin.")
    None.

Definition notForPoints (a : string) : Response :=
  Failure 400 ("Invalid action for earning points. Got " ++ dquote ++ a ++ dquote)
    (Text "This QR code is for device registration. Please use the Add Device feature.")
    None.

Definition notAMember : Response :=
  Failure 403 "Not a member of this workspace"
    (Text "You must be a member of this workspace to scan devices") None.

Definition scanActivity (now : Z) (workspaceId userId : string)
    (finalType : option string) (device : Device) : Activity :=
  mkActivity workspaceId userId (Some (d_id device))
    (Some (if present finalType then or_empty finalType else d_type device))
    "SCAN" "Waste Scanned"
    (d_name device ++ " " ++ bullet ++ " " ++ replace_underscore (d_type device))
    10 now.

Section WithCipher.

(** [decryptQRPayload] of [src/utils/crypto.js]: Base64, AES-128-CBC
    under the deployment key and [JSON.parse] are the platform's; the
    function is taken as given, [None] being its [null]. *)
Variable decryptQRPayload : string -> option value.

(** What the first step of a scan leaves: a failure, or the normalised
    fields [payload], [finalDeviceId], [finalAction], [finalType]. *)
Inductive Decoded : Type :=
| Rejected (r : Response)
| Untyped
| Fields (payload : option Payload) (finalDeviceId finalAction finalType : option string).

Definition decodeEncrypted (encrypted : string) : Decoded :=
  match decryptQRPayload encrypted with
  | None => Rejected decryptionFailed
  | Some v =>
      if negb (truthy v) then Rejected decryptionFailed
      else
        match validatePayload v with
        | Invalid r => Rejected (invalidPayload r)
        | Valid =>
            match typed v with
            | None => Untyped
            | Some p =>
                Fields (Some p) (Some (p_deviceId p)) (Some (p_action p))
                       (Some (p_type p))
            end
        end
  end.

Definition decode (req : Request) : Decoded :=
  if present (req_encryptedPayload req) then
    decodeEncrypted (or_empty (req_encryptedPayload req))
  else Fields None (req_deviceId req) (req_action req) (req_type req).

(** The device of [deviceId] in the requested workspace, then, only for
    a 24-hex value, the device of that [_id] in the workspace. *)
Definition resolveInWorkspace (st : Store) (deviceId workspaceId : string)
  : option (nat * Device) :=
  match findDeviceIn st deviceId workspaceId with
  | Some r => Some r
  | None =>
      if isObjectIdShape deviceId
      then findDeviceByIdIn st (castObjectId deviceId) workspaceId
      else None
  end.

(** The same across all workspaces, for the global scan. *)
Definition resolveAnywhere (st : Store) (deviceId : string)
  : option (nat * Device) :=
  match findDeviceByDeviceId st deviceId with
  | Some r => Some r
  | None =>
      if isObjectIdShape deviceId
      then findDeviceById st (castObjectId deviceId)
      else None
  end.

Definition workspaceName (st : Store) (id : string) : option string :=
  match findWorkspace st id with
  | Some (_, w) => Some (w_name w)
  | None => None
  end.

Definition is_some {A} (o : option A) : bool :=
  match o with Some _ => true | None => false end.

(** The answer when the device is not in the requested workspace. *)
Definition deviceNotResolved (st : Store) (deviceId userId : string) : Response :=
  match findDeviceByDeviceId st deviceId with
  | Some (_, elsewhere) =>
      let name := workspaceName st (d_workspaceId elsewhere) in
      Failure 403 "Workspace mismatch"
        (Text "This device belongs to a different workspace")
        (Some (mkMismatch (d_workspaceId elsewhere)
                 (if present name then or_empty name else "Unknown Workspace")
                 (is_some (findMember st (d_workspaceId elsewhere) userId))))
  | None =>
      Failure 404 "Device not recognized"
        (Text "Perangkat ini tidak terdaftar di workspace Anda.") None
  end.

(** Steps 6 and 7: the awards, the activity and the success answer.
    [totalPoints] is [user.points] in the workspace scan ([user] is
    known to exist there) and [user?.points || membership.points] in the
    global scan. *)
Definition award (globalScan : bool) (now : Z) (workspaceId userId : string)
    (finalType : option string) (device : Device)
    (j : nat) (membership : Member) (user : option (nat * User))
    (st : Store) : Response * Store :=
  let membership' := award_member membership in
  let st1 := save_member j membership' st in
  let st2 := match user with
             | Some (k, u) => save_user k (award_user u) st1
             | None => st1
             end in
  let a := scanActivity now workspaceId userId finalType device in
  let total := match user with
               | Some (_, u) =>
                   if globalScan && (u_points (award_user u) =? 0)
                   then m_points membership'
                   else u_points (award_user u)
               | None => m_points membership'
               end in
  (Success (mkScanData 10 (m_points membership') total
                       (m_scanCount membership') a),
   create_activity a st2).

(** [exports.scanDevice]: the workspace of the URL is the target. [None]
    stands for the requests left out of the model: a decrypted payload
    whose [deviceId] or [type] is not a string, a legacy request without
    [deviceId]. *)
Definition scanDevice (now : Z) (req : Request) (st : Store)
  : option (Response * Store) :=
  match decode req with
  | Rejected r => Some (r, st)
  | Untyped => None
  | Fields payload finalDeviceId finalAction finalType =>
      let workspaceId := req_workspaceId req in
      let userId := req_userId req in
      if negb (present finalAction) then
        Some (Failure 400 "Missing action field"
                (Text "QR code must contain an action field") None, st)
      else
      let a := or_empty finalAction in
      if negb (String.eqb a "SCAN" || String.eqb a "REGISTER") then
        Some (Failure 400 ("Invalid action " ++ dquote ++ a ++ dquote)
                (Text "Action must be SCAN or REGISTER") None, st)
      else if negb (String.eqb a "SCAN") then Some (notForPoints a, st)
      else
      match findMember st workspaceId userId with
      | None => Some (notAMember, st)
      | Some (j, membership) =>
          match finalDeviceId with
          | None => None
          | Some deviceId =>
              match resolveInWorkspace st deviceId workspaceId with
              | None => Some (deviceNotResolved st deviceId userId, st)
              | Some (i, device) =>
                  let continue (st1 : Store) :=
                    match findUser st1 userId with
                    | None => (Failure 404 "User not found" NoMessage None, st1)
                    | Some ku =>
                        award false now workspaceId userId finalType device
                              j membership (Some ku) st1
                    end in
                  match payload with
                  | Some p =>
                      if Qle_bool (p_uniqueCode p) (lastUniqueCodeOrZero device)
                      then Some (replayDetected, st)
                      else Some (continue
                             (save_device i
                                (set_lastUniqueCode device (p_uniqueCode p)) st))
                  | None => Some (continue st)
                  end
              end
          end
      end
  end.

(** [exports.scanDeviceGlobal]: encrypted payloads only, the device's own
    workspace is the target. *)
Definition scanDeviceGlobal (now : Z) (req : Request) (st : Store)
  : option (Response * Store) :=
  if negb (present (req_encryptedPayload req)) then
    Some (Failure 400 "Missing encrypted payload"
            (Text "QR code ini tidak valid. Gunakan QR code yang telah dienkripsi.")
            None, st)
  else
  match decodeEncrypted (or_empty (req_encryptedPayload req)) with
  | Rejected r => Some (r, st)
  | Untyped | Fields None _ _ _ => None
  | Fields (Some p) _ _ finalType =>
      let userId := req_userId req in
      if negb (String.eqb (p_action p) "SCAN") then
        Some (notForPoints (p_action p), st)
      else
      match resolveAnywhere st (p_deviceId p) with
      | None =>
          Some (Failure 404 "Device not recognized"
                  (Text "Perangkat ini tidak terdaftar di sistem.") None, st)
      | Some (i, device) =>
          let workspaceId := d_workspaceId device in
          match findMember st workspaceId userId with
          | None =>
              let name := workspaceName st workspaceId in
              Some (Failure 403 "Not a member of this workspace"
                      (Text ("Perangkat ini milik workspace " ++ dquote
                             ++ (if present name then or_empty name else "Unknown")
                             ++ dquote ++ ", tapi Anda bukan anggotanya."))
                      None, st)
          | Some (j, membership) =>
              if Qle_bool (p_uniqueCode p) (lastUniqueCodeOrZero device)
              then Some (replayDetected, st)
              else
                let st1 := save_device i
                             (set_lastUniqueCode device (p_uniqueCode p)) st in
                Some (award true now workspaceId userId finalType device
                            j membership (findUser st1 userId) st1)
          end
      end
  end.

(** The same request sent once at each of the instants [times], in order:
    the answers and the store they leave. *)
Fixpoint scanRepeatedly (times : list Z) (req : Request) (st : Store)
  : option (list Response * Store) :=
  match times with
  | [] => Some ([], st)
  | now :: later =>
      match scanDevice now req st with
      | None => None
      | Some (r, st1) =>
          match scanRepeatedly later req st1 with
          | None => None
          | Some (rs, st2) => Some (r :: rs, st2)
          end
      end
  end.

(** The payload a request carries, if it is an encrypted one that decodes. *)
Definition payloadOf (req : Request) : option Payload :=
  match decode req with
  | Fields payload _ _ _ => payload
  | _ => None
  end.

End WithCipher.

Definition is_failure (r : Response) : bool :=
  match r with
  | Failure _ _ _ _ => true
  | Success _ => false
  end.

(** An answer that is a success of 10 points and echoes the SCAN activity
    [a] of 10 points. *)
Definition awards_and_logs (r : Response) (a : Model.Activity) : Prop :=
  exists data, r = Success data /\ pointsEarned data = 10
               /\ activity data = a
               /\ a_type a = "SCAN" /\ a_points a = 10.

Definition status_of (r : Response) : Z :=
  match r with
  | Failure status _ _ _ => status
  | Success _ => 200
  end.

Definition error_of (r : Response) : option string :=
  match r with
  | Failure _ error _ _ => Some error
  | Success _ => None
  end.

Definition message_of (r : Response) : message :=
  match r with
  | Failure _ _ msg _ => msg
  | Success _ => NoMessage
  end.

(** The replay counters of a device collection before and after a request:
    the same devices, none with a smaller [lastUniqueCode]. *)
Definition never_decreases (before after : list Device) : Prop :=
  Forall2 (fun d d' => d_id d = d_id d'
                       /\ (d_lastUniqueCode d <= d_lastUniqueCode d')%Q)
          before after.

(** [res.status(404).json({ success: false, error: 'User not found' })] *)
Definition userNotFound : Response := Failure 404 "User not found" NoMessage None.

(** The store after the replay step of an accepted scan: the device found at
    position [i] carries the payload's code, if there is a payload. *)
Definition after_replay (payload : option Payload) (i : nat) (d : Device)
    (st : Store) : Store :=
  match payload with
  | Some p => save_device i (set_lastUniqueCode d (p_uniqueCode p)) st
  | None => st
  end.

(** What a lookup that found [found] finds once the device at position [i]
    has been saved as [d']. *)
Definition recoded (i : nat) (d' : Device) (found : option (nat * Device))
  : option (nat * Device) :=
  match found with
  | Some (j, z) => Some (j, if decide (j = i) then d' else z)
  | None => None
  end.

(** The workspace of the device an encrypted request names, wherever that
    device is registered. *)
Definition targetWorkspace (decrypt : string -> option value) (req : Request)
    (st : Store) : option string :=
  match payloadOf decrypt req with
  | Some p =>
      match resolveAnywhere st (p_deviceId p) with
      | Some (_, d) => Some (d_workspaceId d)
      | None => None
      end
  | None => None
  end.

(** A call of one of the two scan endpoints at an instant, and a
    sequence of calls served one after the other. *)
Inductive Call : Type :=
| ToWorkspace (now : Z) (req : Request)
| ToAnywhere (now : Z) (req : Request).

Definition serve (decrypt : string -> option value) (c : Call) (st : Store)
  : option (Response * Store) :=
  match c with
  | ToWorkspace now req => scanDevice decrypt now req st
  | ToAnywhere now req => scanDeviceGlobal decrypt now req st
  end.

Fixpoint serveAll (decrypt : string -> option value) (calls : list Call)
    (st : Store) : option (list Response * Store) :=
  match calls with
  | [] => Some ([], st)
  | c :: later =>
      match serve decrypt c st with
      | None => None
      | Some (r, st1) =>
          match serveAll decrypt later st1 with
          | None => None
          | Some (rs, st2) => Some (r :: rs, st2)
          end
      end
  end.

(** The number of success answers. *)
Definition successes (rs : list Response) : Z :=
  Z.of_nat (length (filter (fun r => is_failure r = false) rs)).

End Scan.

(** ** Calendar arithmetic on instants (UTC) *)

Module Clock.

Definition msPerHour : Z := 3600000.
Definition msPerDay : Z := 86400000.

(** [{ $dateTrunc: { date, unit: "day" } }] and [setUTCHours(0, 0, 0, 0)]:
    midnight UTC of the instant's day. *)
Definition startOfDay (t : Z) : Z := t - t mod msPerDay.

(** [{ $hour: date }]: the hour of the day, 0 to 23. *)
Definition hourOf (t : Z) : Z := (t mod msPerDay) / msPerHour.

(** [setHours(23, 59, 59, 999)]: the last millisecond of the day. *)
Definition endOfDay (t : Z) : Z := startOfDay t + msPerDay - 1.

(** [d.setDate(d.getDate() - n)]: the same time of day, [n] days back. *)
Definition daysBefore (n : Z) (t : Z) : Z := t - n * msPerDay.

End Clock.

(** ** The archive compactor ([src/services/activityArchiveService.js])
    and the archive documents (the ActivityArchive schema) *)

Module Archive.
Import Model Clock.

(** One entry of a day document's [timeline]. *)
Record Bucket : Type := mkBucket {
  b_hour : Z;
  b_type : string;
  b_deviceType : option string;
  b_count : Z;
  b_points : Z;
  b_userIds : list string
}.

Record Stats : Type := mkStats {
  totalPoints : Z;
  totalActivities : Z;
  activeUsersCount : Z
}.

Record DayDoc : Type := mkDayDoc {
  doc_workspaceId : string;
  doc_date : Z;
  doc_stats : Stats;
  doc_timeline : list Bucket
}.

(** The archive collection: at most one document per (workspaceId, date),
    each stored under the [_id] it received when it was first inserted;
    [next_id] is the next [_id] the store hands out. *)
Record Collection : Type := mkCollection {
  stored : gmap (string * Z) (nat * DayDoc);
  next_id : nat
}.

Section Group.
(** A [$group] stage: documents are folded, in order, into one
    accumulator per key; a key's accumulator starts from [empty]. The
    groups come out in the order in which their keys first occur. The
    store itself promises no order, neither of the groups nor of the
    arrays [$push] and [$addToSet] build: this is one of the orders it
    may deliver, what is stated of the documents below does not depend on
    it, and documents of different runs are compared up to it
    ([same_document]). *)
Context {A K B : Type} `{EqDecision K}.
Variable key : A -> K.
Variable empty : B.
Variable step : B -> A -> B.

Fixpoint add_to_group (a : A) (groups : list (K * B)) : list (K * B) :=
  match groups with
  | [] => [(key a, step empty a)]
  | (k, b) :: rest =>
      if decide (k = key a) then (k, step b a) :: rest
      else (k, b) :: add_to_group a rest
  end.

Definition group (docs : list A) : list (K * B) :=
  foldl (fun groups a => add_to_group a groups) [] docs.

(** The documents of one key. *)
Definition selected (k : K) (docs : list A) : list A :=
  filter (fun a => key a = k) docs.
End Group.

(** [$addToSet] *)
Definition addToSet (x : string) (l : list string) : list string :=
  if decide (x ∈ l) then l else l ++ [x].

(** Stage 1: [$match] on [createdAt] in [start, end). *)
Definition stage_match (startDate endDate : Z) (raw : list Activity)
  : list Activity :=
  filter (fun a => startDate <= a_createdAt a /\ a_createdAt a < endDate) raw.

(** Stage 2: one group per (workspaceId, type, deviceType, day, hour). *)
Definition HourKey : Type := string * string * option string * Z * Z.

Record HourAcc : Type := mkHourAcc {
  h_count : Z;
  h_points : Z;
  h_userIds : list string
}.

Definition hour_key (a : Activity) : HourKey :=
  (a_workspaceId a, a_type a, a_deviceType a,
   startOfDay (a_createdAt a), hourOf (a_createdAt a)).

Definition hour_step (acc : HourAcc) (a : Activity) : HourAcc :=
  mkHourAcc (h_count acc + 1) (h_points acc + a_points a)
            (addToSet (a_userId a) (h_userIds acc)).

Definition stage_hours (docs : list Activity) : list (HourKey * HourAcc) :=
  group hour_key (mkHourAcc 0 0 []) hour_step docs.

(** Stage 3: one group per (workspaceId, day). *)
Record DayAcc : Type := mkDayAcc {
  dailyTotalPoints : Z;
  dailyTotalActivities : Z;
  allUserIds : list (list string);
  timeline : list Bucket
}.

Definition day_key (g : HourKey * HourAcc) : string * Z :=
  let '(w, _, _, day, _) := fst g in (w, day).

Definition bucket_of (g : HourKey * HourAcc) : Bucket :=
  let '(_, type, deviceType, _, hour) := fst g in
  mkBucket hour type deviceType (h_count (snd g)) (h_points (snd g))
           (h_userIds (snd g)).

Definition day_step (acc : DayAcc) (g : HourKey * HourAcc) : DayAcc :=
  mkDayAcc (dailyTotalPoints acc + h_points (snd g))
           (dailyTotalActivities acc + h_count (snd g))
           (allUserIds acc ++ [h_userIds (snd g)])
           (timeline acc ++ [bucket_of g]).

Definition stage_days (hours : list (HourKey * HourAcc))
  : list (string * Z * DayAcc) :=
  group day_key (mkDayAcc 0 0 [] []) day_step hours.

(** Stage 4: [$project]. [$reduce] with [$concatArrays] flattens
    [allUserIds]; [$setUnion] of the one array drops its duplicates;
    [$size] counts what is left. *)
Definition project (g : string * Z * DayAcc) : DayDoc :=
  let '(w, day, acc) := g in
  mkDayDoc w day
    (mkStats (dailyTotalPoints acc) (dailyTotalActivities acc)
             (Z.of_nat (length (remove_dups (concat (allUserIds acc))))))
    (timeline acc).

Definition pipeline (startDate endDate : Z) (raw : list Activity) : list DayDoc :=
  map project (stage_days (stage_hours (stage_match startDate endDate raw))).

(** Stage 5: [$merge] on (workspaceId, date), [whenMatched: "replace"]
    (the stored [_id] stays), [whenNotMatched: "insert"]. *)
Definition doc_key (d : DayDoc) : string * Z := (doc_workspaceId d, doc_date d).

Definition merge_one (c : Collection) (d : DayDoc) : Collection :=
  let k := doc_key d in
  match stored c !! k with
  | Some (id, _) => mkCollection (<[k := (id, d)]> (stored c)) (next_id c)
  | None => mkCollection (<[k := (next_id c, d)]> (stored c)) (S (next_id c))
  end.

Definition merge (docs : list DayDoc) (c : Collection) : Collection :=
  foldl merge_one c docs.

(** [archiveActivities(startDate, endDate)] run over the raw activities
    [raw] and the archive collection [c]. *)
Definition archiveActivities (startDate endDate : Z) (raw : list Activity)
    (c : Collection) : Collection :=
  merge (pipeline startDate endDate raw) c.

(** [archiveYesterdaysActivities()] *)
Definition archiveYesterdaysActivities (now : Z) (raw : list Activity)
    (c : Collection) : Collection :=
  let endDate := startOfDay now in
  archiveActivities (daysBefore 1 endDate) endDate raw c.

(** In every day group the pushed user-id arrays are those of the pushed
    timeline entries. *)
Definition aligned (acc : DayAcc) : Prop :=
  allUserIds acc = map b_userIds (timeline acc).

(** The users of the raw activities of a workspace and a day, within the
    compacted range. *)
Definition day_users (startDate endDate : Z) (raw : list Activity)
    (workspaceId : string) (day : Z) : gset string :=
  list_to_set
    (map a_userId
       (filter (fun a => a_workspaceId a = workspaceId
                         /\ startOfDay (a_createdAt a) = day)
               (stage_match startDate endDate raw))).

(** The per-bucket user sets of a day document, united. *)
Definition bucket_users_union (d : DayDoc) : gset string :=
  ⋃ (map (fun b => list_to_set (b_userIds b)) (doc_timeline d)).

(** The sum of the per-bucket set sizes, which the count is not. *)
Definition bucket_users_sum (d : DayDoc) : Z :=
  foldr (fun b n => Z.of_nat (length (b_userIds b)) + n) 0 (doc_timeline d).

(** The sum of a number over a list, as [$sum] computes it over a group. *)
Definition sum_of {X} (f : X -> Z) (l : list X) : Z :=
  foldr (fun x n => f x + n) 0 l.

(** The raw activities of a workspace and a day within the compacted range. *)
Definition day_activities (startDate endDate : Z) (raw : list Activity)
    (workspaceId : string) (day : Z) : list Activity :=
  filter (fun a => a_workspaceId a = workspaceId
                   /\ startOfDay (a_createdAt a) = day)
         (stage_match startDate endDate raw).

(** The raw activities behind a timeline bucket of that workspace and day. *)
Definition bucket_activities (startDate endDate : Z) (raw : list Activity)
    (workspaceId : string) (day : Z) (b : Bucket) : list Activity :=
  filter (fun a => hour_key a
                   = (workspaceId, b_type b, b_deviceType b, day, b_hour b))
         (stage_match startDate endDate raw).

(** The day group an hour group belongs to. *)
Definition day_of (hk : HourKey) : string * Z :=
  let '(w, _, _, day, _) := hk in (w, day).

(** The unique index on [(workspaceId, date)]: every document is stored
    under its own key. *)
Definition keyed (c : Collection) : Prop :=
  forall k id d, stored c !! k = Some (id, d) -> doc_key d = k.

(** Two timeline entries, and two day documents, that differ at most in
    the order the store delivered their arrays in: [$group] promises no
    order of its groups, nor [$push] and [$addToSet] of their elements. *)
Definition same_bucket (b1 b2 : Bucket) : Prop :=
  b_hour b1 = b_hour b2 /\ b_type b1 = b_type b2
  /\ b_deviceType b1 = b_deviceType b2
  /\ b_count b1 = b_count b2 /\ b_points b1 = b_points b2
  /\ b_userIds b1 ≡ₚ b_userIds b2.

Definition same_document (d1 d2 : DayDoc) : Prop :=
  doc_workspaceId d1 = doc_workspaceId d2 /\ doc_date d1 = doc_date d2
  /\ doc_stats d1 = doc_stats d2
  /\ exists entries,
       doc_timeline d1 ≡ₚ entries
       /\ Forall2 same_bucket entries (doc_timeline d2).

End Archive.

(** ** The archive queries ([getArchivedStats], [getActivityTypeBreakdown]
    of the archive service and their handlers in
    [src/controllers/deviceController.js]) *)

Module ArchiveQuery.
Import Model Clock Archive.

(** *** [parseInt(text)] without a radix. [None] is [NaN]. Leading white
    space (every white-space and line-terminator code point) is skipped, a
    sign is read, [0x] or [0X] switches to base sixteen, then the longest
    run of digits is read; no digit at all gives [NaN]. The result is the
    exact integer. *)

Definition digit_value (radix : Z) (c : ascii) : option Z :=
  let n := Z.of_nat (nat_of_ascii c) in
  let v := if (48 <=? n) && (n <=? 57) then Some (n - 48)
           else if (97 <=? n) && (n <=? 122) then Some (n - 87)
           else if (65 <=? n) && (n <=? 90) then Some (n - 55)
           else None in
  match v with
  | Some d => if d <? radix then Some d else None
  | None => None
  end.

(** The digits read so far are worth [acc]; [seen] tells whether there
    was one. *)
Fixpoint read_digits (radix : Z) (s : string) (acc : Z) (seen : bool)
  : option Z :=
  match s with
  | EmptyString => if seen then Some acc else None
  | String c rest =>
      match digit_value radix c with
      | Some d => read_digits radix rest (acc * radix + d) true
      | None => if seen then Some acc else None
      end
  end.

Definition read_unsigned (s : string) : option Z :=
  match s with
  | String "0"%char (String x rest) =>
      if Ascii.eqb x "x"%char || Ascii.eqb x "X"%char
      then read_digits 16 rest 0 false
      else read_digits 10 s 0 false
  | _ => read_digits 10 s 0 false
  end.

Definition parseInt (text : option string) : option Z :=
  match text with
  | None => None
  | Some raw =>
      match Text.skip_spaces raw with
      | String "-"%char rest => option_map Z.opp (read_unsigned rest)
      | String "+"%char rest => read_unsigned rest
      | s => read_unsigned s
      end
  end.

(** [parseInt(x) || dflt]: [NaN] and [0] are falsy. *)
Definition parsed_or (dflt : Z) (n : option Z) : Z :=
  match n with
  | Some v => if v =? 0 then dflt else v
  | None => dflt
  end.

(** The archive documents of a workspace dated [startDate] or later, as
    [ActivityArchive.find({ workspaceId, date: { $gte: startDate } })]
    returns them. *)
Definition findArchives (c : Collection) (workspaceId : string) (startDate : Z)
  : list DayDoc :=
  map (fun kv => snd (snd kv))
      (filter (fun kv => fst (fst kv) = workspaceId /\ startDate <= snd (fst kv))
              (map_to_list (stored c))).

Definition lookbackStart (now days : Z) : Z :=
  startOfDay (daysBefore days now).

Record DailyEntry : Type := mkDaily {
  day_date : Z;
  day_points : Z;
  day_activities : Z;
  day_users : Z
}.

(** [period] is the number interpolated in [`last_${days}_days`]. *)
Record ArchivedStats : Type := mkArchivedStats {
  period : Z;
  sumPoints : Z;
  sumActivities : Z;
  uniqueUsers : Z;
  dailyBreakdown : list DailyEntry
}.

(** [.sort({ date: -1 })] *)
Definition newest_first (a b : DayDoc) : Prop := doc_date b <= doc_date a.

#[global] Instance newest_first_dec : RelDecision newest_first :=
  fun a b => decide (doc_date b <= doc_date a).

Definition users_of (d : DayDoc) : gset string :=
  ⋃ (map (fun b => list_to_set (b_userIds b)) (doc_timeline d)).

(** [getArchivedStats(workspaceId, days)]: the documents sorted by date,
    newest first. *)
Definition getArchivedStats (now : Z) (c : Collection) (workspaceId : string)
    (days : Z) : ArchivedStats :=
  let archives :=
    merge_sort newest_first
               (findArchives c workspaceId (lookbackStart now days)) in
  mkArchivedStats days
    (foldl (fun n d => n + totalPoints (doc_stats d)) 0 archives)
    (foldl (fun n d => n + totalActivities (doc_stats d)) 0 archives)
    (Z.of_nat (size (⋃ (map users_of archives))))
    (map (fun d => mkDaily (doc_date d) (totalPoints (doc_stats d))
                           (totalActivities (doc_stats d))
                           (activeUsersCount (doc_stats d))) archives).

(** [getActivityTypeBreakdown(workspaceId, days)]: [typeStats], a map from
    the activity type to its count and points. *)
Definition add_type (stats : gmap string (Z * Z)) (b : Bucket)
  : gmap string (Z * Z) :=
  let '(count, points) := default (0, 0) (stats !! b_type b) in
  <[b_type b := (count + b_count b, points + b_points b)]> stats.

Definition getActivityTypeBreakdown (now : Z) (c : Collection)
    (workspaceId : string) (days : Z) : gmap string (Z * Z) :=
  foldl (fun stats d => foldl add_type stats (doc_timeline d)) ∅
        (findArchives c workspaceId (lookbackStart now days)).

Inductive Response (A : Type) : Type :=
| Ok (data : A)
| InvalidDays.   (* 400, code INVALID_DAYS, 'days must be between 1 and 365' *)
Arguments Ok {A} data.
Arguments InvalidDays {A}.

(** [exports.getWorkspaceArchiveStats]; [days] is [req.query.days]. *)
Definition getWorkspaceArchiveStats (now : Z) (c : Collection)
    (workspaceId : string) (query_days : option string)
  : Response ArchivedStats :=
  let days := parsed_or 7 (parseInt query_days) in
  if (days <? 1) || (days >? 365) then InvalidDays
  else Ok (getArchivedStats now c workspaceId days).

(** [exports.getWorkspaceTypeBreakdown]: the answer carries the period's
    number of days and the breakdown. *)
Definition getWorkspaceTypeBreakdown (now : Z) (c : Collection)
    (workspaceId : string) (query_days : option string)
  : Response (Z * gmap string (Z * Z)) :=
  let days := parsed_or 30 (parseInt query_days) in
  if (days <? 1) || (days >? 365) then InvalidDays
  else Ok (days, getActivityTypeBreakdown now c workspaceId days).

(** The raw activities of a workspace that a compaction of
    [startDate, endDate) read and that the look-back of [days] days from
    [now] reaches. *)
Definition window_activities (now days startDate endDate : Z)
    (raw : list Activity) (workspaceId : string) : list Activity :=
  filter (fun a => a_workspaceId a = workspaceId
                   /\ lookbackStart now days <= a_createdAt a)
         (stage_match startDate endDate raw).

(** The timeline entries of a type over a list of day documents. *)
Definition buckets_of_type (t : string) (docs : list DayDoc) : list Bucket :=
  filter (fun b => b_type b = t) (concat (map doc_timeline docs)).

End ArchiveQuery.

(** ** The activity log queries ([src/controllers/activityController.js],
    [src/controllers/activityExportController.js]) *)

Module ActivityLog.
Import Model Clock Archive.

(** A date parameter of a request: absent (or the empty string, which is
    falsy), a text [new Date] cannot read (an Invalid Date), or the instant
    it reads. *)
Inductive DateParam : Type :=
| Absent
| Unreadable
| Instant (t : Z).

(** [.sort({ createdAt: -1 })] *)
Definition most_recent_first (a b : Activity) : Prop :=
  a_createdAt b <= a_createdAt a.

#[global] Instance most_recent_first_dec : RelDecision most_recent_first :=
  fun a b => decide (a_createdAt b <= a_createdAt a).

Record ActivitiesRequest : Type := mkActivitiesRequest {
  q_workspaceId : string;
  q_userId : string;
  q_since : DateParam;
  (** [limit] once read by [parseInt]: absent, or a count; a count of zero
      sets no limit in the store. *)
  q_limit : option nat
}.

Inductive ActivitiesResponse : Type :=
| Activities (rows : list Activity)
| NotAMember                      (* 403 *)
| FailedToGet.                    (* 500 *)

(** The lower bound of the query: [since ? new Date(since) :
    membership.joinedDate]. [None] is the Invalid Date, which the store's
    query refuses. *)
Definition lowerBound (since : DateParam) (membership : Member) : option Z :=
  match since with
  | Absent => Some (m_joinedDate membership)
  | Unreadable => None
  | Instant t => Some t
  end.

Definition apply_limit {A} (limit : option nat) (l : list A) : list A :=
  match limit with
  | Some (S n) => take (S n) l
  | _ => l
  end.

(** [exports.getActivities]. The rows are formatted after [populate]: a row
    whose user is gone makes [activity.userId._id] throw, and the handler
    answers 500. *)
Definition getActivities (req : ActivitiesRequest) (st : Store)
  : ActivitiesResponse :=
  match findMember st (q_workspaceId req) (q_userId req) with
  | None => NotAMember
  | Some (_, membership) =>
      match lowerBound (q_since req) membership with
      | None => FailedToGet
      | Some bound =>
          let found :=
            filter (fun a => a_workspaceId a = q_workspaceId req
                             /\ bound <= a_createdAt a) (activities st) in
          let rows := apply_limit (q_limit req)
                        (merge_sort most_recent_first found) in
          if forallb (fun a => bool_decide (is_Some (findUser st (a_userId a)))) rows
          then Activities rows
          else FailedToGet
      end
  end.

(** *** Export *)

Record ExportRequest : Type := mkExportRequest {
  e_workspaceId : string;
  e_userId : string;
  e_ownership : option string;     (* default 'ALL' *)
  e_deviceType : option string;
  e_activityType : option string;
  e_startDate : DateParam;
  e_endDate : DateParam
}.

(** A row flattened from an archive day document. *)
Record AggregatedRow : Type := mkAggregatedRow {
  r_date : Z;
  r_hour : Z;
  r_type : string;
  r_deviceType : string;
  r_count : Z;
  r_points : Z
}.

(** What the workbook is filled from: raw activities for MY_ACTIVITY,
    aggregated rows otherwise. *)
Inductive ExportResponse : Type :=
| RawRows (rows : list Activity)
| ArchiveRows (rows : list AggregatedRow)
| AccessDenied                    (* 403 FORBIDDEN *)
| ExportFailed.                   (* 500 INTERNAL_SERVER_ERROR *)

Definition nonempty (o : option string) : bool :=
  match o with
  | Some s => negb (String.eqb s EmptyString)
  | None => false
  end.

(** [if (f) query.field = f]: an absent or empty filter selects all. *)
Definition passes (f : option string) (field : option string) : Prop :=
  nonempty f = true -> field = f.

#[global] Instance passes_dec f field : Decision (passes f field).
Proof. unfold passes. apply _. Defined.

(** [thirtyDaysAgo]: [new Date()] moved back thirty days. *)
Definition thirtyDaysAgo (now : Z) : Z := daysBefore 30 now.

(** [start && start > thirtyDaysAgo ? start : thirtyDaysAgo]: an Invalid
    Date compares false to everything. *)
Definition effectiveStart (now : Z) (startDate : DateParam) : Z :=
  match startDate with
  | Instant t => if t >? thirtyDaysAgo now then t else thirtyDaysAgo now
  | _ => thirtyDaysAgo now
  end.

(** [end]: [endDate ? new Date(endDate) : new Date()], then moved to the
    end of its day; [None] is the Invalid Date. *)
Definition endBound (now : Z) (endDate : DateParam) : option Z :=
  match endDate with
  | Absent => Some (endOfDay now)
  | Unreadable => None
  | Instant t => Some (endOfDay t)
  end.

(** [if (start) archiveQuery.date = { $gte: start }] *)
Definition from_start (startDate : DateParam) (t : Z) : Prop :=
  match startDate with
  | Instant s => s <= t
  | _ => True
  end.

#[global] Instance from_start_dec startDate t : Decision (from_start startDate t).
Proof. destruct startDate; simpl; apply _. Defined.

(** [.limit(10000)] *)
Definition safetyLimit : nat := Z.to_nat 10000.

Definition by_day_desc (a b : DayDoc) : Prop := doc_date b <= doc_date a.

#[global] Instance by_day_desc_dec : RelDecision by_day_desc :=
  fun a b => decide (doc_date b <= doc_date a).

(** The rows of one day document, filtered per timeline entry. *)
Definition flatten (deviceType activityType : option string) (d : DayDoc)
  : list AggregatedRow :=
  map (fun b => mkAggregatedRow (doc_date d) (b_hour b) (b_type b)
                  (if nonempty (b_deviceType b)
                   then default EmptyString (b_deviceType b) else "N/A")
                  (b_count b) (b_points b))
      (filter (fun b => passes deviceType (b_deviceType b)
                        /\ passes activityType (Some (b_type b)))
              (doc_timeline d)).

(** [exports.exportActivities], up to the rows handed to the workbook. *)
Definition exportActivities (now : Z) (req : ExportRequest) (st : Store)
    (archive : Collection) : ExportResponse :=
  match findMember st (e_workspaceId req) (e_userId req) with
  | None => AccessDenied
  | Some _ =>
      match endBound now (e_endDate req) with
      | None => ExportFailed
      | Some endAt =>
          if bool_decide (e_ownership req = Some "MY_ACTIVITY") then
            let from := effectiveStart now (e_startDate req) in
            let found :=
              filter (fun a => a_workspaceId a = e_workspaceId req
                               /\ a_userId a = e_userId req
                               /\ from <= a_createdAt a /\ a_createdAt a <= endAt
                               /\ passes (e_deviceType req) (a_deviceType a)
                               /\ passes (e_activityType req) (Some (a_type a)))
                     (activities st) in
            RawRows (take safetyLimit (merge_sort most_recent_first found))
          else
            match e_startDate req with
            | Unreadable => ExportFailed
            | _ =>
                let docs :=
                  filter (fun d => doc_workspaceId d = e_workspaceId req
                                   /\ from_start (e_startDate req) (doc_date d)
                                   /\ doc_date d <= endAt)
                         (map (fun kv => snd (snd kv)) (map_to_list (stored archive))) in
                ArchiveRows
                  (concat (map (flatten (e_deviceType req) (e_activityType req))
                               (merge_sort by_day_desc docs)))
            end
      end
  end.

(** *** Export limits *)

Record ExportInfo : Type := mkExportInfo {
  myMinDate : Z;
  maxDate : Z;
  allMinDate : option Z
}.

Inductive ExportInfoResponse : Type :=
| ExportLimits (info : ExportInfo)
| InfoDenied.                     (* 403 FORBIDDEN *)

Definition earliest_first (a b : DayDoc) : Prop := doc_date a <= doc_date b.

#[global] Instance earliest_first_dec : RelDecision earliest_first :=
  fun a b => decide (doc_date a <= doc_date b).

(** [exports.getExportInfo]. A date printed as
    [toISOString().split('T')[0]] is given by the instant its UTC day
    starts at. *)
Definition getExportInfo (now : Z) (workspaceId userId : string) (st : Store)
    (archive : Collection) : ExportInfoResponse :=
  match findMember st workspaceId userId with
  | None => InfoDenied
  | Some _ =>
      let earliestArchive :=
        head (merge_sort earliest_first
                (filter (fun d => doc_workspaceId d = workspaceId)
                        (map (fun kv => snd (snd kv))
                             (map_to_list (stored archive))))) in
      ExportLimits
        (mkExportInfo (startOfDay (thirtyDaysAgo now)) (startOfDay now)
           (option_map (fun d => startOfDay (doc_date d)) earliestArchive))
  end.

End ActivityLog.

(** ** The activity graph ([exports.getActivityGraph] of
    [src/controllers/activityController.js]) *)

Module Graph.
Import Model Clock Archive.

Inductive GroupBy : Type := ByHour | ByDay.

Record GraphRequest : Type := mkGraphRequest {
  g_workspaceId : string;
  g_userId : string;
  g_range : option string;         (* default 'today' *)
  g_types : option string
}.

(** A point of the chart: its slot is the hour (0 to 23) when the chart
    is by hour, and the instant its UTC day starts at when the chart is by
    day (the process runs in UTC, so the year, month and day of the local
    date are those of [$year], [$month] and [$dayOfMonth]). *)
Record DataPoint : Type := mkDataPoint {
  dp_slot : Z;
  dp_count : Z;
  dp_points : Z
}.

Record GraphData : Type := mkGraphData {
  g_groupBy : GroupBy;
  g_startDate : Z;
  g_endDate : Z;
  dataPoints : list DataPoint;
  g_totalActivities : Z;
  g_totalPoints : Z;
  typeBreakdown : gmap string (Z * Z)
}.

Inductive GraphResponse : Type :=
| GraphOf (data : GraphData)
| GraphDenied                     (* 403 *)
| GraphFailed.                    (* 500 *)

(** [s.split(',')] *)
Fixpoint split_commas (s : string) : list string :=
  match s with
  | EmptyString => [EmptyString]
  | String c rest =>
      if Ascii.eqb c ","%char then EmptyString :: split_commas rest
      else
        match split_commas rest with
        | first :: others => String c first :: others
        | [] => [String c EmptyString]
        end
  end.

(** The [switch (range)]: the window and the grouping. *)
Definition window (now : Z) (range : option string) : Z * Z * GroupBy :=
  let r := match range with Some r => r | None => "today" end in
  if String.eqb r "yesterday" then
    let startDate := startOfDay (daysBefore 1 now) in
    (startDate, endOfDay startDate, ByHour)
  else if String.eqb r "7days" then (startOfDay (daysBefore 7 now), now, ByDay)
  else if String.eqb r "30days" then (startOfDay (daysBefore 30 now), now, ByDay)
  else (startOfDay now, now, ByHour).

(** [range === '7days' ? 7 : 30] *)
Definition dayCount (range : option string) : Z :=
  match range with
  | Some r => if String.eqb r "7days" then 7 else 30
  | None => 30
  end.

(** [$match: matchFilter] *)
Definition matches (workspaceId : string) (startDate endDate : Z)
    (types : option (list string)) (a : Activity) : Prop :=
  a_workspaceId a = workspaceId
  /\ startDate <= a_createdAt a <= endDate
  /\ match types with
     | Some typeArray => a_type a ∈ typeArray
     | None => True
     end.

#[global] Instance matches_dec workspaceId startDate endDate types a :
  Decision (matches workspaceId startDate endDate types a).
Proof. unfold matches. destruct types; apply _. Defined.

(** The accumulators [count: { $sum: 1 }], [points: { $sum: '$points' }]
    and [types: { $push: '$type' }]. *)
Record Tally : Type := mkTally {
  t_count : Z;
  t_points : Z;
  t_types : list string
}.

Definition tally_step (acc : Tally) (a : Activity) : Tally :=
  mkTally (t_count acc + 1) (t_points acc + a_points a)
          (t_types acc ++ [a_type a])%list.

Definition slot_of (groupBy : GroupBy) (a : Activity) : Z :=
  match groupBy with
  | ByHour => hourOf (a_createdAt a)
  | ByDay => startOfDay (a_createdAt a)
  end.

(** [$sort] on the group key, ascending. *)
Definition ascending (g1 g2 : Z * Tally) : Prop := fst g1 <= fst g2.

#[global] Instance ascending_dec : RelDecision ascending :=
  fun g1 g2 => decide (fst g1 <= fst g2).

(** [graphData.find(d => ...)] for a slot, zero-filled. *)
Definition point_at (graphData : list (Z * Tally)) (slot : Z) : DataPoint :=
  match list_find (fun g => fst g = slot) graphData with
  | Some (_, (_, t)) => mkDataPoint slot (t_count t) (t_points t)
  | None => mkDataPoint slot 0 0
  end.

(** The slots: the hours 0 to 23, or the days from [dayCount - 1] days
    back to today. *)
Definition slots (now : Z) (groupBy : GroupBy) (range : option string)
  : list Z :=
  match groupBy with
  | ByHour => seqZ 0 24
  | ByDay =>
      map (fun d => startOfDay (daysBefore d now))
          (reverse (seqZ 0 (dayCount range)))
  end.

(** [typeBreakdown.reduce((acc, t) => { acc[t._id] = ...; return acc }, {})] *)
Definition toBreakdown (byType : list (string * Tally)) : gmap string (Z * Z) :=
  foldl (fun acc g => <[fst g := (t_count (snd g), t_points (snd g))]> acc)
        ∅ byType.

Section WithPlatform.

(** [mongoose.Types.ObjectId(workspaceId)], called without [new]: [None]
    when the call throws. [t.trim().toUpperCase()] is the platform's. *)
Variable objectId : string -> option string.
Variable trimUpper : string -> string.

(** [if (types)]: the empty string is falsy. *)
Definition typeArray (types : option string) : option (list string) :=
  match types with
  | Some s =>
      if String.eqb s EmptyString then None
      else Some (map trimUpper (split_commas s))
  | None => None
  end.

Definition getActivityGraph (now : Z) (req : GraphRequest) (st : Store)
  : GraphResponse :=
  match findMember st (g_workspaceId req) (g_userId req) with
  | None => GraphDenied
  | Some _ =>
      let '(startDate, endDate, groupBy) := window now (g_range req) in
      match objectId (g_workspaceId req) with
      | None => GraphFailed
      | Some id =>
          let matched :=
            filter (matches id startDate endDate (typeArray (g_types req)))
                   (activities st) in
          let graphData :=
            merge_sort ascending
              (group (slot_of groupBy) (mkTally 0 0 []) tally_step matched) in
          let totals :=
            match group (fun _ : Activity => tt) (mkTally 0 0 []) tally_step
                        matched with
            | (_, t) :: _ => (t_count t, t_points t)
            | [] => (0, 0)
            end in
          let byType := group a_type (mkTally 0 0 []) tally_step matched in
          GraphOf
            (mkGraphData groupBy startDate endDate
               (map (point_at graphData) (slots now groupBy (g_range req)))
               (fst totals) (snd totals)
               (toBreakdown byType))
      end
  end.

(** The activities a graph is computed from. *)
Definition graphed (now : Z) (req : GraphRequest) (st : Store)
  : list Activity :=
  match objectId (g_workspaceId req) with
  | Some id =>
      let '(startDate, endDate, _) := window now (g_range req) in
      filter (matches id startDate endDate (typeArray (g_types req)))
             (activities st)
  | None => []
  end.

End WithPlatform.

End Graph.

(** ** The archive administration ([src/controllers/adminController.js],
    [src/config/scheduler.js]) *)

Module Admin.
Import Model Clock Archive ActivityLog.

(** [runArchiveNow()], which [triggerArchive] answers with; the nightly job
    makes the same call. *)
Definition runArchiveNow (now : Z) (raw : list Activity) (c : Collection)
  : Collection :=
  archiveYesterdaysActivities now raw c.

(** The instant of the nightly job on day [n] of the epoch: the cron
    expression ['30 0 * * *'] in UTC, half an hour after midnight. *)
Definition nightly (n : Z) : Z := n * msPerDay + 30 * 60 * 1000.

Inductive RangeResponse : Type :=
| RangeArchived                  (* 200 *)
| MissingDates                   (* 400 MISSING_DATES *)
| InvalidDates                   (* 400 INVALID_DATES *)
| InvalidRange.                  (* 400 INVALID_RANGE *)

(** [exports.archiveDateRange]: the answer and the archive collection it
    leaves. *)
Definition archiveDateRange (startDate endDate : DateParam)
    (raw : list Activity) (c : Collection) : RangeResponse * Collection :=
  match startDate, endDate with
  | Absent, _ | _, Absent => (MissingDates, c)
  | Unreadable, _ | _, Unreadable => (InvalidDates, c)
  | Instant s, Instant e =>
      if s >=? e then (InvalidRange, c)
      else (RangeArchived, archiveActivities s e raw c)
  end.

Record Health : Type := mkHealth {
  archiveDocuments : nat;
  rawActivityDocuments : nat;
  oldestArchiveDate : option Z;
  newestArchiveDate : option Z
}.

(** [.sort({ date: 1 })] and [.sort({ date: -1 })] *)
Definition oldest_first (a b : DayDoc) : Prop := doc_date a <= doc_date b.

#[global] Instance oldest_first_dec : RelDecision oldest_first :=
  fun a b => decide (doc_date a <= doc_date b).

Definition latest_first (a b : DayDoc) : Prop := doc_date b <= doc_date a.

#[global] Instance latest_first_dec : RelDecision latest_first :=
  fun a b => decide (doc_date b <= doc_date a).

Definition documents (c : Collection) : list DayDoc :=
  map (fun kv => snd (snd kv)) (map_to_list (stored c)).

(** [exports.getArchiveHealth] *)
Definition getArchiveHealth (raw : list Activity) (c : Collection) : Health :=
  mkHealth (size (stored c)) (length raw)
    (doc_date <$> head (merge_sort oldest_first (documents c)))
    (doc_date <$> head (merge_sort latest_first (documents c))).

End Admin.

(** ** Sample data: the end-to-end scenario of the device BIN-004 *)

Module Samples.
Import Codec Model Scan.

Definition ws_green : string := "64b000000000000000000001".
Definition ws_lab : string := "64b000000000000000000002".
Definition user_ayu : string := "64c000000000000000000001".
Definition user_budi : string := "64c000000000000000000002".

Definition bin004 : Device :=
  mkDevice "64d000000000000000000004" (Some "BIN-004") "Lobby Bin" "SMART_BIN"
           ws_green 1000.

Definition lamp7 : Device :=
  mkDevice "64d000000000000000000007" (Some "LAMP-007") "Desk Lamp" "SMART_LAMP"
           ws_lab 0.

Definition store0 : Store :=
  mkStore [bin004; lamp7]
          [mkMember user_ayu ws_green 50 5 1000]
          [mkUser user_ayu 120 12; mkUser user_budi 0 0]
          [mkWorkspace ws_green "Green Office"; mkWorkspace ws_lab "Lab"]
          [].

(** A stand-in for the cipher: three QR texts that decrypt, to the payloads
    of BIN-004 with the codes 1000, 1001 and 3003/2; every other text fails
    to decrypt. *)
Definition cipher (text : string) : option value :=
  if String.eqb text "qr-1000" then Some (sample_payload 1000)
  else if String.eqb text "qr-1001" then Some (sample_payload 1001)
  else if String.eqb text "qr-1501.5" then Some (sample_payload (3003 # 2))
  else None.

Definition encrypted (text : string) (workspaceId userId : string) : Request :=
  mkRequest (Some text) None None None workspaceId userId.

Definition legacy (deviceId action : string) (workspaceId userId : string)
  : Request :=
  mkRequest None (Some deviceId) (Some action) None workspaceId userId.

(** Raw activities of one UTC day (the day that starts at instant 0): Ayu
    scans at 03:10 and at 15:20, Budi scans at 15:40; and one scan of the
    next day. *)
Definition scan_at (userId : string) (t : Z) : Activity :=
  mkActivity ws_green userId (Some "64d000000000000000000004")
             (Some "SMART_BIN") "SCAN" "Waste Scanned"
             "Lobby Bin" 10 t.

Definition raw0 : list Activity :=
  [scan_at user_ayu 11400000; scan_at user_ayu 55200000;
   scan_at user_budi 56400000; scan_at user_ayu 90000000].

Definition archive0 : Archive.Collection := Archive.mkCollection ∅ 0.

(** The day document of that first day. *)
Definition day0 : Archive.DayDoc :=
  Archive.mkDayDoc ws_green 0 (Archive.mkStats 30 3 2)
    [Archive.mkBucket 3 "SCAN" (Some "SMART_BIN") 1 10 [user_ayu];
     Archive.mkBucket 15 "SCAN" (Some "SMART_BIN") 2 20 [user_ayu; user_budi]].

(** The bucket of hour 15 of that day: two scans, by Ayu and by Budi. *)
Definition hour15 : Archive.Bucket :=
  Archive.mkBucket 15 "SCAN" (Some "SMART_BIN") 2 20 [user_ayu; user_budi].

(** A store whose log holds three scans by Ayu, who joined at instant 1000:
    one before she joined, one at instant 2000, one at instant 3000. *)
Definition store_log : Store :=
  mkStore (devices store0) (members store0) (users store0) (workspaces store0)
          [scan_at user_ayu 500; scan_at user_ayu 2000; scan_at user_ayu 3000].

(** A store seen on day 100, with scans by Ayu on day 50 and on day 80. *)
Definition day (n : Z) : Z := n * 86400000.

Definition store_old : Store :=
  mkStore (devices store0) (members store0) (users store0) (workspaces store0)
          [scan_at user_ayu (day 50); scan_at user_ayu (day 80)].

(** What the scan of the code 1001 by Ayu answers and leaves. *)
Definition data1001 : ScanData :=
  mkScanData 10 60 130 6
    (scanActivity 5000 ws_green user_ayu (Some "SMART_BIN") bin004).

Definition store1001 : Store :=
  mkStore [set_lastUniqueCode bin004 1001; lamp7]
          [mkMember user_ayu ws_green 60 6 1000]
          [mkUser user_ayu 130 13; mkUser user_budi 0 0]
          (workspaces store0)
          [activity data1001].

(** The same store without any user record. *)
Definition store_nouser : Store :=
  mkStore (devices store0) (members store0) [] (workspaces store0) [].

Definition data_nouser : ScanData :=
  mkScanData 10 60 60 6
    (scanActivity 5000 ws_green user_ayu (Some "SMART_BIN") bin004).

Definition store_nouser1001 : Store :=
  mkStore [set_lastUniqueCode bin004 1001; lamp7]
          [mkMember user_ayu ws_green 60 6 1000]
          [] (workspaces store0) [activity data_nouser].

(** What a member's export of everything gives on the fourth day, after
    the compaction of the two days of [raw0]. *)
Definition exported0 : list ActivityLog.AggregatedRow :=
  [ActivityLog.mkAggregatedRow 86400000 1 "SCAN" "SMART_BIN" 1 10;
   ActivityLog.mkAggregatedRow 0 3 "SCAN" "SMART_BIN" 1 10;
   ActivityLog.mkAggregatedRow 0 15 "SCAN" "SMART_BIN" 2 20].

(** Stand-ins for the platform in the graph examples: every workspace id
    casts to itself, and the type names are given trimmed and in upper
    case. *)
Definition cast_id (s : string) : option string := Some s.
Definition as_given (s : string) : string := s.

(** The chart of today at instant 4000 over [store_log]: three scans in
    the first hour. *)
Definition graph_today : Graph.GraphData :=
  Graph.mkGraphData Graph.ByHour 0 4000
    (Graph.mkDataPoint 0 3 30
     :: map (fun h => Graph.mkDataPoint h 0 0) (seqZ 1 23))
    3 30 {[ "SCAN" := (3, 30) ]}.

(** The chart of thirty days on day 80 over [store_old]: the scan of day
    80 has its slot, the scan of day 50 has none. *)
Definition graph_month : Graph.GraphData :=
  Graph.mkGraphData Graph.ByDay (day 50) (day 80)
    (map (fun k => Graph.mkDataPoint (day (80 - k))
                     (if k =? 0 then 1 else 0) (if k =? 0 then 10 else 0))
         (reverse (seqZ 0 30)))
    2 20 {[ "SCAN" := (2, 20) ]}.

(** A no-break space (U+00A0) and an ideographic space (U+3000), as the
    bytes of their UTF-8 encoding. *)
Definition nbsp : string :=
  String (ascii_of_nat 194) (String (ascii_of_nat 160) EmptyString).

Definition wide_space : string :=
  String (ascii_of_nat 227) (String (ascii_of_nat 128)
    (String (ascii_of_nat 128) EmptyString)).

End Samples.

(** * Properties *)

(** ** The payload validator *)

Section CodecFacts.
Import Codec.

Lemma first_missing_None (p : value) (fields : list string) :
  first_missing p fields = None <->
  forall f, f ∈ fields -> missing (get_field p f) = false.
Proof.
  induction fields as [|g rest IH]; simpl.
  - split; [intros _ f Hf; inversion Hf | reflexivity].
  - destruct (missing (get_field p g)) eqn:Hg.
    + split; [discriminate |].
      intros H. rewrite (H g) in Hg; [discriminate | left].
    + rewrite IH. split.
      * intros H f Hf. apply elem_of_cons in Hf as [-> | Hf]; auto.
      * intros H f Hf. apply H. now right.
Qed.

Lemma first_missing_Some (p : value) (fields : list string) (f : string) :
  first_missing p fields = Some f ->
  f ∈ fields /\ missing (get_field p f) = true.
Proof.
  induction fields as [|g rest IH]; simpl; [discriminate |].
  destruct (missing (get_field p g)) eqn:Hg.
  - intros [= <-]. split; [left | exact Hg].
  - intros H. destruct (IH H) as [Hin Hm]. split; [now right | exact Hm].
Qed.

Lemma missing_false (o : option value) :
  missing o = false <-> exists v, o = Some v /\ v <> JNull.
Proof.
  split.
  - destruct o as [v|]; [| discriminate].
    intros H. exists v. split; [reflexivity |]. intros ->. discriminate.
  - intros (v & -> & Hv). destruct v; try reflexivity. now destruct Hv.
Qed.

Lemma action_in_enum_true (o : option value) :
  action_in_enum o = true <-> o = Some (JStr "SCAN") \/ o = Some (JStr "REGISTER").
Proof.
  split.
  - destruct o as [[| | |s| |]|]; simpl; try discriminate.
    intros H. apply orb_true_iff in H as [H | H];
      apply String.eqb_eq in H; subst; auto.
  - intros [-> | ->]; reflexivity.
Qed.

Lemma is_number_true (o : option value) :
  is_number o = true <-> exists q, o = Some (JNum q).
Proof.
  split.
  - destruct o as [[| |q| | |]|]; simpl; try discriminate. eauto.
  - intros (q & ->). reflexivity.
Qed.

Lemma validate_Valid_iff (p : value) :
  validatePayload p = Valid <-> well_formed p.
Proof.
  unfold validatePayload, well_formed.
  destruct (truthy p); cbn [negb];
    [| split; [discriminate | intros [? _]; discriminate]].
  destruct (first_missing p requiredFields) as [f|] eqn:Hfm.
  - split; [discriminate |]. intros (_ & Hall & _).
    apply first_missing_Some in Hfm as [Hin Hm].
    assert (Hf : missing (get_field p f) = false)
      by (apply missing_false; auto).
    congruence.
  - rewrite first_missing_None in Hfm.
    destruct (action_in_enum (get_field p "action")) eqn:Ha; cbn [negb].
    + destruct (is_number (get_field p "uniqueCode")) eqn:Hu; cbn [negb].
      * split; [intros _ | reflexivity].
        split; [reflexivity |]. split; [| split].
        -- intros f Hf. apply missing_false. auto.
        -- now apply action_in_enum_true.
        -- now apply is_number_true.
      * split; [discriminate |]. intros (_ & _ & _ & Hq).
        apply is_number_true in Hq. congruence.
    + split.
      * destruct (get_field p "action"); discriminate.
      * intros (_ & _ & Hact & _). apply action_in_enum_true in Hact. congruence.
Qed.

(** C8, as the code has it. [validatePayload] fails closed: it accepts a
    payload exactly when the payload is truthy, carries all four of
    deviceId, type, action and uniqueCode with a value other than [null],
    has an action in {SCAN, REGISTER} and a uniqueCode that is a number
    ([typeof] number, an integer or not). Each rejection names its reason:
    the empty payload, the first missing field, the action that is outside
    the enum, or the uniqueCode that is not a number. *)
Theorem validatePayload_fails_closed (p : value) :
  (validatePayload p = Valid <-> well_formed p)
  /\ (truthy p = false -> validatePayload p = Invalid EmptyPayload)
  /\ (truthy p = true ->
      forall f, f ∈ requiredFields -> missing (get_field p f) = true ->
      exists g, g ∈ requiredFields /\ missing (get_field p g) = true
                /\ validatePayload p = Invalid (MissingField g))
  /\ (truthy p = true ->
      (forall f, f ∈ requiredFields -> missing (get_field p f) = false) ->
      action_in_enum (get_field p "action") = false ->
      exists a, get_field p "action" = Some a
                /\ validatePayload p = Invalid (InvalidAction a))
  /\ (truthy p = true ->
      (forall f, f ∈ requiredFields -> missing (get_field p f) = false) ->
      action_in_enum (get_field p "action") = true ->
      is_number (get_field p "uniqueCode") = false ->
      validatePayload p = Invalid UniqueCodeNotNumber).
Proof.
  split; [apply validate_Valid_iff |].
  unfold validatePayload.
  split; [intros ->; reflexivity |].
  split; [| split].
  - intros -> f Hf Hm. cbn [negb].
    destruct (first_missing p requiredFields) as [g|] eqn:Hfm.
    + apply first_missing_Some in Hfm as [Hin Hg]. eauto.
    + rewrite first_missing_None in Hfm. rewrite (Hfm f Hf) in Hm. discriminate.
  - intros -> Hall Ha. cbn [negb].
    apply first_missing_None in Hall as Hfm. rewrite Hfm, Ha. cbn [negb].
    assert (Hin : "action" ∈ requiredFields)
      by (unfold requiredFields; set_solver).
    apply Hall, missing_false in Hin as (a & Ha' & _).
    exists a. rewrite Ha'. auto.
  - intros -> Hall Ha Hu. cbn [negb].
    apply first_missing_None in Hall. rewrite Hall, Ha, Hu. reflexivity.
Qed.

Lemma validatePayload_fails_closed_witness :
  well_formed (sample_payload 1001).
Proof.
  apply (proj1 (proj1 (validatePayload_fails_closed (sample_payload 1001)))).
  reflexivity.
Defined.

(** C8 as stated fails: a payload whose uniqueCode is the number 3/2, not an
    integer, passes validation. *)
Lemma validatePayload_accepts_fraction :
  get_field (sample_payload (3 # 2)) "uniqueCode" = Some (JNum (3 # 2))
  /\ is_integer (3 # 2) = false
  /\ validatePayload (sample_payload (3 # 2)) = Valid.
Proof. repeat split. Qed.

(** A whole number is recognised as one, and a missing field is refused. *)
Example is_integer_1001 : is_integer 1001 = true.
Proof. reflexivity. Qed.

Example validate_missing_type :
  validatePayload (JObj [("deviceId", JStr "BIN-004"); ("type", JNull)])
  = Invalid (MissingField "type").
Proof. reflexivity. Qed.

Example validate_text_code :
  validatePayload (JObj [("deviceId", JStr "BIN-004"); ("type", JStr "SMART_BIN");
                         ("action", JStr "SCAN"); ("uniqueCode", JStr "1001")])
  = Invalid UniqueCodeNotNumber.
Proof. reflexivity. Qed.

End CodecFacts.

(** ** The archive compactor *)

Section GroupFacts.
Import Archive.
Context {A K B : Type} `{EqDecision K}.
Variable key : A -> K.
Variable empty : B.
Variable step : B -> A -> B.

Lemma add_to_group_keys (a : A) (groups : list (K * B)) :
  map fst (add_to_group key empty step a groups)
  = if decide (key a ∈ map fst groups) then map fst groups
    else (map fst groups ++ [key a])%list.
Proof.
  induction groups as [|[k b] rest IH]; cbn.
  - rewrite decide_False; [reflexivity | apply not_elem_of_nil].
  - destruct (decide (k = key a)) as [-> | Hne]; cbn.
    + rewrite decide_True; [reflexivity | left].
    + rewrite IH. destruct (decide (key a ∈ map fst rest)) as [Hin | Hout].
      * rewrite decide_True; [reflexivity | now right].
      * rewrite decide_False; [reflexivity |].
        intros Hin. apply elem_of_cons in Hin as [Heq | Hin]; auto.
Qed.

Lemma add_to_group_NoDup (a : A) (groups : list (K * B)) :
  NoDup (map fst groups) ->
  NoDup (map fst (add_to_group key empty step a groups)).
Proof.
  intros Hnd. rewrite add_to_group_keys.
  destruct (decide (key a ∈ map fst groups)); [exact Hnd |].
  apply NoDup_app. split; [exact Hnd |]. split.
  - intros k Hk Hk'. apply list_elem_of_singleton in Hk'. now subst.
  - apply NoDup_singleton.
Qed.

(** What holds of the groups at the start and is kept by every document
    holds of the groups at the end. *)
Lemma group_fold_invariant (Inv : list (K * B) -> Prop) (docs : list A) :
  (forall a g, Inv g -> Inv (add_to_group key empty step a g)) ->
  forall g, Inv g ->
  Inv (foldl (fun groups a => add_to_group key empty step a groups) g docs).
Proof.
  intros Hstep. induction docs as [|a docs IH]; intros g Hg; cbn; auto.
Qed.

(** The keys of the groups are distinct. *)
Lemma group_NoDup (docs : list A) :
  NoDup (map fst (group key empty step docs)).
Proof.
  unfold group.
  apply (group_fold_invariant (fun g => NoDup (map fst g))).
  - intros a g. apply add_to_group_NoDup.
  - constructor.
Qed.

(** A property of accumulators that holds of every step holds of every
    group. *)
Lemma group_Forall (P : B -> Prop) (docs : list A) :
  (forall a, P (step empty a)) ->
  (forall b a, P b -> P (step b a)) ->
  Forall (fun kb => P (snd kb)) (group key empty step docs).
Proof.
  intros Hnew Hstep. unfold group.
  apply (group_fold_invariant (Forall (fun kb => P (snd kb)))); [| constructor].
  intros a g. induction g as [|[k b] rest IH]; cbn; intros Hg.
  - constructor; [apply Hnew | constructor].
  - inversion Hg as [|? ? Hb Hrest]; subst.
    destruct (decide (k = key a)); constructor; cbn; auto.
Qed.

Lemma foldl_snoc {X Y} (f : X -> Y -> X) (l : list Y) (y : Y) : forall x,
  foldl f x (l ++ [y]) = f (foldl f x l) y.
Proof. induction l as [|z l IH]; intros x; cbn; auto. Qed.

Lemma group_snoc (docs : list A) (a : A) :
  group key empty step (docs ++ [a])
  = add_to_group key empty step a (group key empty step docs).
Proof. unfold group. now rewrite foldl_snoc. Qed.

Lemma add_to_group_elem (a : A) (groups : list (K * B)) (k : K) (b : B) :
  NoDup (map fst groups) ->
  (k, b) ∈ add_to_group key empty step a groups <->
  (k <> key a /\ (k, b) ∈ groups)
  \/ (k = key a /\ exists b0, (k, b0) ∈ groups /\ b = step b0 a)
  \/ (k = key a /\ (k ∉ map fst groups) /\ b = step empty a).
Proof.
  induction groups as [|[k0 b0] rest IH]; cbn; intros Hnd.
  - rewrite list_elem_of_singleton. split.
    + intros [= -> ->]. right. right. split; [reflexivity |].
      split; [apply not_elem_of_nil | reflexivity].
    + intros [[_ Hin] | [[_ (b1 & Hin & _)] | (-> & _ & ->)]];
        [inversion Hin | inversion Hin | reflexivity].
  - apply NoDup_cons in Hnd as [Hfresh Hnd].
    assert (Hkeys : forall x y, (x, y) ∈ rest -> x ∈ map fst rest).
    { intros x y Hxy. apply list_elem_of_fmap. now exists (x, y). }
    destruct (decide (k0 = key a)) as [-> | Hne].
    + rewrite !elem_of_cons. split.
      * intros [[= -> ->] | Hin].
        -- right. left. split; [reflexivity |]. exists b0. split; [now left | reflexivity].
        -- left. split; [| now right]. intros ->. eauto.
      * intros [[Hk [[= -> ->] | Hin]] | [(-> & b1 & Hin & ->) | (-> & Hout & _)]].
        -- contradiction.
        -- now right.
        -- apply elem_of_cons in Hin as [[= ->] | Hin]; [now left |].
           exfalso. eauto.
        -- exfalso. apply Hout. now left.
    + rewrite elem_of_cons, (IH Hnd). rewrite !elem_of_cons. split.
      * intros [[= -> ->] | [[Hk Hin] | [(-> & b1 & Hin & ->) | (-> & Hout & ->)]]].
        -- left. split; [exact Hne | now left].
        -- left. split; [exact Hk | now right].
        -- right. left. split; [reflexivity |]. exists b1. split; [now right | reflexivity].
        -- right. right. split; [reflexivity |]. split; [| reflexivity].
           intros [Heq | Hin]; auto.
      * intros [[Hk [[= -> ->] | Hin]] | [(-> & b1 & Hin & ->) | (-> & Hout & ->)]].
        -- now left.
        -- right. left. auto.
        -- apply elem_of_cons in Hin as [[= Heq _] | Hin]; [congruence |].
           right. right. left. eauto.
        -- right. right. right. split; [reflexivity |]. split; [| reflexivity].
           intros Hin. apply Hout. now right.
Qed.

Lemma group_spec (docs : list A) : forall k b,
  (k, b) ∈ group key empty step docs <->
  (exists a, a ∈ docs /\ key a = k) /\ b = foldl step empty (selected key k docs).
Proof.
  induction docs as [|a docs IH] using rev_ind; intros k b.
  - unfold group. cbn. split.
    + intros Hin. inversion Hin.
    + intros [(a & Hin & _) _]. inversion Hin.
  - rewrite group_snoc, add_to_group_elem by apply group_NoDup.
    unfold selected in *. rewrite filter_app.
    assert (Hnone : key a ∉ map fst (group key empty step docs) ->
                    filter (fun a0 => key a0 = key a) docs = []).
    { intros Hout. destruct (filter _ docs) as [|x l] eqn:Hf; [reflexivity |].
      assert (Hx : x ∈ filter (fun a0 => key a0 = key a) docs)
        by (rewrite Hf; left).
      apply list_elem_of_filter in Hx as [Hkx Hx].
      exfalso. apply Hout. apply list_elem_of_fmap.
      eexists (key a, _). split; [reflexivity |].
      apply IH. split; [now exists x | reflexivity]. }
    split.
    + intros [[Hk Hin] | [(-> & b0 & Hin & ->) | (-> & Hout & ->)]].
      * apply IH in Hin as [(a' & Ha' & Hka') ->]. split.
        -- exists a'. split; [apply elem_of_app; now left | exact Hka'].
        -- rewrite filter_cons_False, filter_nil, app_nil_r by congruence.
           reflexivity.
      * apply IH in Hin as [_ ->]. split.
        -- exists a. split; [apply elem_of_app; right; now left | reflexivity].
        -- rewrite filter_cons_True, filter_nil by reflexivity.
           now rewrite foldl_snoc.
      * split.
        -- exists a. split; [apply elem_of_app; right; now left | reflexivity].
        -- rewrite filter_cons_True, filter_nil by reflexivity.
           now rewrite foldl_snoc, (Hnone Hout).
    + intros [(a' & Ha' & Hka') ->].
      destruct (decide (k = key a)) as [-> | Hne].
      * rewrite filter_cons_True, filter_nil, foldl_snoc by reflexivity.
        destruct (decide (key a ∈ map fst (group key empty step docs)))
          as [Hin | Hout].
        -- right. left. split; [reflexivity |].
           apply list_elem_of_fmap in Hin as ([k0 b0] & Hk0 & Hin). cbn in Hk0.
           subst k0. exists b0. split; [exact Hin |].
           apply IH in Hin as [_ ->]. reflexivity.
        -- right. right. split; [reflexivity |]. split; [exact Hout |].
           now rewrite (Hnone Hout).
      * left. split; [exact Hne |].
        rewrite filter_cons_False, filter_nil, app_nil_r by congruence.
        apply IH. split; [| reflexivity].
        apply elem_of_app in Ha' as [Ha' | Ha'].
        -- now exists a'.
        -- apply list_elem_of_singleton in Ha'. congruence.
Qed.
End GroupFacts.

Section ArchiveFacts.
Import Model Clock Archive.

(** *** The distinct-user count *)

Lemma size_list_to_set_remove_dups (l : list string) :
  size (list_to_set l : gset string) = length (remove_dups l).
Proof.
  rewrite <- (size_list_to_set (C := gset string) (remove_dups l))
    by apply NoDup_remove_dups.
  f_equal. apply set_eq. intros x.
  rewrite !elem_of_list_to_set. symmetry. apply elem_of_remove_dups.
Qed.

Lemma list_to_set_concat (ls : list (list string)) :
  (list_to_set (concat ls) : gset string) = ⋃ (map list_to_set ls).
Proof.
  induction ls as [|l ls IH]; cbn; [reflexivity |].
  now rewrite list_to_set_app_L, IH.
Qed.

Lemma stage_days_aligned (hours : list (HourKey * HourAcc)) :
  Forall (fun g => aligned (snd g)) (stage_days hours).
Proof.
  unfold stage_days. apply group_Forall.
  - intros [[[[[w t] dt] day] h] acc]. reflexivity.
  - intros acc [[[[[w t] dt] day] h] hacc]. unfold aligned, day_step. cbn.
    intros ->. now rewrite map_app.
Qed.

Lemma project_count (g : string * Z * DayAcc) :
  aligned (snd g) ->
  activeUsersCount (doc_stats (project g))
  = Z.of_nat (size (bucket_users_union (project g))).
Proof.
  destruct g as [[w day] acc]. unfold aligned, bucket_users_union. cbn.
  intros ->. f_equal.
  rewrite <- size_list_to_set_remove_dups, list_to_set_concat.
  now rewrite map_map.
Qed.

Lemma length_remove_dups_le (l : list string) :
  (length (remove_dups l) <= length l)%nat.
Proof.
  induction l as [|x l IH]; cbn; [lia |].
  destruct (decide_rel elem_of x l); cbn; lia.
Qed.

Lemma size_union_le_sum (tl : list Bucket) :
  Z.of_nat (size (⋃ (map (fun b => list_to_set (b_userIds b)) tl) : gset string))
  <= foldr (fun b n => Z.of_nat (length (b_userIds b)) + n) 0 tl.
Proof.
  induction tl as [|b tl IH]; cbn; [reflexivity |].
  set (X := list_to_set (b_userIds b) : gset string) in *.
  set (Y := ⋃ (map (fun b => list_to_set (b_userIds b)) tl) : gset string) in *.
  pose proof (size_union_alt X Y) as Hsz.
  assert (Hsub : (size (Y ∖ X) <= size Y)%nat).
  { apply subseteq_size. intros x Hx.
    now apply elem_of_difference in Hx as [Hx _]. }
  assert (Hb : (size X <= length (b_userIds b))%nat).
  { unfold X. rewrite size_list_to_set_remove_dups.
    apply length_remove_dups_le. }
  lia.
Qed.

(** *** The upsert *)

Lemma merge_one_present (c : Collection) (d : DayDoc) (id : nat) :
  stored c !! doc_key d = Some (id, d) -> merge_one c d = c.
Proof.
  intros H. unfold merge_one. rewrite H.
  rewrite insert_id by exact H. now destruct c.
Qed.

Lemma merge_present (docs : list DayDoc) (c : Collection) :
  (forall d, d ∈ docs -> exists id, stored c !! doc_key d = Some (id, d)) ->
  merge docs c = c.
Proof.
  unfold merge. induction docs as [|d docs IH]; intros Hall; cbn; [reflexivity |].
  destruct (Hall d) as [id Hid]; [left |].
  rewrite (merge_one_present c d id Hid). apply IH.
  intros d' Hd'. apply Hall. now right.
Qed.

Lemma merge_one_writes (c : Collection) (d : DayDoc) :
  exists id, stored (merge_one c d) !! doc_key d = Some (id, d)
             /\ (forall id0 d0, stored c !! doc_key d = Some (id0, d0) -> id = id0).
Proof.
  unfold merge_one. destruct (stored c !! doc_key d) as [[id0 d0]|] eqn:Hk.
  - exists id0. cbn. rewrite lookup_insert_eq. split; [reflexivity |].
    now intros ? ? [= <- _].
  - exists (next_id c). cbn. rewrite lookup_insert_eq. split; [reflexivity |].
    intros ? ? [=].
Qed.

Lemma merge_one_other (c : Collection) (d : DayDoc) (k : string * Z) :
  k <> doc_key d -> stored (merge_one c d) !! k = stored c !! k.
Proof.
  intros Hne. unfold merge_one.
  destruct (stored c !! doc_key d) as [[id0 d0]|]; cbn;
    now rewrite lookup_insert_ne.
Qed.

Lemma merge_other (docs : list DayDoc) (c : Collection) (k : string * Z) :
  k ∉ map doc_key docs -> stored (merge docs c) !! k = stored c !! k.
Proof.
  unfold merge. revert c. induction docs as [|d docs IH]; intros c Hk; cbn;
    [reflexivity |].
  cbn in Hk. apply not_elem_of_cons in Hk as [Hne Hk].
  rewrite IH by exact Hk. now apply merge_one_other.
Qed.

Lemma merge_writes (docs : list DayDoc) : forall (c : Collection),
  NoDup (map doc_key docs) ->
  forall d, d ∈ docs ->
  exists id, stored (merge docs c) !! doc_key d = Some (id, d)
             /\ (forall id0 d0, stored c !! doc_key d = Some (id0, d0) -> id = id0).
Proof.
  unfold merge. induction docs as [|d0 docs IH]; intros c Hnd d Hd;
    [inversion Hd |].
  cbn in Hnd. apply NoDup_cons in Hnd as [Hfresh Hnd]. cbn.
  apply elem_of_cons in Hd as [-> | Hd].
  - destruct (merge_one_writes c d0) as (id & Hid & Hkeep).
    exists id. split; [| exact Hkeep].
    pose proof (merge_other docs (merge_one c d0) (doc_key d0) Hfresh) as Hsame.
    unfold merge in Hsame. now rewrite Hsame.
  - destruct (IH (merge_one c d0) Hnd d Hd) as (id & Hid & Hkeep).
    exists id. split; [exact Hid |].
    intros id0 d1 Hc. apply (Hkeep id0 d1).
    rewrite merge_one_other; [exact Hc |].
    intros Heq. apply Hfresh. rewrite <- Heq.
    apply list_elem_of_fmap. now exists d.
Qed.

Lemma pipeline_keys (startDate endDate : Z) (raw : list Activity) :
  NoDup (map doc_key (pipeline startDate endDate raw)).
Proof.
  unfold pipeline. rewrite map_map.
  erewrite map_ext; [apply (group_NoDup day_key) |].
  intros [[w day] acc]. reflexivity.
Qed.

Lemma list_to_set_addToSet (x : string) (l : list string) :
  (list_to_set (addToSet x l) : gset string) = list_to_set l ∪ {[x]}.
Proof.
  unfold addToSet. destruct (decide (x ∈ l)) as [Hin | Hout].
  - apply set_eq. intros y. rewrite elem_of_union, elem_of_singleton,
      !elem_of_list_to_set. split; [auto |]. intros [Hy | ->]; auto.
  - apply list_to_set_snoc_L.
Qed.

Lemma hour_fold (l : list Activity) : forall acc,
  (list_to_set (h_userIds (foldl hour_step acc l)) : gset string)
  = list_to_set (h_userIds acc) ∪ list_to_set (map a_userId l)
  /\ h_count (foldl hour_step acc l) = h_count acc + Z.of_nat (length l)
  /\ h_points (foldl hour_step acc l)
     = h_points acc + foldr (fun a n => a_points a + n) 0 l.
Proof.
  induction l as [|a l IH]; intros acc; cbn.
  - split; [| lia]. symmetry. apply union_empty_r_L.
  - destruct (IH (hour_step acc a)) as (Hu & Hc & Hp).
    rewrite Hu, Hc, Hp. cbn. rewrite list_to_set_addToSet.
    split; [| lia]. now rewrite (assoc_L (∪)).
Qed.

Lemma day_fold_timeline (gs : list (HourKey * HourAcc)) : forall acc,
  timeline (foldl day_step acc gs) = (timeline acc ++ map bucket_of gs)%list.
Proof.
  induction gs as [|g gs IH]; intros acc; cbn.
  - now rewrite app_nil_r.
  - rewrite IH. cbn. now rewrite <- app_assoc.
Qed.

Lemma bucket_of_users (g : HourKey * HourAcc) :
  b_userIds (bucket_of g) = h_userIds (snd g).
Proof. destruct g as [[[[[w t] dt] day] h] acc]. reflexivity. Qed.

Lemma pipeline_elem (startDate endDate : Z) (raw : list Activity) (d : DayDoc) :
  d ∈ pipeline startDate endDate raw ->
  doc_timeline d
  = map bucket_of
        (selected day_key (doc_key d)
                  (stage_hours (stage_match startDate endDate raw))).
Proof.
  unfold pipeline. intros Hd.
  apply list_elem_of_fmap in Hd as ([[w day] acc] & -> & Hg).
  apply group_spec in Hg as [_ ->]. cbn.
  now rewrite day_fold_timeline.
Qed.

Lemma union_is_day_users (startDate endDate : Z) (raw : list Activity)
    (d : DayDoc) :
  d ∈ pipeline startDate endDate raw ->
  bucket_users_union d
  = day_users startDate endDate raw (doc_workspaceId d) (doc_date d).
Proof.
  intros Hd. unfold bucket_users_union, day_users.
  rewrite (pipeline_elem _ _ _ _ Hd).
  set (matched := stage_match startDate endDate raw).
  apply set_eq. intros x.
  rewrite elem_of_union_list, elem_of_list_to_set. split.
  - intros (X & HX & Hx).
    apply list_elem_of_fmap in HX as (b & -> & Hb).
    apply list_elem_of_fmap in Hb as (g & -> & Hg).
    apply list_elem_of_filter in Hg as [Hday Hg].
    destruct g as [hk hacc]. apply group_spec in Hg as [_ ->].
    rewrite bucket_of_users in Hx. cbn in Hx.
    rewrite (proj1 (hour_fold _ _)) in Hx. cbn in Hx.
    rewrite union_empty_l_L in Hx. 
    apply elem_of_list_to_set, list_elem_of_fmap in Hx as (a & -> & Ha).
    apply list_elem_of_filter in Ha as [Hk Ha].
    apply list_elem_of_fmap. exists a. split; [reflexivity |].
    apply list_elem_of_filter. split; [| exact Ha].
    subst hk. unfold day_key, hour_key, doc_key in Hday. cbn in Hday.
    now injection Hday.
  - intros Hx. apply list_elem_of_fmap in Hx as (a & -> & Ha).
    apply list_elem_of_filter in Ha as [[Hw Hday] Ha].
    set (g := (hour_key a,
               foldl hour_step (mkHourAcc 0 0 []) (selected hour_key (hour_key a) matched))).
    exists (list_to_set (b_userIds (bucket_of g))). split.
    + apply list_elem_of_fmap. exists (bucket_of g). split; [reflexivity |].
      apply list_elem_of_fmap. exists g. split; [reflexivity |].
      apply list_elem_of_filter. split.
      * unfold g, day_key, hour_key, doc_key. cbn. now rewrite Hw, Hday.
      * apply group_spec. split; [now exists a | reflexivity].
    + rewrite bucket_of_users. unfold g. cbn.
      rewrite (proj1 (hour_fold _ _)). cbn.
      apply elem_of_union. right.
      apply elem_of_list_to_set, list_elem_of_fmap. exists a.
      split; [reflexivity |]. apply list_elem_of_filter. now split.
Qed.
(** C3. In every day document the compaction produces, activeUsersCount is
    the size of the union of the user-id sets of the document's timeline
    buckets, not their sum: it never exceeds the sum of the per-bucket set
    sizes, and it is the number of distinct users among the raw activities
    of that workspace and day in the range, so a user with events in
    several hour or type buckets of the day counts once. *)
Theorem activeUsersCount_is_union_size (startDate endDate : Z)
    (raw : list Activity) (d : DayDoc) :
  d ∈ pipeline startDate endDate raw ->
  activeUsersCount (doc_stats d) = Z.of_nat (size (bucket_users_union d))
  /\ activeUsersCount (doc_stats d) <= bucket_users_sum d
  /\ activeUsersCount (doc_stats d)
     = Z.of_nat (size (day_users startDate endDate raw
                                 (doc_workspaceId d) (doc_date d))).
Proof.
  intros Hd. pose proof (union_is_day_users _ _ _ _ Hd) as Hraw.
  unfold pipeline in Hd.
  apply list_elem_of_fmap in Hd as (g & -> & Hg).
  pose proof (stage_days_aligned
                (stage_hours (stage_match startDate endDate raw))) as Hal.
  rewrite Forall_forall in Hal. specialize (Hal g Hg).
  rewrite (project_count g Hal). split; [reflexivity |].
  split; [apply size_union_le_sum | now rewrite Hraw].
Qed.

(** C2. Running the compaction a second time over the same raw activities
    leaves the archive collection as the first run left it. Each day
    document of the run is stored under its (workspaceId, date) key,
    replacing the document that was there (whose _id it keeps) or inserted
    if there was none, and the documents of other keys are untouched; the
    documents written are [pipeline startDate endDate raw], which depends
    on the raw activities of the range alone. *)
Theorem compaction_idempotent (startDate endDate : Z) (raw : list Activity)
    (c : Collection) :
  archiveActivities startDate endDate raw
    (archiveActivities startDate endDate raw c)
  = archiveActivities startDate endDate raw c
  /\ (forall d, d ∈ pipeline startDate endDate raw ->
      exists id,
        stored (archiveActivities startDate endDate raw c) !! doc_key d
        = Some (id, d)
        /\ (forall id0 d0, stored c !! doc_key d = Some (id0, d0) -> id = id0))
  /\ (forall k, k ∉ map doc_key (pipeline startDate endDate raw) ->
      stored (archiveActivities startDate endDate raw c) !! k = stored c !! k)
  /\ (forall raw',
      stage_match startDate endDate raw' = stage_match startDate endDate raw ->
      archiveActivities startDate endDate raw' c
      = archiveActivities startDate endDate raw c).
Proof.
  unfold archiveActivities. split; [| split; [| split]];
    [| | | intros raw' Hsame; unfold pipeline; now rewrite Hsame].
  - apply merge_present. intros d Hd.
    destruct (merge_writes _ c (pipeline_keys startDate endDate raw) d Hd)
      as (id & Hid & _).
    now exists id.
  - apply merge_writes, pipeline_keys.
  - intros k. apply merge_other.
Qed.

End ArchiveFacts.

Section ArchiveExamples.
Import Model Clock Archive Samples.

Lemma activeUsersCount_is_union_size_witness :
  activeUsersCount (doc_stats day0) = Z.of_nat (size (bucket_users_union day0))
  /\ activeUsersCount (doc_stats day0) <= bucket_users_sum day0
  /\ activeUsersCount (doc_stats day0)
     = Z.of_nat (size (day_users 0 86400000 raw0 ws_green 0)).
Proof.
  apply (activeUsersCount_is_union_size 0 86400000 raw0 day0).
  change (day0 ∈ [day0]). left.
Defined.

(** Ayu scans in hour 3 and in hour 15, Budi in hour 15: two buckets, three
    bucket members, two active users. *)
Example union_not_sum :
  pipeline 0 86400000 raw0 = [day0]
  /\ activeUsersCount (doc_stats day0) = 2
  /\ bucket_users_sum day0 = 3.
Proof. repeat split. Qed.

Example compaction_twice :
  stored (archiveActivities 0 172800000 raw0
            (archiveActivities 0 172800000 raw0 archive0)) !! (ws_green, 0)
  = Some (0%nat, day0)
  /\ stored (archiveActivities 0 172800000 raw0 archive0) !! (ws_green, 0)
     = Some (0%nat, day0)
  /\ next_id (archiveActivities 0 172800000 raw0
                (archiveActivities 0 172800000 raw0 archive0)) = 2%nat.
Proof. repeat split. Qed.

End ArchiveExamples.

(** ** The scan processor *)

Section ScanFacts.
Import Codec Model Scan.

Variable decrypt : string -> option value.

Lemma payloadOf_decode (req : Request) (p : Payload) :
  payloadOf decrypt req = Some p ->
  present (req_encryptedPayload req) = true
  /\ decodeEncrypted decrypt (or_empty (req_encryptedPayload req))
     = Fields (Some p) (Some (p_deviceId p)) (Some (p_action p)) (Some (p_type p)).
Proof.
  unfold payloadOf, decode.
  destruct (present (req_encryptedPayload req)); [| discriminate].
  unfold decodeEncrypted.
  destruct (decrypt _) as [v|]; [| discriminate].
  destruct (truthy v); cbn [negb]; [| discriminate].
  destruct (validatePayload v); [| discriminate].
  destruct (typed v) as [q|]; [| discriminate].
  intros [= ->]. auto.
Qed.

Lemma never_decreases_refl (l : list Device) : never_decreases l l.
Proof.
  unfold never_decreases. induction l; constructor; auto.
  split; [reflexivity | apply Qle_refl].
Qed.

Lemma never_decreases_save (l : list Device) (i : nat) (d : Device) (u : Q) :
  l !! i = Some d ->
  (d_lastUniqueCode d <= u)%Q ->
  never_decreases l (<[i := set_lastUniqueCode d u]> l).
Proof.
  intros Hi Hu. unfold never_decreases.
  rewrite <- (list_insert_id l i d Hi) at 1.
  apply Forall2_insert; [apply never_decreases_refl |].
  split; [reflexivity | exact Hu].
Qed.

Lemma replay_blocks (d : Device) (u : Q) :
  (u <= d_lastUniqueCode d)%Q ->
  Qle_bool u (lastUniqueCodeOrZero d) = true.
Proof.
  intros Hu. apply Qle_bool_iff. unfold lastUniqueCodeOrZero.
  destruct (Qeq_bool (d_lastUniqueCode d) 0) eqn:Hz; [| exact Hu].
  apply Qeq_bool_iff in Hz. rewrite <- Hz. exact Hu.
Qed.

Lemma accept_increases (d : Device) (u : Q) :
  Qle_bool u (lastUniqueCodeOrZero d) = false ->
  (d_lastUniqueCode d < u)%Q.
Proof.
  intros Hu. apply Qnot_le_lt. intros Hle.
  rewrite (replay_blocks d u Hle) in Hu. discriminate.
Qed.

Lemma award_devices g now w u ft dev j m usr st :
  devices (snd (award g now w u ft dev j m usr st)) = devices st.
Proof. unfold award. destruct usr as [[k x]|]; reflexivity. Qed.

Lemma award_succeeds g now w u ft dev j m usr st :
  is_failure (fst (award g now w u ft dev j m usr st)) = false.
Proof. reflexivity. Qed.

Lemma resolveInWorkspace_lookup st deviceId w i d :
  resolveInWorkspace st deviceId w = Some (i, d) -> devices st !! i = Some d.
Proof.
  unfold resolveInWorkspace, findDeviceIn, findDeviceByIdIn.
  destruct (list_find _ (devices st)) as [[i' d']|] eqn:H1.
  - intros [= -> ->]. now apply list_find_Some in H1.
  - destruct (isObjectIdShape deviceId); [| discriminate].
    intros H2. now apply list_find_Some in H2.
Qed.

Lemma resolveAnywhere_lookup st deviceId i d :
  resolveAnywhere st deviceId = Some (i, d) -> devices st !! i = Some d.
Proof.
  unfold resolveAnywhere, findDeviceByDeviceId, findDeviceById.
  destruct (list_find _ (devices st)) as [[i' d']|] eqn:H1.
  - intros [= -> ->]. now apply list_find_Some in H1.
  - destruct (isObjectIdShape deviceId); [| discriminate].
    intros H2. now apply list_find_Some in H2.
Qed.

(** A replayed code is turned down by the workspace scan, and nothing is
    written. *)
Lemma scanDevice_replay now req st p i d :
  payloadOf decrypt req = Some p ->
  resolveInWorkspace st (p_deviceId p) (req_workspaceId req) = Some (i, d) ->
  (p_uniqueCode p <= d_lastUniqueCode d)%Q ->
  exists r, scanDevice decrypt now req st = Some (r, st)
            /\ is_failure r = true
            /\ (p_action p = "SCAN" ->
                is_Some (findMember st (req_workspaceId req) (req_userId req)) ->
                r = replayDetected).
Proof.
  intros Hp Hres Hle. apply payloadOf_decode in Hp as [Hpres Hdec].
  unfold scanDevice, decode. rewrite Hpres, Hdec. cbn [or_empty].
  destruct (present (Some (p_action p))) eqn:Hact; cbn [negb];
    [| eexists; split; [reflexivity |]; split; [reflexivity |];
       intros Ha; rewrite Ha in Hact; discriminate].
  destruct (String.eqb (p_action p) "SCAN") eqn:Hscan; cbn [orb negb].
  - destruct (findMember st _ _) as [[j m]|] eqn:Hm.
    + rewrite Hres, (replay_blocks d _ Hle).
      eexists; split; [reflexivity |]; split; [reflexivity | auto].
    + eexists; split; [reflexivity |]; split; [reflexivity |].
      intros _ [x Hx]. discriminate.
  - destruct (String.eqb (p_action p) "REGISTER"); cbn [negb];
      (eexists; split; [reflexivity |]; split; [reflexivity |];
       intros Ha; rewrite Ha in Hscan; discriminate).
Qed.

(** The same for the global scan. *)
Lemma scanDeviceGlobal_replay now req st p i d :
  payloadOf decrypt req = Some p ->
  resolveAnywhere st (p_deviceId p) = Some (i, d) ->
  (p_uniqueCode p <= d_lastUniqueCode d)%Q ->
  exists r, scanDeviceGlobal decrypt now req st = Some (r, st)
            /\ is_failure r = true
            /\ (p_action p = "SCAN" ->
                is_Some (findMember st (d_workspaceId d) (req_userId req)) ->
                r = replayDetected).
Proof.
  intros Hp Hres Hle. apply payloadOf_decode in Hp as [Hpres Hdec].
  unfold scanDeviceGlobal. rewrite Hpres, Hdec. cbn [negb].
  destruct (String.eqb (p_action p) "SCAN") eqn:Hscan; cbn [negb].
  - rewrite Hres.
    destruct (findMember st _ _) as [[j m]|] eqn:Hm.
    + rewrite (replay_blocks d _ Hle).
      eexists; split; [reflexivity |]; split; [reflexivity | auto].
    + eexists; split; [reflexivity |]; split; [reflexivity |].
      intros _ [x Hx]. discriminate.
  - eexists; split; [reflexivity |]; split; [reflexivity |].
    intros Ha; rewrite Ha in Hscan; discriminate.
Qed.

Lemma award_result g now w u ft dev j m usr st r st' :
  award g now w u ft dev j m usr st = (r, st') ->
  devices st' = devices st /\ is_failure r = false.
Proof.
  intros H. split.
  - rewrite <- (award_devices g now w u ft dev j m usr st). now rewrite H.
  - rewrite <- (award_succeeds g now w u ft dev j m usr st). now rewrite H.
Qed.

Lemma save_never_decreases st i d u :
  devices st !! i = Some d ->
  Qle_bool u (lastUniqueCodeOrZero d) = false ->
  never_decreases (devices st) (<[i := set_lastUniqueCode d u]> (devices st)).
Proof.
  intros Hi Hu. apply never_decreases_save; [exact Hi |].
  apply Qlt_le_weak, accept_increases, Hu.
Qed.

(** No request to the workspace scan lowers a replay counter. *)
Lemma scanDevice_never_decreases now req st r st' :
  scanDevice decrypt now req st = Some (r, st') ->
  never_decreases (devices st) (devices st').
Proof.
  unfold scanDevice. intros H.
  repeat case_match; simplify_eq; try apply never_decreases_refl;
    cbn [devices save_device].
  - apply award_result in H as [-> _]. cbn [devices save_device].
    eauto using save_never_decreases, resolveInWorkspace_lookup.
  - eauto using save_never_decreases, resolveInWorkspace_lookup.
  - apply award_result in H as [-> _]. apply never_decreases_refl.
Qed.

Lemma scanDeviceGlobal_never_decreases now req st r st' :
  scanDeviceGlobal decrypt now req st = Some (r, st') ->
  never_decreases (devices st) (devices st').
Proof.
  unfold scanDeviceGlobal. intros H.
  repeat case_match; simplify_eq; try apply never_decreases_refl.
  apply award_result in H as [-> _]. cbn [devices save_device].
  eauto using save_never_decreases, resolveAnywhere_lookup.
Qed.

(** An accepted workspace scan that carries a code stores that code, which
    is greater than the one it replaces. *)
Lemma scanDevice_accept now req st p data st' :
  payloadOf decrypt req = Some p ->
  scanDevice decrypt now req st = Some (Success data, st') ->
  exists i d,
    resolveInWorkspace st (p_deviceId p) (req_workspaceId req) = Some (i, d)
    /\ (d_lastUniqueCode d < p_uniqueCode p)%Q
    /\ devices st' !! i = Some (set_lastUniqueCode d (p_uniqueCode p)).
Proof.
  intros Hp. apply payloadOf_decode in Hp as [Hpres Hdec].
  unfold scanDevice, decode. rewrite Hpres, Hdec. cbn [or_empty]. intros H.
  repeat case_match; simplify_eq.
  - apply award_result in H as [-> _]. cbn [devices save_device].
    eexists _, _. split; [reflexivity |]. split; [now apply accept_increases |].
    apply list_lookup_insert_eq.
    eapply lookup_lt_Some, resolveInWorkspace_lookup; eassumption.
  - unfold deviceNotResolved in H. repeat case_match; discriminate.
Qed.

Lemma scanDeviceGlobal_accept now req st p data st' :
  payloadOf decrypt req = Some p ->
  scanDeviceGlobal decrypt now req st = Some (Success data, st') ->
  exists i d,
    resolveAnywhere st (p_deviceId p) = Some (i, d)
    /\ (d_lastUniqueCode d < p_uniqueCode p)%Q
    /\ devices st' !! i = Some (set_lastUniqueCode d (p_uniqueCode p)).
Proof.
  intros Hp. apply payloadOf_decode in Hp as [Hpres Hdec].
  unfold scanDeviceGlobal. rewrite Hpres, Hdec. cbn [negb]. intros H.
  repeat case_match; simplify_eq.
  apply award_result in H as [-> _]. cbn [devices save_device].
  eexists _, _. split; [reflexivity |]. split; [now apply accept_increases |].
  apply list_lookup_insert_eq.
  eapply lookup_lt_Some, resolveAnywhere_lookup; eassumption.
Qed.

(** A caller who is not a member is turned away at the membership gate,
    whatever the code of the payload is. *)
Lemma scanDevice_nonmember now req st p :
  payloadOf decrypt req = Some p ->
  p_action p = "SCAN" ->
  findMember st (req_workspaceId req) (req_userId req) = None ->
  scanDevice decrypt now req st = Some (notAMember, st).
Proof.
  intros Hp Hact Hm. apply payloadOf_decode in Hp as [Henc Hdec].
  unfold scanDevice, decode. rewrite Henc, Hdec, Hact.
  cbn [present negb or_empty].
  change (String.eqb "SCAN" "SCAN") with true. cbn [orb negb].
  now rewrite Hm.
Qed.

Lemma scanDeviceGlobal_nonmember now req st p i d :
  payloadOf decrypt req = Some p ->
  p_action p = "SCAN" ->
  resolveAnywhere st (p_deviceId p) = Some (i, d) ->
  findMember st (d_workspaceId d) (req_userId req) = None ->
  exists r, scanDeviceGlobal decrypt now req st = Some (r, st)
            /\ status_of r = 403
            /\ error_of r = Some "Not a member of this workspace".
Proof.
  intros Hp Hact Hres Hm. apply payloadOf_decode in Hp as [Henc Hdec].
  unfold scanDeviceGlobal. rewrite Henc, Hdec, Hact. cbn [negb].
  change (String.eqb "SCAN" "SCAN") with true. cbn [negb].
  rewrite Hres, Hm. eexists. split; [reflexivity |]. split; reflexivity.
Qed.

(** C1, as the code has it. A scan whose payload carries a uniqueCode less
    than or equal to the resolved device's stored lastUniqueCode is rejected
    and leaves the store as it was (no points, no counters, no Activity).
    The rejection is the replay answer when the request passed the gates
    that come first, the action SCAN and the membership of the caller; a
    caller who is not a member is answered at the membership gate instead.
    An accepted scan that carries a uniqueCode leaves the device with that
    code as its lastUniqueCode, strictly greater than the one it had, and
    otherwise as it was; and no request to either endpoint ever lowers a
    device's lastUniqueCode. *)
Theorem replay_protection now req st p :
  payloadOf decrypt req = Some p ->
  (forall i d,
      resolveInWorkspace st (p_deviceId p) (req_workspaceId req) = Some (i, d) ->
      (p_uniqueCode p <= d_lastUniqueCode d)%Q ->
      exists r, scanDevice decrypt now req st = Some (r, st)
                /\ is_failure r = true
                /\ (p_action p = "SCAN" ->
                    is_Some (findMember st (req_workspaceId req) (req_userId req)) ->
                    r = replayDetected)
                /\ (p_action p = "SCAN" ->
                    findMember st (req_workspaceId req) (req_userId req) = None ->
                    r = notAMember))
  /\ (forall i d,
      resolveAnywhere st (p_deviceId p) = Some (i, d) ->
      (p_uniqueCode p <= d_lastUniqueCode d)%Q ->
      exists r, scanDeviceGlobal decrypt now req st = Some (r, st)
                /\ is_failure r = true
                /\ (p_action p = "SCAN" ->
                    is_Some (findMember st (d_workspaceId d) (req_userId req)) ->
                    r = replayDetected)
                /\ (p_action p = "SCAN" ->
                    findMember st (d_workspaceId d) (req_userId req) = None ->
                    status_of r = 403
                    /\ error_of r = Some "Not a member of this workspace"))
  /\ (forall data st',
      scanDevice decrypt now req st = Some (Success data, st') ->
      exists i d d',
        resolveInWorkspace st (p_deviceId p) (req_workspaceId req) = Some (i, d)
        /\ (d_lastUniqueCode d < p_uniqueCode p)%Q
        /\ devices st' !! i = Some d'
        /\ d_lastUniqueCode d' = p_uniqueCode p
        /\ d_id d' = d_id d /\ d_deviceId d' = d_deviceId d
        /\ d_name d' = d_name d /\ d_type d' = d_type d
        /\ d_workspaceId d' = d_workspaceId d)
  /\ (forall data st',
      scanDeviceGlobal decrypt now req st = Some (Success data, st') ->
      exists i d d',
        resolveAnywhere st (p_deviceId p) = Some (i, d)
        /\ (d_lastUniqueCode d < p_uniqueCode p)%Q
        /\ devices st' !! i = Some d'
        /\ d_lastUniqueCode d' = p_uniqueCode p
        /\ d_id d' = d_id d /\ d_deviceId d' = d_deviceId d
        /\ d_name d' = d_name d /\ d_type d' = d_type d
        /\ d_workspaceId d' = d_workspaceId d)
  /\ (forall r st',
      scanDevice decrypt now req st = Some (r, st') ->
      never_decreases (devices st) (devices st'))
  /\ (forall r st',
      scanDeviceGlobal decrypt now req st = Some (r, st') ->
      never_decreases (devices st) (devices st')).
Proof.
  intros Hp. split; [| split; [| split; [| split; [| split]]]].
  - intros i d Hres Hle.
    destruct (scanDevice_replay now req st p i d Hp Hres Hle)
      as (r & Hr & Hf & Hrep).
    exists r. split; [exact Hr |]. split; [exact Hf |]. split; [exact Hrep |].
    intros Hact Hm.
    rewrite (scanDevice_nonmember now req st p Hp Hact Hm) in Hr.
    now injection Hr as <-.
  - intros i d Hres Hle.
    destruct (scanDeviceGlobal_replay now req st p i d Hp Hres Hle)
      as (r & Hr & Hf & Hrep).
    exists r. split; [exact Hr |]. split; [exact Hf |]. split; [exact Hrep |].
    intros Hact Hm.
    destruct (scanDeviceGlobal_nonmember now req st p i d Hp Hact Hres Hm)
      as (r' & Hr' & Hst & Herr).
    rewrite Hr in Hr'. now injection Hr' as <-.
  - intros data st' Hs.
    destruct (scanDevice_accept now req st p data st' Hp Hs)
      as (i & d & Hres & Hlt & Hdev).
    exists i, d, (set_lastUniqueCode d (p_uniqueCode p)).
    split; [exact Hres |]. split; [exact Hlt |]. split; [exact Hdev |].
    repeat split.
  - intros data st' Hs.
    destruct (scanDeviceGlobal_accept now req st p data st' Hp Hs)
      as (i & d & Hres & Hlt & Hdev).
    exists i, d, (set_lastUniqueCode d (p_uniqueCode p)).
    split; [exact Hres |]. split; [exact Hlt |]. split; [exact Hdev |].
    repeat split.
  - intros r st'. apply scanDevice_never_decreases.
  - intros r st'. apply scanDeviceGlobal_never_decreases.
Qed.

End ScanFacts.

Section ScanOrder.
Import Codec Model Scan.

Variable decrypt : string -> option value.

(** C5, as the code has it. The workspace scan is terminal on its first
    failure and passes the membership gate before it resolves the device:
    for a request that reaches the gate (action SCAN) and whose deviceId
    resolves to no device of the target workspace, a caller without a
    membership there is answered NotAMember, and a member is answered the
    device-resolution failure: WorkspaceMismatch (403) when a device with
    that deviceId exists, DeviceNotFound (404) otherwise. Nothing is written
    in either case. *)
Theorem membership_gate_precedes_resolution now req st payload deviceId finalType :
  decode decrypt req = Fields payload (Some deviceId) (Some "SCAN") finalType ->
  resolveInWorkspace st deviceId (req_workspaceId req) = None ->
  (findMember st (req_workspaceId req) (req_userId req) = None ->
   scanDevice decrypt now req st = Some (notAMember, st))
  /\ (is_Some (findMember st (req_workspaceId req) (req_userId req)) ->
      scanDevice decrypt now req st
      = Some (deviceNotResolved st deviceId (req_userId req), st)
      /\ (findDeviceByDeviceId st deviceId = None ->
          status_of (deviceNotResolved st deviceId (req_userId req)) = 404
          /\ error_of (deviceNotResolved st deviceId (req_userId req))
             = Some "Device not recognized")
      /\ (is_Some (findDeviceByDeviceId st deviceId) ->
          status_of (deviceNotResolved st deviceId (req_userId req)) = 403
          /\ error_of (deviceNotResolved st deviceId (req_userId req))
             = Some "Workspace mismatch")).
Proof.
  intros Hdec Hres. unfold scanDevice. rewrite Hdec. cbn [present or_empty negb].
  change (negb (String.eqb "SCAN" EmptyString)) with true.
  change (String.eqb "SCAN" "SCAN") with true. cbn [negb orb].
  split.
  - intros ->. reflexivity.
  - intros [[j m] ->]. rewrite Hres. split; [reflexivity |].
    unfold deviceNotResolved. split.
    + intros ->. split; reflexivity.
    + intros [[k e] ->]. split; reflexivity.
Qed.

(** What a legacy scan by a member does to the store. *)
Lemma list_find_insert_same {A} (P : A -> Prop) `{!forall x, Decision (P x)}
    (l : list A) (i : nat) (x y : A) :
  list_find P l = Some (i, x) -> P y ->
  list_find P (<[i := y]> l) = Some (i, y).
Proof.
  intros Hf Hy. apply list_find_Some in Hf as (Hi & _ & Hleast).
  apply list_find_insert_Some. right. left.
  split; [reflexivity |]. split; [reflexivity |].
  split; [eapply lookup_lt_Some, Hi |]. split; [exact Hy | exact Hleast].
Qed.

Lemma findMember_award st w u j m :
  findMember st w u = Some (j, m) ->
  forall st1, members st1 = <[j := award_member m]> (members st) ->
  findMember st1 w u = Some (j, award_member m).
Proof.
  unfold findMember. intros Hf st1 ->.
  eapply list_find_insert_same; [exact Hf |].
  apply list_find_Some in Hf as (_ & HP & _). exact HP.
Qed.

Lemma findUser_award st u k x :
  findUser st u = Some (k, x) ->
  forall st1, users st1 = <[k := award_user x]> (users st) ->
  findUser st1 u = Some (k, award_user x).
Proof.
  unfold findUser. intros Hf st1 ->.
  eapply list_find_insert_same; [exact Hf |].
  apply list_find_Some in Hf as (_ & HP & _). exact HP.
Qed.

Lemma legacy_scan_step now req st deviceId i d j m k u :
  present (req_encryptedPayload req) = false ->
  req_action req = Some "SCAN" ->
  req_deviceId req = Some deviceId ->
  findMember st (req_workspaceId req) (req_userId req) = Some (j, m) ->
  resolveInWorkspace st deviceId (req_workspaceId req) = Some (i, d) ->
  findUser st (req_userId req) = Some (k, u) ->
  scanDevice decrypt now req st
  = Some (award false now (req_workspaceId req) (req_userId req) (req_type req)
                d j m (Some (k, u)) st).
Proof.
  intros Henc Hact Hdev Hm Hres Hu.
  unfold scanDevice, decode. rewrite Henc, Hact, Hdev.
  cbn [present or_empty negb].
  change (negb (String.eqb "SCAN" EmptyString)) with true.
  change (String.eqb "SCAN" "SCAN") with true. cbn [negb orb].
  rewrite Hm, Hres, Hu. reflexivity.
Qed.

Lemma legacy_scan_repeats times : forall req st deviceId i d j m k u,
  present (req_encryptedPayload req) = false ->
  req_action req = Some "SCAN" ->
  req_deviceId req = Some deviceId ->
  findMember st (req_workspaceId req) (req_userId req) = Some (j, m) ->
  resolveInWorkspace st deviceId (req_workspaceId req) = Some (i, d) ->
  findUser st (req_userId req) = Some (k, u) ->
  exists rs logged st' m',
    scanRepeatedly decrypt times req st = Some (rs, st')
    /\ length rs = length times
    /\ Forall2 awards_and_logs rs logged
    /\ devices st' = devices st
    /\ activities st' = (activities st ++ logged)%list
    /\ findMember st' (req_workspaceId req) (req_userId req) = Some (j, m')
    /\ m_points m' = m_points m + 10 * Z.of_nat (length times)
    /\ m_scanCount m' = m_scanCount m + Z.of_nat (length times).
Proof.
  induction times as [|now later IH]; intros req st deviceId i d j m k u
    Henc Hact Hdev Hm Hres Hu.
  - exists [], [], st, m. cbn. rewrite app_nil_r.
    repeat split; auto; lia.
  - cbn [scanRepeatedly].
    rewrite (legacy_scan_step now req st deviceId i d j m k u) by assumption.
    unfold award. cbn [fst snd].
    set (a := scanActivity now _ _ _ d).
    set (st1 := create_activity a _).
    destruct (IH req st1 deviceId i d j (award_member m) k (award_user u))
      as (rs & logged & st' & m' & Hrun & Hlen & Hall & Hdevs & Hacts & Hfind
          & Hpts & Hcnt);
      try assumption.
    + eapply findMember_award; [exact Hm | reflexivity].
    + eapply findUser_award; [exact Hu | reflexivity].
    + rewrite Hrun. eexists _, (a :: logged), st', m'. split; [reflexivity |].
      split; [cbn; now rewrite Hlen |].
      split; [constructor; [| exact Hall]; eexists; repeat split |].
      split; [rewrite Hdevs; reflexivity |].
      split; [rewrite Hacts; cbn; now rewrite <- app_assoc |].
      split; [exact Hfind |].
      cbn [length]. rewrite Hpts, Hcnt. cbn. lia.
Qed.

Lemma deviceNotResolved_not_replay st deviceId userId :
  deviceNotResolved st deviceId userId <> replayDetected.
Proof. unfold deviceNotResolved. repeat case_match; discriminate. Qed.

(** C6. A workspace scan in the legacy plain form never reaches the replay
    step: whatever its outcome, it leaves every device (its lastUniqueCode
    included) as it was and is never answered as a replay; and the same
    legacy SCAN request of a member, for a device of the workspace, repeated
    any number of times, succeeds each time, awards 10 points each time and
    logs one SCAN activity of 10 points each time, whatever the device's
    lastUniqueCode is. *)
Theorem legacy_scan_skips_replay times req st :
  present (req_encryptedPayload req) = false ->
  (forall now r st',
      scanDevice decrypt now req st = Some (r, st') ->
      devices st' = devices st /\ r <> replayDetected)
  /\ (forall deviceId i d j m k u,
      req_action req = Some "SCAN" ->
      req_deviceId req = Some deviceId ->
      findMember st (req_workspaceId req) (req_userId req) = Some (j, m) ->
      resolveInWorkspace st deviceId (req_workspaceId req) = Some (i, d) ->
      findUser st (req_userId req) = Some (k, u) ->
      exists rs logged st' m',
        scanRepeatedly decrypt times req st = Some (rs, st')
        /\ length rs = length times
        /\ Forall2 awards_and_logs rs logged
        /\ devices st' = devices st
        /\ activities st' = (activities st ++ logged)%list
        /\ findMember st' (req_workspaceId req) (req_userId req) = Some (j, m')
        /\ m_points m' = m_points m + 10 * Z.of_nat (length times)
        /\ m_scanCount m' = m_scanCount m + Z.of_nat (length times)).
Proof.
  intros Henc. split.
  - intros now r st'. unfold scanDevice, decode. rewrite Henc. intros H.
    repeat case_match; simplify_eq;
      try (split; [reflexivity | discriminate]).
    + apply award_result in H as [Hd Hr]. split; [exact Hd |].
      intros ->. discriminate.
    + split; [reflexivity | apply deviceNotResolved_not_replay].
  - intros deviceId i d j m k u Hact Hdev Hm Hres Hu.
    now apply (legacy_scan_repeats times req st deviceId i d j m k u).
Qed.

(** C10, as the code has it. A scan that fails to decrypt and a scan that
    is detected as a replay are both answered with status 400, but with
    different error texts and different messages: the answers tell the
    caller which of the two happened. *)
Theorem replay_and_decryption_answers now req1 st1 req2 st2 p i d :
  present (req_encryptedPayload req1) = true ->
  (forall v, decrypt (or_empty (req_encryptedPayload req1)) = Some v ->
             truthy v = false) ->
  payloadOf decrypt req2 = Some p ->
  p_action p = "SCAN" ->
  is_Some (findMember st2 (req_workspaceId req2) (req_userId req2)) ->
  resolveInWorkspace st2 (p_deviceId p) (req_workspaceId req2) = Some (i, d) ->
  (p_uniqueCode p <= d_lastUniqueCode d)%Q ->
  exists r1 r2,
    scanDevice decrypt now req1 st1 = Some (r1, st1)
    /\ scanDevice decrypt now req2 st2 = Some (r2, st2)
    /\ status_of r1 = 400 /\ status_of r2 = 400
    /\ error_of r1 = Some "Decryption failed"
    /\ error_of r2 = Some "QR code sudah dipakai"
    /\ error_of r1 <> error_of r2
    /\ message_of r1 <> message_of r2.
Proof.
  intros Henc Hfail Hp Hact Hm Hres Hle.
  destruct (scanDevice_replay decrypt now req2 st2 p i d Hp Hres Hle)
    as (r2 & Hr2 & _ & Hrep).
  rewrite (Hrep Hact Hm) in Hr2.
  exists decryptionFailed, replayDetected.
  split; [| split; [exact Hr2 | repeat split; discriminate]].
  unfold scanDevice, decode, decodeEncrypted. rewrite Henc.
  destruct (decrypt _) as [v|] eqn:Hv; [| reflexivity].
  rewrite (Hfail v eq_refl). reflexivity.
Qed.

End ScanOrder.

Section ScanExamples.
Import Codec Model Scan Samples.

Lemma replay_protection_witness :
  scanDevice cipher 5000 (encrypted "qr-1000" ws_green user_ayu) store0
  = Some (replayDetected, store0).
Proof.
  assert (Hle : (1000 <= d_lastUniqueCode bin004)%Q) by apply Qle_refl.
  destruct (proj1 (replay_protection cipher 5000
                     (encrypted "qr-1000" ws_green user_ayu) store0
                     (mkPayload "BIN-004" "SMART_BIN" "SCAN" 1000) eq_refl)
              0%nat bin004 eq_refl Hle) as (r & Hr & _ & Hrep & _).
  rewrite Hr. rewrite (Hrep eq_refl); [reflexivity |].
  eexists. reflexivity.
Defined.

(** C1 as stated fails: a caller who is not a member of the workspace and
    sends a code the device already carries is turned away as no member,
    not as a replay; nothing is written either way. *)
Lemma stale_code_of_nonmember_is_not_a_replay :
  payloadOf cipher (encrypted "qr-1000" ws_green user_budi)
  = Some (mkPayload "BIN-004" "SMART_BIN" "SCAN" 1000)
  /\ resolveInWorkspace store0 "BIN-004" ws_green = Some (0%nat, bin004)
  /\ (1000 <= d_lastUniqueCode bin004)%Q
  /\ findMember store0 ws_green user_budi = None
  /\ scanDevice cipher 5000 (encrypted "qr-1000" ws_green user_budi) store0
     = Some (notAMember, store0)
  /\ status_of notAMember = 403
  /\ notAMember <> replayDetected.
Proof. repeat split; [apply Qle_refl | discriminate]. Qed.

(** The end-to-end scenario: code 1001 on a device at 1000 earns the member,
    who had 50 points, 10 more and moves the device to 1001; the same QR
    text sent again is a replay and changes nothing. *)
Example scan_then_replay :
  exists data st1,
    scanDevice cipher 5000 (encrypted "qr-1001" ws_green user_ayu) store0
    = Some (Success data, st1)
    /\ pointsEarned data = 10 /\ workspacePoints data = 60
    /\ (d_lastUniqueCode <$> devices st1 !! 0%nat) = Some 1001%Q
    /\ length (activities st1) = 1%nat
    /\ scanDevice cipher 6000 (encrypted "qr-1001" ws_green user_ayu) st1
       = Some (replayDetected, st1).
Proof. eexists _, _. repeat split. Qed.

(** C5 as stated fails: a caller who is not a member of the target
    workspace and scans a deviceId no device has is answered NotAMember
    (403), not a device-resolution failure. *)
Lemma nonmember_unknown_device_is_not_a_member :
  resolveInWorkspace store0 "BIN-999" ws_green = None
  /\ findDeviceByDeviceId store0 "BIN-999" = None
  /\ findMember store0 ws_green user_budi = None
  /\ scanDevice cipher 5000 (legacy "BIN-999" "SCAN" ws_green user_budi) store0
     = Some (notAMember, store0)
  /\ notAMember <> deviceNotResolved store0 "BIN-999" user_budi
  /\ error_of notAMember = Some "Not a member of this workspace".
Proof. repeat split. discriminate. Qed.

Lemma membership_gate_precedes_resolution_witness :
  scanDevice cipher 5000 (legacy "BIN-999" "SCAN" ws_green user_ayu) store0
  = Some (Failure 404 "Device not recognized"
            (Text "Perangkat ini tidak terdaftar di workspace Anda.") None,
          store0).
Proof.
  apply (proj2 (membership_gate_precedes_resolution cipher 5000
                  (legacy "BIN-999" "SCAN" ws_green user_ayu) store0
                  None "BIN-999" None eq_refl eq_refl)).
  eexists. reflexivity.
Defined.

Lemma legacy_scan_skips_replay_witness :
  exists rs logged st' m',
    scanRepeatedly cipher [5000; 6000; 7000]
      (legacy "BIN-004" "SCAN" ws_green user_ayu) store0 = Some (rs, st')
    /\ length rs = 3%nat
    /\ Forall2 awards_and_logs rs logged
    /\ devices st' = devices store0
    /\ activities st' = (activities store0 ++ logged)%list
    /\ findMember st' ws_green user_ayu = Some (0%nat, m')
    /\ m_points m' = 50 + 10 * 3
    /\ m_scanCount m' = 5 + 3.
Proof.
  apply (proj2 (legacy_scan_skips_replay cipher [5000; 6000; 7000]
                  (legacy "BIN-004" "SCAN" ws_green user_ayu) store0 eq_refl)
               "BIN-004" 0%nat bin004 0%nat
               (mkMember user_ayu ws_green 50 5 1000) 0%nat
               (mkUser user_ayu 120 12));
    reflexivity.
Defined.

(** C10 as stated fails: the answer to a QR text that does not decrypt and
    the answer to a replayed one differ in their error and in their
    message. *)
Lemma replay_and_decryption_distinguishable :
  exists r1 r2,
    cipher "garbled" = None
    /\ scanDevice cipher 5000 (encrypted "garbled" ws_green user_ayu) store0
       = Some (r1, store0)
    /\ scanDevice cipher 5000 (encrypted "qr-1000" ws_green user_ayu) store0
       = Some (r2, store0)
    /\ r2 = replayDetected
    /\ error_of r1 <> error_of r2
    /\ message_of r1 <> message_of r2.
Proof. eexists _, _. repeat split; discriminate. Qed.

Lemma replay_and_decryption_answers_witness :
  exists r1 r2,
    scanDevice cipher 5000 (encrypted "garbled" ws_green user_ayu) store0
    = Some (r1, store0)
    /\ scanDevice cipher 5000 (encrypted "qr-1000" ws_green user_ayu) store0
       = Some (r2, store0)
    /\ status_of r1 = 400 /\ status_of r2 = 400
    /\ error_of r1 = Some "Decryption failed"
    /\ error_of r2 = Some "QR code sudah dipakai"
    /\ error_of r1 <> error_of r2
    /\ message_of r1 <> message_of r2.
Proof.
  apply (replay_and_decryption_answers cipher 5000
           (encrypted "garbled" ws_green user_ayu) store0
           (encrypted "qr-1000" ws_green user_ayu) store0
           (mkPayload "BIN-004" "SMART_BIN" "SCAN" 1000) 0%nat bin004).
  - reflexivity.
  - intros v Hv. discriminate Hv.
  - reflexivity.
  - reflexivity.
  - eexists. reflexivity.
  - reflexivity.
  - apply Qle_refl.
Defined.

End ScanExamples.

(** ** The activity log *)

Section ActivityLogFacts.
Import Model Clock Archive ActivityLog.

#[local] Instance most_recent_first_total : Total most_recent_first.
Proof. intros a b. unfold most_recent_first. lia. Qed.

#[local] Instance most_recent_first_trans : Transitive most_recent_first.
Proof. intros a b c. unfold most_recent_first. lia. Qed.

Lemma elem_of_apply_limit {A} (limit : option nat) (l : list A) (x : A) :
  x ∈ apply_limit limit l -> x ∈ l.
Proof.
  destruct limit as [[|n]|]; cbn [apply_limit]; auto.
  apply subseteq_take.
Qed.

Lemma Sorted_take {A} (R : relation A) (n : nat) (l : list A) :
  Sorted R l -> Sorted R (take n l).
Proof.
  revert n. induction l as [|x l IH]; intros [|n] Hs; cbn; auto.
  apply Sorted_inv in Hs as [Hs Hhd].
  constructor; [now apply IH |].
  destruct l as [|y l]; destruct n; cbn; constructor.
  now apply HdRel_inv in Hhd.
Qed.

Lemma Sorted_apply_limit {A} (R : relation A) (limit : option nat) (l : list A) :
  Sorted R l -> Sorted R (apply_limit limit l).
Proof.
  destruct limit as [[|n]|]; cbn [apply_limit]; auto. apply Sorted_take.
Qed.

(** C4, as the code has it. When a member's activity query is answered with
    rows, the lower bound is the since instant if one was supplied and the
    caller's join date if none was; every row is an activity of the
    workspace created at or after the bound (an activity created exactly at
    the since instant is included); the rows come most recent first; and
    without a limit the rows are exactly the workspace's activities created
    at or after the bound. *)
Theorem getActivities_from_lower_bound (req : ActivitiesRequest) (st : Store)
    (rows : list Activity) :
  getActivities req st = Activities rows ->
  exists j membership bound,
    findMember st (q_workspaceId req) (q_userId req) = Some (j, membership)
    /\ lowerBound (q_since req) membership = Some bound
    /\ (forall t, q_since req = Instant t -> bound = t)
    /\ (q_since req = Absent -> bound = m_joinedDate membership)
    /\ (forall a, a ∈ rows ->
        a ∈ activities st /\ a_workspaceId a = q_workspaceId req
        /\ bound <= a_createdAt a)
    /\ Sorted most_recent_first rows
    /\ (q_limit req = None ->
        rows ≡ₚ filter (fun a => a_workspaceId a = q_workspaceId req
                                 /\ bound <= a_createdAt a) (activities st)).
Proof.
  unfold getActivities.
  destruct (findMember st _ _) as [[j membership]|]; [| discriminate].
  destruct (lowerBound (q_since req) membership) as [bound|] eqn:Hb;
    [| discriminate].
  destruct (forallb _ _); [| discriminate]. intros [= <-].
  exists j, membership, bound. split; [reflexivity |]. split; [exact Hb |].
  split; [| split; [| split; [| split]]].
  - intros t Ht. rewrite Ht in Hb. now injection Hb.
  - intros Ha. rewrite Ha in Hb. now injection Hb.
  - intros a Ha. apply elem_of_apply_limit in Ha.
    rewrite merge_sort_Permutation in Ha.
    apply list_elem_of_filter in Ha as [[Hw Ht] Hin]. auto.
  - apply Sorted_apply_limit, Sorted_merge_sort. apply _.
  - intros ->. cbn [apply_limit]. apply merge_sort_Permutation.
Qed.

Lemma elem_of_merge_sort_filter (P : Activity -> Prop)
    `{!forall a, Decision (P a)} (l : list Activity) (n : nat) (a : Activity) :
  a ∈ take n (merge_sort most_recent_first (filter P l)) -> P a /\ a ∈ l.
Proof.
  intros Ha. apply subseteq_take in Ha.
  rewrite merge_sort_Permutation in Ha.
  now apply list_elem_of_filter in Ha.
Qed.


End ActivityLogFacts.

Section ActivityLogExamples.
Import Model Clock Archive ActivityLog Samples.

Lemma getActivities_from_lower_bound_witness :
  exists j membership bound,
    findMember store_log ws_green user_ayu = Some (j, membership)
    /\ lowerBound (Instant 2000) membership = Some bound
    /\ (forall t, Instant 2000 = Instant t -> bound = t)
    /\ (Instant 2000 = Absent -> bound = m_joinedDate membership)
    /\ (forall a, a ∈ [scan_at user_ayu 3000; scan_at user_ayu 2000] ->
        a ∈ activities store_log /\ a_workspaceId a = ws_green
        /\ bound <= a_createdAt a)
    /\ Sorted most_recent_first [scan_at user_ayu 3000; scan_at user_ayu 2000]
    /\ (@None nat = None ->
        [scan_at user_ayu 3000; scan_at user_ayu 2000]
        ≡ₚ filter (fun a => a_workspaceId a = ws_green /\ bound <= a_createdAt a)
                  (activities store_log)).
Proof.
  apply (getActivities_from_lower_bound
           (mkActivitiesRequest ws_green user_ayu (Instant 2000) None)
           store_log).
  reflexivity.
Defined.

(** The code departs from C4 at the since instant: with since = 2000 the
    activity created at instant 2000 is returned, though it is not strictly
    newer.  The bound is the inclusive one that the join date needs; the
    notification handlers, which have no join date to share the bound with,
    filter on since with a strict comparison. *)
Lemma getActivities_includes_since_instant :
  getActivities (mkActivitiesRequest ws_green user_ayu (Instant 2000) None)
                store_log
  = Activities [scan_at user_ayu 3000; scan_at user_ayu 2000]
  /\ a_createdAt (scan_at user_ayu 2000) = 2000
  /\ ~ (2000 < a_createdAt (scan_at user_ayu 2000)).
Proof. repeat split. cbn. lia. Qed.

(** Without since, the first sync starts at the join date. *)
Example first_sync_from_join_date :
  getActivities (mkActivitiesRequest ws_green user_ayu Absent None) store_log
  = Activities [scan_at user_ayu 3000; scan_at user_ayu 2000].
Proof. reflexivity. Qed.


(** A start sixty days back is clamped to thirty days back: of the scans of
    day 50 and day 80, seen on day 100, only the second is exported. *)
Example export_sixty_days_back :
  exportActivities (day 100)
    (mkExportRequest ws_green user_ayu (Some "MY_ACTIVITY") None None
                     (Instant (day 40)) Absent)
    store_old archive0
  = RawRows [scan_at user_ayu (day 80)]
  /\ effectiveStart (day 100) (Instant (day 40)) = day 70.
Proof. split; reflexivity. Qed.

End ActivityLogExamples.

(** ** The archive queries *)

Section ArchiveQueryFacts.
Import Model Clock Archive ArchiveQuery.

Example parseInt_samples :
  parseInt (Some "0") = Some 0 /\ parseInt (Some "366") = Some 366
  /\ parseInt (Some "  -5 days") = Some (-5) /\ parseInt (Some "0x10") = Some 16
  /\ parseInt (Some "week") = None /\ parseInt None = None.
Proof. repeat split. Qed.

(** A days value that parses to a number other than zero and lies outside
    1..365 is refused, whatever the archive holds. *)
Lemma lookback_out_of_range_refused (now : Z) (c : Collection)
    (workspaceId : string) (query_days : option string) (n : Z) :
  parseInt query_days = Some n -> n <> 0 -> n < 1 \/ 365 < n ->
  getWorkspaceArchiveStats now c workspaceId query_days = InvalidDays
  /\ getWorkspaceTypeBreakdown now c workspaceId query_days = InvalidDays.
Proof.
  intros Hn Hz Hout.
  unfold getWorkspaceArchiveStats, getWorkspaceTypeBreakdown. rewrite Hn. cbn.
  destruct (Z.eqb_spec n 0) as [|_]; [contradiction |].
  assert (H : (n <? 1) || (n >? 365) = true).
  { apply orb_true_iff. destruct Hout; [left | right]; lia. }
  now rewrite H.
Qed.

(** C7 at days = 0. The handlers do not refuse a lookback of zero days: the
    parsed 0 is falsy, so [parseInt(req.query.days) || 7] (30 for the type
    breakdown) puts the default in its place and the archive is read; 366
    and -1 are refused. *)
Theorem lookback_zero_takes_default (now : Z) (c : Collection)
    (workspaceId : string) :
  parseInt (Some "0") = Some 0
  /\ getWorkspaceArchiveStats now c workspaceId (Some "0")
     = Ok (getArchivedStats now c workspaceId 7)
  /\ getWorkspaceTypeBreakdown now c workspaceId (Some "0")
     = Ok (30, getActivityTypeBreakdown now c workspaceId 30)
  /\ getWorkspaceArchiveStats now c workspaceId (Some "366") = InvalidDays
  /\ getWorkspaceTypeBreakdown now c workspaceId (Some "366") = InvalidDays
  /\ getWorkspaceArchiveStats now c workspaceId (Some "-1") = InvalidDays.
Proof. repeat split. Qed.

End ArchiveQueryFacts.

(** ** More on the scan processor *)

Section ScanEffects.
Import Codec Model Scan.

Variable decrypt : string -> option value.

Lemma resolveInWorkspace_owner st deviceId w i d :
  resolveInWorkspace st deviceId w = Some (i, d) -> d_workspaceId d = w.
Proof.
  unfold resolveInWorkspace, findDeviceIn, findDeviceByIdIn.
  destruct (list_find _ (devices st)) as [[i' d']|] eqn:H1.
  - intros [= -> ->]. apply list_find_Some in H1 as (_ & [_ Hw] & _). exact Hw.
  - destruct (isObjectIdShape deviceId); [| discriminate].
    intros H2. apply list_find_Some in H2 as (_ & [_ Hw] & _). exact Hw.
Qed.

Lemma decode_rejected (req : Request) (r : Response) :
  decode decrypt req = Rejected r ->
  r = decryptionFailed \/ exists e, r = invalidPayload e.
Proof.
  unfold decode, decodeEncrypted.
  destruct (present _); [| discriminate].
  destruct (decrypt _) as [v|]; [| intros [= <-]; now left].
  destruct (truthy v); cbn [negb]; [| intros [= <-]; now left].
  destruct (validatePayload v) as [|e].
  - destruct (typed v); discriminate.
  - intros [= <-]. right. now exists e.
Qed.

Lemma scanDevice_cases now req st r st' :
  scanDevice decrypt now req st = Some (r, st') ->
  (st' = st /\ is_failure r = true /\ r <> userNotFound)
  \/ exists payload deviceId finalType j m i d,
       decode decrypt req = Fields payload (Some deviceId) (Some "SCAN") finalType
       /\ findMember st (req_workspaceId req) (req_userId req) = Some (j, m)
       /\ resolveInWorkspace st deviceId (req_workspaceId req) = Some (i, d)
       /\ (forall p, payload = Some p ->
             Qle_bool (p_uniqueCode p) (lastUniqueCodeOrZero d) = false)
       /\ ((findUser st (req_userId req) = None
            /\ r = userNotFound /\ st' = after_replay payload i d st)
           \/ exists k u,
                findUser st (req_userId req) = Some (k, u)
                /\ (r, st') = award false now (req_workspaceId req) (req_userId req)
                                    finalType d j m (Some (k, u))
                                    (after_replay payload i d st)).
Proof.
  unfold scanDevice.
  destruct (decode decrypt req) as [r0 | | payload fd fa ft] eqn:Hdec;
    [| discriminate |].
  { intros [= <- <-]. left. split; [reflexivity |].
    destruct (decode_rejected req r0 Hdec) as [-> | [e ->]];
      split; try reflexivity; discriminate. }
  destruct (present fa) eqn:Hfa; cbn [negb];
    [| intros [= <- <-]; left; repeat split; discriminate].
  destruct (String.eqb (or_empty fa) "SCAN") eqn:Hscan; cbn [orb negb].
  2:{ destruct (String.eqb (or_empty fa) "REGISTER"); cbn [negb];
        intros [= <- <-]; left; repeat split; discriminate. }
  apply String.eqb_eq in Hscan.
  assert (Hfa' : fa = Some "SCAN").
  { destruct fa as [a|]; [| discriminate]. cbn in Hscan. now subst. }
  subst fa.
  destruct (findMember st _ _) as [[j m]|] eqn:Hm;
    [| intros [= <- <-]; left; repeat split; discriminate].
  destruct fd as [deviceId|]; [| discriminate].
  destruct (resolveInWorkspace st deviceId _) as [[i d]|] eqn:Hres.
  2:{ intros [= <- <-]. left. split; [reflexivity |].
      unfold deviceNotResolved. repeat case_match; split; try reflexivity;
        discriminate. }
  destruct payload as [p|].
  - destruct (Qle_bool _ _) eqn:Hle;
      [intros [= <- <-]; left; repeat split; discriminate |].
    intros [= H]. right. exists (Some p), deviceId, ft, j, m, i, d.
    do 3 (split; [first [reflexivity | eassumption] |]).
    split; [now intros ? [= <-] |].
    change (findUser (save_device i (set_lastUniqueCode d (p_uniqueCode p)) st)
                     (req_userId req))
      with (findUser st (req_userId req)) in H.
    destruct (findUser st (req_userId req)) as [[k u]|] eqn:Hu.
    + right. exists k, u. split; [reflexivity |]. now rewrite <- H.
    + left. injection H as <- <-. auto.
  - intros [= H]. right. exists None, deviceId, ft, j, m, i, d.
    do 3 (split; [first [reflexivity | eassumption] |]).
    split; [intros ? [=] |].
    destruct (findUser st (req_userId req)) as [[k u]|] eqn:Hu.
    + right. exists k, u. split; [reflexivity |]. now rewrite <- H.
    + left. injection H as <- <-. auto.
Qed.


Lemma payloadOf_Fields req payload fd fa ft :
  decode decrypt req = Fields payload fd fa ft -> payloadOf decrypt req = payload.
Proof. unfold payloadOf. now intros ->. Qed.

Lemma scanDeviceGlobal_cases now req st r st' :
  scanDeviceGlobal decrypt now req st = Some (r, st') ->
  (st' = st /\ is_failure r = true)
  \/ exists p i d j m,
       payloadOf decrypt req = Some p
       /\ p_action p = "SCAN"
       /\ resolveAnywhere st (p_deviceId p) = Some (i, d)
       /\ findMember st (d_workspaceId d) (req_userId req) = Some (j, m)
       /\ Qle_bool (p_uniqueCode p) (lastUniqueCodeOrZero d) = false
       /\ (r, st') = award true now (d_workspaceId d) (req_userId req)
                           (Some (p_type p)) d j m (findUser st (req_userId req))
                           (after_replay (Some p) i d st).
Proof.
  unfold scanDeviceGlobal.
  destruct (present (req_encryptedPayload req)) eqn:Henc; cbn [negb];
    [| intros [= <- <-]; left; now split].
  destruct (decodeEncrypted decrypt _) as [r0 | | [p|] fd fa ft] eqn:Hdec;
    try discriminate.
  { intros [= <- <-]. left. split; [reflexivity |].
    assert (Hd : decode decrypt req = Rejected r0)
      by (unfold decode; now rewrite Henc).
    destruct (decode_rejected req r0 Hd) as [-> | [e ->]]; reflexivity. }
  assert (Hp : payloadOf decrypt req = Some p).
  { unfold payloadOf, decode. now rewrite Henc, Hdec. }
  apply payloadOf_decode in Hp as Hshape. destruct Hshape as [_ Hshape].
  rewrite Hdec in Hshape. injection Hshape as -> -> ->.
  destruct (String.eqb (p_action p) "SCAN") eqn:Hscan; cbn [negb];
    [| intros [= <- <-]; left; now split].
  apply String.eqb_eq in Hscan.
  destruct (resolveAnywhere st (p_deviceId p)) as [[i d]|] eqn:Hres;
    [| intros [= <- <-]; left; now split].
  destruct (findMember st _ _) as [[j m]|] eqn:Hm;
    [| intros [= <- <-]; left; now split].
  destruct (Qle_bool _ _) eqn:Hle; [intros [= <- <-]; left; now split |].
  intros H. apply (inj Some) in H. right. exists p, i, d, j, m.
  do 5 (split; [first [reflexivity | eassumption] |]).
  now rewrite <- H.
Qed.

(** X1. A workspace scan that succeeds was made by a member of the URL's
    workspace with a user record, on a device of that workspace; it adds 10
    points and one scan to the membership and to the user, appends exactly
    one SCAN activity of 10 points for that device, workspace and user, and
    reports the new totals. *)
Theorem scanDevice_success_effects now req st data st' :
  scanDevice decrypt now req st = Some (Success data, st') ->
  exists j m k u i d,
    findMember st (req_workspaceId req) (req_userId req) = Some (j, m)
    /\ findUser st (req_userId req) = Some (k, u)
    /\ devices st !! i = Some d
    /\ d_workspaceId d = req_workspaceId req
    /\ members st' = <[j := award_member m]> (members st)
    /\ users st' = <[k := award_user u]> (users st)
    /\ activities st' = (activities st ++ [activity data])%list
    /\ workspaces st' = workspaces st
    /\ pointsEarned data = 10
    /\ workspacePoints data = m_points m + 10
    /\ totalPoints data = u_points u + 10
    /\ scanCount data = m_scanCount m + 1
    /\ a_type (activity data) = "SCAN"
    /\ a_points (activity data) = 10
    /\ a_workspaceId (activity data) = req_workspaceId req
    /\ a_userId (activity data) = req_userId req
    /\ a_deviceId (activity data) = Some (d_id d)
    /\ a_createdAt (activity data) = now.
Proof.
  intros H. apply scanDevice_cases in H
    as [(_ & Hf & _) | (payload & deviceId & ft & j & m & i & d & Hdec & Hm
                        & Hres & Hfresh & [(_ & Hr & _) | (k & u & Hu & Haw)])];
    [discriminate Hf | discriminate Hr |].
  exists j, m, k, u, i, d.
  split; [exact Hm |]. split; [exact Hu |].
  split; [eapply resolveInWorkspace_lookup; exact Hres |].
  split; [eapply resolveInWorkspace_owner; exact Hres |].
  unfold award in Haw. injection Haw as -> ->.
  destruct payload; repeat split.
Qed.

(** X2. A failed global scan writes nothing. A failed workspace scan never
    touches memberships, users, activities or workspaces, and writes
    nothing at all unless it is the "User not found" answer to a request
    that carried a payload. *)
Theorem scan_failures_side_effects now req st r st' :
  is_failure r = true ->
  (scanDeviceGlobal decrypt now req st = Some (r, st') -> st' = st)
  /\ (scanDevice decrypt now req st = Some (r, st') ->
      members st' = members st /\ users st' = users st
      /\ activities st' = activities st /\ workspaces st' = workspaces st
      /\ (r <> userNotFound -> st' = st)
      /\ (payloadOf decrypt req = None -> st' = st)).
Proof.
  intros Hf. split.
  - intros H. apply scanDeviceGlobal_cases in H
      as [[-> _] | (p & i & d & j & m & _ & _ & _ & _ & _ & Haw)];
      [reflexivity |].
    symmetry in Haw. apply award_result in Haw as [_ Hs]. congruence.
  - intros H. apply scanDevice_cases in H
      as [(-> & _ & _) | (payload & deviceId & ft & j & m & i & d & Hdec & Hm
                          & Hres & Hfresh & [(_ & -> & ->) | (k & u & Hu & Haw)])].
    + repeat split; reflexivity.
    + apply payloadOf_Fields in Hdec. rewrite Hdec.
      destruct payload; cbn; repeat split; try reflexivity; try discriminate.
      now intros [].
    + symmetry in Haw. apply award_result in Haw as [_ Hs]. congruence.
Qed.

Lemma list_find_insert_iff {A} (P : A -> Prop) `{!forall x, Decision (P x)}
    (l : list A) : forall (i : nat) (x y : A),
  l !! i = Some x -> (P x <-> P y) ->
  list_find P (<[i := y]> l)
  = match list_find P l with
    | Some (j, z) => Some (j, if decide (j = i) then y else z)
    | None => None
    end.
Proof.
  induction l as [|z l IH]; intros [|i] x y Hi Hxy; try discriminate;
    csimpl in *.
  - injection Hi as ->.
    destruct (decide (P y)) as [Hy | Hy], (decide (P x)) as [Hx | Hx];
      try tauto.
    destruct (list_find P l) as [[j w]|]; reflexivity.
  - destruct (decide (P z)); [reflexivity |].
    rewrite (IH i x y Hi Hxy).
    destruct (list_find P l) as [[j w]|]; cbn; [| reflexivity].
    destruct (decide (j = i)), (decide (S j = S i)); try lia; reflexivity.
Qed.

Lemma resolveInWorkspace_recoded st st1 i d u deviceId w :
  devices st !! i = Some d ->
  devices st1 = <[i := set_lastUniqueCode d u]> (devices st) ->
  resolveInWorkspace st1 deviceId w
  = recoded i (set_lastUniqueCode d u) (resolveInWorkspace st deviceId w).
Proof.
  intros Hi Hd. unfold resolveInWorkspace, findDeviceIn, findDeviceByIdIn.
  rewrite Hd.
  rewrite !(list_find_insert_iff _ (devices st) i d (set_lastUniqueCode d u) Hi)
    by (cbn; tauto).
  destruct (list_find _ (devices st)) as [[j z]|]; [reflexivity |].
  destruct (isObjectIdShape deviceId); reflexivity.
Qed.

Lemma resolveAnywhere_recoded st st1 i d u deviceId :
  devices st !! i = Some d ->
  devices st1 = <[i := set_lastUniqueCode d u]> (devices st) ->
  resolveAnywhere st1 deviceId
  = recoded i (set_lastUniqueCode d u) (resolveAnywhere st deviceId).
Proof.
  intros Hi Hd. unfold resolveAnywhere, findDeviceByDeviceId, findDeviceById.
  rewrite Hd.
  rewrite !(list_find_insert_iff _ (devices st) i d (set_lastUniqueCode d u) Hi)
    by (cbn; tauto).
  destruct (list_find _ (devices st)) as [[j z]|]; [reflexivity |].
  destruct (isObjectIdShape deviceId); reflexivity.
Qed.

Lemma fresh_code_passes (d : Device) (u : Q) :
  (d_lastUniqueCode d < u)%Q ->
  Qle_bool u (lastUniqueCodeOrZero d) = false.
Proof.
  intros Hlt. destruct (Qle_bool u (lastUniqueCodeOrZero d)) eqn:Hle;
    [| reflexivity].
  apply Qle_bool_iff in Hle. unfold lastUniqueCodeOrZero in Hle.
  destruct (Qeq_bool (d_lastUniqueCode d) 0) eqn:Hz.
  - apply Qeq_bool_iff in Hz. rewrite <- Hz in Hle.
    exfalso. eapply Qlt_not_le; eassumption.
  - exfalso. eapply Qlt_not_le; eassumption.
Qed.

(** X3. The workspace scan saves the new code on the device before it
    looks the user up: a member without a user record who scans a fresh
    code is answered "User not found", the device keeps the new code, and
    the same QR sent again is refused as a replay. *)
Theorem scanDevice_missing_user_consumes_code now req st p i d j m :
  payloadOf decrypt req = Some p ->
  p_action p = "SCAN" ->
  findMember st (req_workspaceId req) (req_userId req) = Some (j, m) ->
  resolveInWorkspace st (p_deviceId p) (req_workspaceId req) = Some (i, d) ->
  (d_lastUniqueCode d < p_uniqueCode p)%Q ->
  findUser st (req_userId req) = None ->
  scanDevice decrypt now req st
  = Some (userNotFound, after_replay (Some p) i d st)
  /\ forall later,
       scanDevice decrypt later req (after_replay (Some p) i d st)
       = Some (replayDetected, after_replay (Some p) i d st).
Proof.
  intros Hp Hact Hm Hres Hlt Hu.
  pose proof (resolveInWorkspace_lookup _ _ _ _ _ Hres) as Hi.
  split.
  - apply payloadOf_decode in Hp as [Hpres Hdec].
    unfold scanDevice, decode. rewrite Hpres, Hdec, Hact.
    cbn [present or_empty negb].
    change (negb (String.eqb "SCAN" EmptyString)) with true.
    change (String.eqb "SCAN" "SCAN") with true. cbn [negb orb].
    rewrite Hm, Hres, (fresh_code_passes d _ Hlt).
    change (findUser (save_device i (set_lastUniqueCode d (p_uniqueCode p)) st)
                     (req_userId req))
      with (findUser st (req_userId req)).
    now rewrite Hu.
  - intros later. cbn [after_replay].
    set (st1 := save_device i (set_lastUniqueCode d (p_uniqueCode p)) st).
    assert (Hres1 : resolveInWorkspace st1 (p_deviceId p) (req_workspaceId req)
                    = Some (i, set_lastUniqueCode d (p_uniqueCode p))).
    { rewrite (resolveInWorkspace_recoded st st1 i d (p_uniqueCode p))
        by (exact Hi || reflexivity).
      rewrite Hres. cbn. now rewrite decide_True. }
    destruct (scanDevice_replay decrypt later req st1 p i _ Hp Hres1)
      as (r & Hr & _ & Hrep); [apply Qle_refl |].
    rewrite Hr. rewrite (Hrep Hact); [reflexivity |].
    exists (j, m). exact Hm.
Qed.

(** X4. A global scan that succeeds was made by a member of the device's
    own workspace; it awards the membership, awards the user record if
    there is one, and appends one SCAN activity of 10 points in the device's
    workspace. Without a user record the scan still succeeds and
    [totalPoints] is the membership's points. *)
Theorem scanDeviceGlobal_success_effects now req st data st' :
  scanDeviceGlobal decrypt now req st = Some (Success data, st') ->
  exists p i d j m,
    payloadOf decrypt req = Some p
    /\ resolveAnywhere st (p_deviceId p) = Some (i, d)
    /\ findMember st (d_workspaceId d) (req_userId req) = Some (j, m)
    /\ members st' = <[j := award_member m]> (members st)
    /\ users st' = match findUser st (req_userId req) with
                   | Some (k, u) => <[k := award_user u]> (users st)
                   | None => users st
                   end
    /\ activities st' = (activities st ++ [activity data])%list
    /\ a_workspaceId (activity data) = d_workspaceId d
    /\ a_deviceId (activity data) = Some (d_id d)
    /\ a_type (activity data) = "SCAN"
    /\ a_points (activity data) = 10
    /\ pointsEarned data = 10
    /\ workspacePoints data = m_points m + 10
    /\ (findUser st (req_userId req) = None -> totalPoints data = m_points m + 10)
    /\ (forall k u, findUser st (req_userId req) = Some (k, u) ->
          u_points u + 10 <> 0 -> totalPoints data = u_points u + 10).
Proof.
  intros H. apply scanDeviceGlobal_cases in H
    as [[_ Hf] | (p & i & d & j & m & Hp & _ & Hres & Hm & _ & Haw)];
    [discriminate Hf |].
  exists p, i, d, j, m. do 3 (split; [assumption |]).
  unfold award in Haw. cbn [after_replay] in Haw.
  change (findUser (save_device i (set_lastUniqueCode d (p_uniqueCode p)) st)
                   (req_userId req))
    with (findUser st (req_userId req)) in Haw.
  injection Haw as -> ->.
  destruct (findUser st (req_userId req)) as [[k u]|]; cbn;
    repeat split; try discriminate.
  intros k' u' [= -> ->] Hnz. cbn.
  destruct (Z.eqb_spec (u_points u' + 10) 0); [contradiction | reflexivity].
Qed.

Lemma typed_action (v : value) (p : Payload) :
  typed v = Some p -> get_field v "action" = Some (JStr (p_action p)).
Proof.
  unfold typed.
  destruct (get_field v "deviceId") as [[| | |s1| |]|]; try discriminate.
  destruct (get_field v "type") as [[| | |s2| |]|]; try discriminate.
  destruct (get_field v "action") as [[| | |s3| |]|]; try discriminate.
  destruct (get_field v "uniqueCode") as [[| |q| | |]|]; try discriminate.
  now intros [= <-].
Qed.

Lemma payloadOf_action (req : Request) (p : Payload) :
  payloadOf decrypt req = Some p ->
  p_action p = "SCAN" \/ p_action p = "REGISTER".
Proof.
  unfold payloadOf, decode.
  destruct (present (req_encryptedPayload req)); [| discriminate].
  unfold decodeEncrypted.
  destruct (decrypt _) as [v|]; [| discriminate].
  destruct (truthy v); cbn [negb]; [| discriminate].
  destruct (validatePayload v) eqn:Hv; [| discriminate].
  destruct (typed v) as [q|] eqn:Ht; [| discriminate].
  intros [= ->]. apply validate_Valid_iff in Hv as (_ & _ & Hact & _).
  rewrite (typed_action v p Ht) in Hact.
  destruct Hact as [[= ->] | [= ->]]; auto.
Qed.

(** X5. Only the action SCAN earns points. A decrypted payload that passed
    validation has the action SCAN or REGISTER; with REGISTER both
    endpoints answer the registration hint and write nothing; and a
    workspace scan whose action is anything but SCAN is answered with
    status 400 and writes nothing. *)
Theorem only_scan_action_earns now req st :
  (forall p, payloadOf decrypt req = Some p ->
     p_action p = "SCAN" \/ p_action p = "REGISTER")
  /\ (forall p, payloadOf decrypt req = Some p -> p_action p = "REGISTER" ->
      scanDevice decrypt now req st = Some (notForPoints "REGISTER", st)
      /\ scanDeviceGlobal decrypt now req st = Some (notForPoints "REGISTER", st))
  /\ (forall payload fd fa ft,
      decode decrypt req = Fields payload fd fa ft -> fa <> Some "SCAN" ->
      exists r, scanDevice decrypt now req st = Some (r, st)
                /\ status_of r = 400).
Proof.
  split; [apply payloadOf_action |]. split.
  - intros p Hp Hact. apply payloadOf_decode in Hp as [Hpres Hdec].
    unfold scanDevice, scanDeviceGlobal, decode. rewrite Hpres, Hdec, Hact.
    split; reflexivity.
  - intros payload fd fa ft Hdec Hfa. unfold scanDevice. rewrite Hdec.
    destruct (present fa) eqn:Hp; cbn [negb];
      [| eexists; split; reflexivity].
    destruct (String.eqb (or_empty fa) "SCAN") eqn:Hs; cbn [orb negb].
    + exfalso. apply Hfa. apply String.eqb_eq in Hs.
      destruct fa; [cbn in Hs; now subst | discriminate].
    + destruct (String.eqb (or_empty fa) "REGISTER"); cbn [negb];
        eexists; split; reflexivity.
Qed.

(** X6. The code of an accepted scan is the floor for every later scan of
    that device, whoever sends it: after a success, a request on the same
    endpoint (for the workspace scan, in the same workspace) that names the
    same deviceId with a code less than or equal to the accepted one fails
    and writes nothing. *)
Theorem accepted_code_is_floor_for_everyone now req st data st' p :
  payloadOf decrypt req = Some p ->
  (scanDevice decrypt now req st = Some (Success data, st') ->
   forall later req' p',
     payloadOf decrypt req' = Some p' ->
     req_workspaceId req' = req_workspaceId req ->
     p_deviceId p' = p_deviceId p ->
     (p_uniqueCode p' <= p_uniqueCode p)%Q ->
     exists r, scanDevice decrypt later req' st' = Some (r, st')
               /\ is_failure r = true)
  /\ (scanDeviceGlobal decrypt now req st = Some (Success data, st') ->
      forall later req' p',
        payloadOf decrypt req' = Some p' ->
        p_deviceId p' = p_deviceId p ->
        (p_uniqueCode p' <= p_uniqueCode p)%Q ->
        exists r, scanDeviceGlobal decrypt later req' st' = Some (r, st')
                  /\ is_failure r = true).
Proof.
  intros Hp. split.
  - intros H later req' p' Hp' Hw Hd Hle.
    pose proof H as Hc. apply scanDevice_cases in Hc
      as [(_ & Hf & _) | (payload & deviceId & ft & j & m & i & d & Hdec & Hm
                          & Hres & Hfresh & [(_ & Hr & _) | (k & u & Hu & Haw)])];
      [discriminate Hf | discriminate Hr |].
    pose proof (payloadOf_Fields _ _ _ _ _ Hdec) as Hpl.
    rewrite Hp in Hpl. subst payload.
    apply payloadOf_decode in Hp as [_ Hdec'].
    assert (Hid : deviceId = p_deviceId p).
    { unfold decode in Hdec. destruct (present _); [| discriminate].
      rewrite Hdec' in Hdec. now injection Hdec. }
    subst deviceId.
    symmetry in Haw. apply award_result in Haw as [Hdevs _].
    cbn [after_replay devices save_device] in Hdevs.
    pose proof (resolveInWorkspace_lookup _ _ _ _ _ Hres) as Hi.
    assert (Hres' : resolveInWorkspace st' (p_deviceId p') (req_workspaceId req')
                    = Some (i, set_lastUniqueCode d (p_uniqueCode p))).
    { rewrite (resolveInWorkspace_recoded st st' i d (p_uniqueCode p)) by assumption.
      rewrite Hd, Hw, Hres. cbn. now rewrite decide_True. }
    destruct (scanDevice_replay decrypt later req' st' p' i _ Hp' Hres' Hle)
      as (r & Hr & Hfail & _).
    now exists r.
  - intros H later req' p' Hp' Hd Hle.
    pose proof H as Hc. apply scanDeviceGlobal_cases in Hc
      as [[_ Hf] | (p0 & i & d & j & m & Hp0 & _ & Hres & Hm & _ & Haw)];
      [discriminate Hf |].
    rewrite Hp in Hp0. injection Hp0 as <-.
    symmetry in Haw. apply award_result in Haw as [Hdevs _].
    cbn [after_replay devices save_device] in Hdevs.
    pose proof (resolveAnywhere_lookup _ _ _ _ Hres) as Hi.
    assert (Hres' : resolveAnywhere st' (p_deviceId p')
                    = Some (i, set_lastUniqueCode d (p_uniqueCode p))).
    { rewrite (resolveAnywhere_recoded st st' i d (p_uniqueCode p)) by assumption.
      rewrite Hd, Hres. cbn. now rewrite decide_True. }
    destruct (scanDeviceGlobal_replay decrypt later req' st' p' i _ Hp' Hres' Hle)
      as (r & Hr & Hfail & _).
    now exists r.
Qed.
End ScanEffects.

Section ScanEffectsExamples.
Import Codec Model Scan Samples.

Lemma scanDevice_success_effects_witness :
  exists j m k u i d,
    findMember store0 ws_green user_ayu = Some (j, m)
    /\ findUser store0 user_ayu = Some (k, u)
    /\ devices store0 !! i = Some d
    /\ d_workspaceId d = ws_green
    /\ members store1001 = <[j := award_member m]> (members store0)
    /\ users store1001 = <[k := award_user u]> (users store0)
    /\ activities store1001 = (activities store0 ++ [activity data1001])%list
    /\ workspaces store1001 = workspaces store0
    /\ pointsEarned data1001 = 10
    /\ workspacePoints data1001 = m_points m + 10
    /\ totalPoints data1001 = u_points u + 10
    /\ scanCount data1001 = m_scanCount m + 1
    /\ a_type (activity data1001) = "SCAN"
    /\ a_points (activity data1001) = 10
    /\ a_workspaceId (activity data1001) = ws_green
    /\ a_userId (activity data1001) = user_ayu
    /\ a_deviceId (activity data1001) = Some (d_id d)
    /\ a_createdAt (activity data1001) = 5000.
Proof.
  apply (scanDevice_success_effects cipher 5000
           (encrypted "qr-1001" ws_green user_ayu) store0 data1001 store1001).
  reflexivity.
Defined.

Lemma scan_failures_side_effects_witness :
  (scanDeviceGlobal cipher 5000 (encrypted "qr-1000" ws_green user_ayu) store0
   = Some (replayDetected, store0) -> store0 = store0)
  /\ (scanDevice cipher 5000 (encrypted "qr-1000" ws_green user_ayu) store0
      = Some (replayDetected, store0) ->
      members store0 = members store0 /\ users store0 = users store0
      /\ activities store0 = activities store0
      /\ workspaces store0 = workspaces store0
      /\ (replayDetected <> userNotFound -> store0 = store0)
      /\ (payloadOf cipher (encrypted "qr-1000" ws_green user_ayu) = None ->
          store0 = store0)).
Proof.
  apply (scan_failures_side_effects cipher 5000
           (encrypted "qr-1000" ws_green user_ayu) store0 replayDetected store0).
  reflexivity.
Defined.

Lemma scanDevice_missing_user_consumes_code_witness :
  scanDevice cipher 5000 (encrypted "qr-1001" ws_green user_ayu) store_nouser
  = Some (userNotFound,
          after_replay (Some (mkPayload "BIN-004" "SMART_BIN" "SCAN" 1001))
                       0 bin004 store_nouser)
  /\ forall later,
       scanDevice cipher later (encrypted "qr-1001" ws_green user_ayu)
         (after_replay (Some (mkPayload "BIN-004" "SMART_BIN" "SCAN" 1001))
                       0 bin004 store_nouser)
       = Some (replayDetected,
               after_replay (Some (mkPayload "BIN-004" "SMART_BIN" "SCAN" 1001))
                            0 bin004 store_nouser).
Proof.
  apply (scanDevice_missing_user_consumes_code cipher 5000
           (encrypted "qr-1001" ws_green user_ayu) store_nouser
           (mkPayload "BIN-004" "SMART_BIN" "SCAN" 1001) 0%nat bin004 0%nat
           (mkMember user_ayu ws_green 50 5 1000));
    reflexivity.
Defined.

Lemma scanDeviceGlobal_success_effects_witness :
  exists p i d j m,
    payloadOf cipher (encrypted "qr-1001" ws_green user_ayu) = Some p
    /\ resolveAnywhere store_nouser (p_deviceId p) = Some (i, d)
    /\ findMember store_nouser (d_workspaceId d) user_ayu = Some (j, m)
    /\ members store_nouser1001 = <[j := award_member m]> (members store_nouser)
    /\ users store_nouser1001
       = match findUser store_nouser user_ayu with
         | Some (k, u) => <[k := award_user u]> (users store_nouser)
         | None => users store_nouser
         end
    /\ activities store_nouser1001
       = (activities store_nouser ++ [activity data_nouser])%list
    /\ a_workspaceId (activity data_nouser) = d_workspaceId d
    /\ a_deviceId (activity data_nouser) = Some (d_id d)
    /\ a_type (activity data_nouser) = "SCAN"
    /\ a_points (activity data_nouser) = 10
    /\ pointsEarned data_nouser = 10
    /\ workspacePoints data_nouser = m_points m + 10
    /\ (findUser store_nouser user_ayu = None ->
        totalPoints data_nouser = m_points m + 10)
    /\ (forall k u, findUser store_nouser user_ayu = Some (k, u) ->
          u_points u + 10 <> 0 -> totalPoints data_nouser = u_points u + 10).
Proof.
  apply (scanDeviceGlobal_success_effects cipher 5000
           (encrypted "qr-1001" ws_green user_ayu) store_nouser
           data_nouser store_nouser1001).
  reflexivity.
Defined.

Lemma accepted_code_is_floor_for_everyone_witness :
  (scanDevice cipher 5000 (encrypted "qr-1001" ws_green user_ayu) store0
   = Some (Success data1001, store1001) ->
   forall later req' p',
     payloadOf cipher req' = Some p' ->
     req_workspaceId req' = ws_green ->
     p_deviceId p' = "BIN-004" ->
     (p_uniqueCode p' <= 1001)%Q ->
     exists r, scanDevice cipher later req' store1001 = Some (r, store1001)
               /\ is_failure r = true)
  /\ (scanDeviceGlobal cipher 5000 (encrypted "qr-1001" ws_green user_ayu) store0
      = Some (Success data1001, store1001) ->
      forall later req' p',
        payloadOf cipher req' = Some p' ->
        p_deviceId p' = "BIN-004" ->
        (p_uniqueCode p' <= 1001)%Q ->
        exists r, scanDeviceGlobal cipher later req' store1001
                  = Some (r, store1001)
                  /\ is_failure r = true).
Proof.
  apply (accepted_code_is_floor_for_everyone cipher 5000
           (encrypted "qr-1001" ws_green user_ayu) store0 data1001 store1001
           (mkPayload "BIN-004" "SMART_BIN" "SCAN" 1001)).
  reflexivity.
Defined.

End ScanEffectsExamples.

(** ** More on the archive compactor *)

Section GroupMore.
Import Archive.
Context {A K B : Type} `{EqDecision K}.
Variable key : A -> K.
Variable empty : B.
Variable step : B -> A -> B.

Lemma sum_of_app {X} (f : X -> Z) (l1 l2 : list X) :
  sum_of f (l1 ++ l2) = sum_of f l1 + sum_of f l2.
Proof.
  unfold sum_of. induction l1 as [|x l1 IH]; cbn; [reflexivity | rewrite IH; lia].
Qed.

(** Filtering the groups on their keys is grouping the documents that have
    such keys. *)
Lemma add_to_group_filter (Q : K -> Prop) `{!forall k, Decision (Q k)}
    (a : A) (groups : list (K * B)) :
  filter (fun kb => Q (fst kb)) (add_to_group key empty step a groups)
  = if decide (Q (key a))
    then add_to_group key empty step a (filter (fun kb => Q (fst kb)) groups)
    else filter (fun kb => Q (fst kb)) groups.
Proof.
  induction groups as [|[k b] rest IH]; cbn [add_to_group].
  - rewrite filter_cons, !filter_nil. cbn [fst].
    destruct (decide (Q (key a))); reflexivity.
  - destruct (decide (k = key a)) as [-> | Hne].
    + rewrite !filter_cons. cbn [fst].
      destruct (decide (Q (key a))); cbn [add_to_group]; [| reflexivity].
      now rewrite decide_True.
    + rewrite !filter_cons. cbn [fst]. rewrite IH.
      destruct (decide (Q k)), (decide (Q (key a))); cbn [add_to_group];
        try reflexivity.
      now rewrite decide_False.
Qed.

Lemma group_filter (Q : K -> Prop) `{!forall k, Decision (Q k)} (docs : list A) :
  filter (fun kb => Q (fst kb)) (group key empty step docs)
  = group key empty step (filter (fun a => Q (key a)) docs).
Proof.
  induction docs as [|a docs IH] using rev_ind; [reflexivity |].
  rewrite group_snoc, add_to_group_filter, filter_app, IH.
  rewrite filter_cons, filter_nil.
  destruct (decide (Q (key a))).
  - now rewrite group_snoc.
  - now rewrite app_nil_r.
Qed.

Lemma add_to_group_sum (val : B -> Z) (f : A -> Z) (a : A)
    (groups : list (K * B)) :
  val empty = 0 ->
  (forall b a, val (step b a) = val b + f a) ->
  sum_of (fun kb => val (snd kb)) (add_to_group key empty step a groups)
  = sum_of (fun kb => val (snd kb)) groups + f a.
Proof.
  intros H0 Hstep. unfold sum_of.
  induction groups as [|[k b] rest IH]; cbn.
  - rewrite Hstep, H0. lia.
  - destruct (decide (k = key a)); cbn; [rewrite Hstep; lia | rewrite IH; lia].
Qed.

(** A measure that every step raises by the weight of its document sums,
    over the groups, to the total weight of the documents. *)
Lemma group_sum (val : B -> Z) (f : A -> Z) (docs : list A) :
  val empty = 0 ->
  (forall b a, val (step b a) = val b + f a) ->
  sum_of (fun kb => val (snd kb)) (group key empty step docs) = sum_of f docs.
Proof.
  intros H0 Hstep.
  induction docs as [|a docs IH] using rev_ind; [reflexivity |].
  rewrite group_snoc, sum_of_app, (add_to_group_sum val f), IH by assumption.
  cbn. lia.
Qed.

Lemma foldl_measure (val : B -> Z) (f : A -> Z) (l : list A) :
  (forall b a, val (step b a) = val b + f a) ->
  forall b, val (foldl step b l) = val b + sum_of f l.
Proof.
  intros Hstep. unfold sum_of.
  induction l as [|a l IH]; intros b; cbn; [lia |].
  rewrite IH, Hstep. lia.
Qed.

End GroupMore.

Section ClockFacts.
Import Clock.

Lemma startOfDay_le (t : Z) : startOfDay t <= t.
Proof.
  unfold startOfDay, msPerDay.
  pose proof (Z.mod_pos_bound t 86400000 ltac:(lia)). lia.
Qed.

Lemma startOfDay_gt (t : Z) : t < startOfDay t + msPerDay.
Proof.
  unfold startOfDay, msPerDay.
  pose proof (Z.mod_pos_bound t 86400000 ltac:(lia)). lia.
Qed.

Lemma startOfDay_midnight (t : Z) : startOfDay t mod msPerDay = 0.
Proof.
  unfold startOfDay, msPerDay.
  rewrite Zminus_mod_idemp_r. rewrite Z.sub_diag. reflexivity.
Qed.

(** An instant belongs to the day that starts at the midnight [s] exactly
    when it lies in [s, s + one day). *)
Lemma startOfDay_iff (s t : Z) :
  s mod msPerDay = 0 ->
  startOfDay t = s <-> s <= t < s + msPerDay.
Proof.
  intros Hs. split.
  - intros <-. split; [apply startOfDay_le | apply startOfDay_gt].
  - intros [Hlo Hhi]. unfold startOfDay, msPerDay in *.
    assert (Ht : t mod 86400000 = t - s).
    { symmetry. apply (Z.mod_unique_pos t 86400000 (s / 86400000)); [lia |].
      pose proof (Z.div_mod s 86400000 ltac:(lia)). lia. }
    lia.
Qed.

Lemma startOfDay_mono (s t : Z) : s <= t -> startOfDay s <= startOfDay t.
Proof.
  intros Hst. unfold startOfDay, msPerDay.
  pose proof (Z.div_le_mono s t 86400000 ltac:(lia) Hst).
  rewrite !Z.mod_eq by lia. lia.
Qed.

Lemma hourOf_range (t : Z) : 0 <= hourOf t <= 23.
Proof.
  unfold hourOf, msPerDay, msPerHour.
  pose proof (Z.mod_pos_bound t 86400000 ltac:(lia)) as [Hlo Hhi].
  split; [apply Z.div_pos; lia |].
  assert (t mod 86400000 / 3600000 < 24); [| lia].
  apply Z.div_lt_upper_bound; lia.
Qed.

End ClockFacts.

Section ArchiveMore.
Import Model Clock Archive.

Lemma sum_of_map {X Y} (f : Y -> Z) (g : X -> Y) (l : list X) :
  sum_of f (map g l) = sum_of (fun x => f (g x)) l.
Proof. unfold sum_of. induction l as [|x l IH]; cbn; [reflexivity | now rewrite IH]. Qed.

Lemma sum_of_ones {X} (l : list X) : sum_of (fun _ => 1) l = Z.of_nat (length l).
Proof. unfold sum_of. induction l as [|x l IH]; cbn [foldr length]; [reflexivity | lia]. Qed.

Lemma sum_of_ext {X} (f g : X -> Z) (l : list X) :
  (forall x, f x = g x) -> sum_of f l = sum_of g l.
Proof.
  intros H. unfold sum_of. induction l as [|x l IH]; cbn; [reflexivity |].
  now rewrite H, IH.
Qed.

(** The hour groups of one day are the groups of that day's activities. *)
Lemma hours_of_day (matched : list Activity) (w : string) (day : Z) :
  selected day_key (w, day) (stage_hours matched)
  = stage_hours (filter (fun a => a_workspaceId a = w
                                  /\ startOfDay (a_createdAt a) = day) matched).
Proof.
  unfold selected, stage_hours.
  rewrite (list_filter_iff _ (fun kb => day_of (fst kb) = (w, day))).
  2:{ intros [[[[[w' t] dt] day'] h] acc]. reflexivity. }
  pose proof (group_filter hour_key (mkHourAcc 0 0 []) hour_step
                (fun hk => day_of hk = (w, day)) matched) as Hgf.
  cbn beta in Hgf. rewrite Hgf. clear Hgf.
  f_equal. apply list_filter_iff. intros a. unfold hour_key, day_of.
  split; [intros [= <- <-]; auto | intros [<- <-]; reflexivity].
Qed.

Lemma pipeline_doc (startDate endDate : Z) (raw : list Activity) (d : DayDoc) :
  d ∈ pipeline startDate endDate raw ->
  d = project (doc_key d,
               foldl day_step (mkDayAcc 0 0 [] [])
                 (stage_hours (day_activities startDate endDate raw
                                 (doc_workspaceId d) (doc_date d))))
  /\ day_activities startDate endDate raw (doc_workspaceId d) (doc_date d) <> [].
Proof.
  unfold pipeline. intros Hd.
  apply list_elem_of_fmap in Hd as ([[w day] acc] & -> & Hg).
  apply group_spec in Hg as [(g & Hg & Hk) ->]. cbn [doc_key project doc_workspaceId doc_date].
  fold (stage_hours (stage_match startDate endDate raw)).
  rewrite hours_of_day. split; [reflexivity |].
  destruct g as [hk hacc]. apply group_spec in Hg as [(a & Ha & Hka) _].
  intros Hnil.
  assert (Hin : a ∈ day_activities startDate endDate raw w day).
  { apply list_elem_of_filter. split; [| exact Ha].
    subst hk. unfold day_key, hour_key in Hk. cbn in Hk. now injection Hk. }
  rewrite Hnil in Hin. inversion Hin.
Qed.


Lemma day_fold (gs : list (HourKey * HourAcc)) :
  dailyTotalActivities (foldl day_step (mkDayAcc 0 0 [] []) gs)
  = sum_of (fun g => h_count (snd g)) gs
  /\ dailyTotalPoints (foldl day_step (mkDayAcc 0 0 [] []) gs)
     = sum_of (fun g => h_points (snd g)) gs
  /\ timeline (foldl day_step (mkDayAcc 0 0 [] []) gs) = map bucket_of gs.
Proof.
  split; [| split].
  - now rewrite (foldl_measure day_step dailyTotalActivities
                   (fun g => h_count (snd g))).
  - now rewrite (foldl_measure day_step dailyTotalPoints
                   (fun g => h_points (snd g))).
  - now rewrite day_fold_timeline.
Qed.

Lemma stage_hours_sums (acts : list Activity) :
  sum_of (fun g => h_count (snd g)) (stage_hours acts) = Z.of_nat (length acts)
  /\ sum_of (fun g => h_points (snd g)) (stage_hours acts) = sum_of a_points acts.
Proof.
  unfold stage_hours. split.
  - rewrite (group_sum hour_key _ hour_step h_count (fun _ => 1));
      [apply sum_of_ones | reflexivity | reflexivity].
  - now rewrite (group_sum hour_key _ hour_step h_points a_points).
Qed.

Lemma bucket_of_fields (g : HourKey * HourAcc) :
  b_count (bucket_of g) = h_count (snd g)
  /\ b_points (bucket_of g) = h_points (snd g).
Proof. destruct g as [[[[[w t] dt] day] h] acc]. split; reflexivity. Qed.

(** X7. Every day document the pipeline writes stands for at least one raw
    activity of its workspace and day within the range: [totalActivities]
    is the number of those activities, [totalPoints] the sum of their
    points, both are also the sums of the timeline's counts and points, and
    the document's date is a UTC midnight from the day of [startDate] on
    and before [endDate]. *)
Theorem day_document_totals (startDate endDate : Z) (raw : list Activity)
    (d : DayDoc) :
  d ∈ pipeline startDate endDate raw ->
  day_activities startDate endDate raw (doc_workspaceId d) (doc_date d) <> []
  /\ totalActivities (doc_stats d)
     = Z.of_nat (length (day_activities startDate endDate raw
                           (doc_workspaceId d) (doc_date d)))
  /\ totalPoints (doc_stats d)
     = sum_of a_points (day_activities startDate endDate raw
                          (doc_workspaceId d) (doc_date d))
  /\ totalActivities (doc_stats d) = sum_of b_count (doc_timeline d)
  /\ totalPoints (doc_stats d) = sum_of b_points (doc_timeline d)
  /\ doc_date d mod msPerDay = 0
  /\ startOfDay startDate <= doc_date d < endDate.
Proof.
  intros Hd. destruct (pipeline_doc _ _ _ _ Hd) as [Hdoc Hne].
  set (acts := day_activities startDate endDate raw
                 (doc_workspaceId d) (doc_date d)) in *.
  destruct (day_fold (stage_hours acts)) as (Hc & Hp & Ht).
  destruct (stage_hours_sums acts) as [Hsc Hsp].
  split; [exact Hne |].
  assert (Hta : totalActivities (doc_stats d) = Z.of_nat (length acts)).
  { rewrite Hdoc. cbn. now rewrite Hc. }
  assert (Htp : totalPoints (doc_stats d) = sum_of a_points acts).
  { rewrite Hdoc. cbn. now rewrite Hp. }
  assert (Htl : doc_timeline d = map bucket_of (stage_hours acts)).
  { rewrite Hdoc at 1. cbn. exact Ht. }
  split; [exact Hta |]. split; [exact Htp |].
  split.
  { rewrite Hta, Htl, sum_of_map, <- Hsc. apply sum_of_ext.
    intros g. now destruct (bucket_of_fields g). }
  split.
  { rewrite Htp, Htl, sum_of_map, <- Hsp. apply sum_of_ext.
    intros g. now destruct (bucket_of_fields g). }
  destruct acts as [|a rest] eqn:Hacts; [contradiction |].
  assert (Ha : a ∈ day_activities startDate endDate raw
                     (doc_workspaceId d) (doc_date d)).
  { fold acts. rewrite Hacts. left. }
  apply list_elem_of_filter in Ha as [[_ Hday] Ha].
  apply list_elem_of_filter in Ha as [[Hlo Hhi] _].
  rewrite <- Hday. split; [apply startOfDay_midnight |]. split.
  - now apply startOfDay_mono.
  - pose proof (startOfDay_le (a_createdAt a)). lia.
Qed.

(** X9. Compaction loses and invents nothing: over the documents of a run,
    the [totalActivities] add up to the number of raw activities of the
    range, and the [totalPoints] to the sum of their points. *)
Theorem compaction_conserves_events (startDate endDate : Z)
    (raw : list Activity) :
  sum_of (fun d => totalActivities (doc_stats d)) (pipeline startDate endDate raw)
  = Z.of_nat (length (stage_match startDate endDate raw))
  /\ sum_of (fun d => totalPoints (doc_stats d)) (pipeline startDate endDate raw)
     = sum_of a_points (stage_match startDate endDate raw).
Proof.
  unfold pipeline, stage_days.
  set (hours := stage_hours (stage_match startDate endDate raw)).
  destruct (stage_hours_sums (stage_match startDate endDate raw)) as [Hc Hp].
  fold hours in Hc, Hp. rewrite !sum_of_map. split.
  - rewrite <- Hc.
    rewrite <- (group_sum day_key (mkDayAcc 0 0 [] []) day_step
                  dailyTotalActivities (fun g => h_count (snd g)) hours)
      by reflexivity.
    apply sum_of_ext. now intros [[w day] acc].
  - rewrite <- Hp.
    rewrite <- (group_sum day_key (mkDayAcc 0 0 [] []) day_step
                  dailyTotalPoints (fun g => h_points (snd g)) hours)
      by reflexivity.
    apply sum_of_ext. now intros [[w day] acc].
Qed.

Lemma addToSet_NoDup (x : string) (l : list string) :
  NoDup l -> NoDup (addToSet x l).
Proof.
  intros Hl. unfold addToSet. destruct (decide (x ∈ l)); [exact Hl |].
  apply NoDup_app. split; [exact Hl |]. split.
  - intros y Hy Hy'. apply list_elem_of_singleton in Hy'. now subst.
  - apply NoDup_singleton.
Qed.

Lemma hour_fold_NoDup (l : list Activity) : forall acc,
  NoDup (h_userIds acc) -> NoDup (h_userIds (foldl hour_step acc l)).
Proof.
  induction l as [|a l IH]; intros acc Hacc; cbn; [exact Hacc |].
  apply IH. cbn. now apply addToSet_NoDup.
Qed.

Lemma timeline_bucket (startDate endDate : Z) (raw : list Activity)
    (d : DayDoc) (b : Bucket) :
  d ∈ pipeline startDate endDate raw -> b ∈ doc_timeline d ->
  exists a,
    a ∈ stage_match startDate endDate raw
    /\ hour_key a = (doc_workspaceId d, b_type b, b_deviceType b, doc_date d,
                     b_hour b)
    /\ b = bucket_of (hour_key a,
                      foldl hour_step (mkHourAcc 0 0 [])
                        (bucket_activities startDate endDate raw
                           (doc_workspaceId d) (doc_date d) b)).
Proof.
  intros Hd Hb. rewrite (pipeline_elem _ _ _ _ Hd) in Hb.
  apply list_elem_of_fmap in Hb as ([hk hacc] & -> & Hg).
  apply list_elem_of_filter in Hg as [Hday Hg].
  apply group_spec in Hg as [(a & Ha & Hka) ->].
  exists a. split; [exact Ha |]. subst hk.
  unfold day_key, doc_key in Hday. cbn in Hday. injection Hday as Hw Hdate.
  unfold bucket_activities. cbn. rewrite <- Hw, <- Hdate.
  split; reflexivity.
Qed.

(** X8. Every timeline bucket of a written day document has an hour in
    0..23 and stands for at least one raw activity with its workspace,
    day, hour, type and device type: its count is the number of those
    activities, its points their sum, and its user ids are exactly their
    users, each once, so between one and [count] of them. *)
Theorem timeline_bucket_facts (startDate endDate : Z) (raw : list Activity)
    (d : DayDoc) (b : Bucket) :
  d ∈ pipeline startDate endDate raw -> b ∈ doc_timeline d ->
  0 <= b_hour b <= 23
  /\ bucket_activities startDate endDate raw
       (doc_workspaceId d) (doc_date d) b <> []
  /\ b_count b
     = Z.of_nat (length (bucket_activities startDate endDate raw
                           (doc_workspaceId d) (doc_date d) b))
  /\ b_points b
     = sum_of a_points (bucket_activities startDate endDate raw
                          (doc_workspaceId d) (doc_date d) b)
  /\ NoDup (b_userIds b)
  /\ (forall u, u ∈ b_userIds b <->
        exists a, a ∈ bucket_activities startDate endDate raw
                        (doc_workspaceId d) (doc_date d) b
                  /\ a_userId a = u)
  /\ (1 <= length (b_userIds b) <= Z.to_nat (b_count b))%nat.
Proof.
  intros Hd Hb.
  destruct (timeline_bucket _ _ _ _ _ Hd Hb) as (a & Ha & Hk & Hbucket).
  set (acts := bucket_activities startDate endDate raw
                 (doc_workspaceId d) (doc_date d) b) in *.
  assert (Hin : a ∈ acts).
  { apply list_elem_of_filter. split; [exact Hk | exact Ha]. }
  destruct (hour_fold acts (mkHourAcc 0 0 [])) as (Hu & Hc & Hp).
  assert (Hcount : b_count b = Z.of_nat (length acts)).
  { rewrite Hbucket. rewrite (proj1 (bucket_of_fields _)). cbn [snd].
    rewrite Hc. cbn. lia. }
  assert (Hpoints : b_points b = sum_of a_points acts).
  { rewrite Hbucket. rewrite (proj2 (bucket_of_fields _)). cbn [snd].
    rewrite Hp. cbn. unfold sum_of. lia. }
  assert (Hnd : NoDup (b_userIds b)).
  { rewrite Hbucket, bucket_of_users. cbn [snd].
    apply hour_fold_NoDup. constructor. }
  assert (Hmem : forall u, u ∈ b_userIds b <-> u ∈ map a_userId acts).
  { intros u. rewrite Hbucket, bucket_of_users. cbn [snd].
    rewrite <- !(elem_of_list_to_set (C := gset string)), Hu. cbn.
    now rewrite union_empty_l_L. }
  split.
  { assert (Hh : b_hour b = hourOf (a_createdAt a)).
    { unfold hour_key in Hk. now injection Hk. }
    rewrite Hh. apply hourOf_range. }
  split; [intros Hnil; rewrite Hnil in Hin; inversion Hin |].
  split; [exact Hcount |]. split; [exact Hpoints |]. split; [exact Hnd |].
  split.
  { intros u. rewrite Hmem, list_elem_of_fmap. split.
    - intros (x & -> & Hx). now exists x.
    - intros (x & Hx & <-). now exists x. }
  rewrite Hcount, Nat2Z.id. split.
  - assert (Hua : a_userId a ∈ b_userIds b).
    { apply Hmem, list_elem_of_fmap. now exists a. }
    destruct (b_userIds b); [inversion Hua | cbn; lia].
  - rewrite <- (length_map a_userId acts). apply submseteq_length.
    apply NoDup_submseteq; [exact Hnd |]. intros u. apply Hmem.
Qed.

(** X10. The daily job compacts exactly the previous UTC day: it is
    [archiveActivities] from the midnight before the last one to the last
    midnight, the activities it reads are those of that day, every
    document it writes is dated that midnight, and the documents of all
    other dates keep their stored state. *)
Theorem yesterday_is_the_previous_day (now : Z) (raw : list Activity)
    (c : Collection) :
  archiveYesterdaysActivities now raw c
  = archiveActivities (startOfDay now - msPerDay) (startOfDay now) raw c
  /\ stage_match (startOfDay now - msPerDay) (startOfDay now) raw
     = filter (fun a => startOfDay (a_createdAt a) = startOfDay now - msPerDay) raw
  /\ (forall d, d ∈ pipeline (startOfDay now - msPerDay) (startOfDay now) raw ->
        doc_date d = startOfDay now - msPerDay)
  /\ (forall k, snd k <> startOfDay now - msPerDay ->
        stored (archiveYesterdaysActivities now raw c) !! k = stored c !! k).
Proof.
  assert (Hmid : (startOfDay now - msPerDay) mod msPerDay = 0).
  { pose proof (startOfDay_midnight now) as H. unfold msPerDay in *.
    rewrite <- Zminus_mod_idemp_l, H. reflexivity. }
  assert (Hmatch :
    stage_match (startOfDay now - msPerDay) (startOfDay now) raw
    = filter (fun a => startOfDay (a_createdAt a) = startOfDay now - msPerDay)
             raw).
  { unfold stage_match. apply list_filter_iff. intros a.
    rewrite (startOfDay_iff _ _ Hmid). lia. }
  assert (Hdate : forall d,
    d ∈ pipeline (startOfDay now - msPerDay) (startOfDay now) raw ->
    doc_date d = startOfDay now - msPerDay).
  { intros d Hd. destruct (pipeline_doc _ _ _ _ Hd) as [_ Hne].
    destruct (day_activities _ _ _ _ _) as [|a rest] eqn:Hacts;
      [contradiction |].
    assert (Ha : a ∈ day_activities (startOfDay now - msPerDay) (startOfDay now)
                       raw (doc_workspaceId d) (doc_date d))
      by (rewrite Hacts; left).
    apply list_elem_of_filter in Ha as [[_ Hday] Ha].
    rewrite Hmatch in Ha. apply list_elem_of_filter in Ha as [Hy _].
    congruence. }
  split; [| split; [exact Hmatch | split; [exact Hdate |]]].
  - unfold archiveYesterdaysActivities, daysBefore.
    replace (startOfDay now - 1 * msPerDay) with (startOfDay now - msPerDay)
      by lia.
    reflexivity.
  - intros k Hk. unfold archiveYesterdaysActivities, daysBefore.
    replace (startOfDay now - 1 * msPerDay) with (startOfDay now - msPerDay)
      by lia.
    unfold archiveActivities. apply merge_other.
    intros Hin. apply list_elem_of_fmap in Hin as (d & -> & Hd).
    apply Hk. cbn. now apply Hdate.
Qed.

Lemma pipeline_keys_are_days (startDate endDate : Z) (raw : list Activity)
    (k : string * Z) :
  k ∈ map doc_key (pipeline startDate endDate raw) <->
  exists a, a ∈ stage_match startDate endDate raw
            /\ k = (a_workspaceId a, startOfDay (a_createdAt a)).
Proof.
  unfold pipeline. rewrite map_map.
  rewrite (map_ext _ fst) by (now intros [[w day] acc]).
  split.
  - intros Hk. apply list_elem_of_fmap in Hk as ([k' acc] & -> & Hg).
    apply group_spec in Hg as [([hk hacc] & Hg & Hdk) _].
    apply group_spec in Hg as [(a & Ha & Hhk) _].
    exists a. split; [exact Ha |]. cbn. rewrite <- Hdk, <- Hhk. reflexivity.
  - intros (a & Ha & ->).
    apply list_elem_of_fmap.
    eexists ((a_workspaceId a, startOfDay (a_createdAt a)), _).
    split; [reflexivity |]. apply group_spec. split; [| reflexivity].
    eexists (hour_key a, _). split; [| reflexivity].
    apply group_spec. split; [| reflexivity]. now exists a.
Qed.

Lemma merge_dom (docs : list DayDoc) : forall (c : Collection),
  dom (stored (merge docs c))
  = dom (stored c) ∪ list_to_set (map doc_key docs).
Proof.
  unfold merge. induction docs as [|d docs IH]; intros c; cbn [foldl map].
  - rewrite list_to_set_nil. now rewrite union_empty_r_L.
  - rewrite IH. rewrite list_to_set_cons.
    assert (Hd : dom (stored (merge_one c d)) = dom (stored c) ∪ {[doc_key d]}).
    { unfold merge_one.
      destruct (stored c !! doc_key d) as [[id0 d0]|]; cbn;
        rewrite dom_insert_L; apply (comm_L (∪)). }
    rewrite Hd. now rewrite (assoc_L (∪)).
Qed.

(** X11. A compaction run touches the days with activity only: afterwards
    the collection holds the keys it held and one key per workspace and
    day of a raw activity in the range, documents dated before the day of
    [startDate] or at or after [endDate] are as they were, and a range
    with no activity leaves the collection as it was. *)
Theorem compaction_touches_active_days_only (startDate endDate : Z)
    (raw : list Activity) (c : Collection) :
  (forall k, k ∈ dom (stored (archiveActivities startDate endDate raw c)) <->
     k ∈ dom (stored c)
     \/ exists a, a ∈ raw /\ startDate <= a_createdAt a < endDate
                  /\ k = (a_workspaceId a, startOfDay (a_createdAt a)))
  /\ (forall k, snd k < startOfDay startDate \/ endDate <= snd k ->
        stored (archiveActivities startDate endDate raw c) !! k = stored c !! k)
  /\ (stage_match startDate endDate raw = [] ->
      archiveActivities startDate endDate raw c = c).
Proof.
  unfold archiveActivities. split; [| split].
  - intros k. rewrite merge_dom, elem_of_union, elem_of_list_to_set.
    rewrite pipeline_keys_are_days. split.
    + intros [Hk | (a & Ha & ->)]; [now left | right].
      apply list_elem_of_filter in Ha as [Hr Ha]. now exists a.
    + intros [Hk | (a & Ha & Hr & ->)]; [now left | right].
      exists a. split; [| reflexivity]. apply list_elem_of_filter. now split.
  - intros k Hk. apply merge_other.
    rewrite pipeline_keys_are_days. intros (a & Ha & ->). cbn in Hk.
    apply list_elem_of_filter in Ha as [[Hlo Hhi] _].
    pose proof (startOfDay_mono _ _ Hlo).
    pose proof (startOfDay_le (a_createdAt a)). lia.
  - intros Hnone. unfold pipeline. now rewrite Hnone.
Qed.

Lemma filter_map_commute {X Y} (P : Y -> Prop) `{!forall y, Decision (P y)}
    (f : X -> Y) (l : list X) :
  filter P (map f l) = map f (filter (fun x => P (f x)) l).
Proof.
  induction l as [|x l IH]; [reflexivity |].
  cbn [map]. rewrite !filter_cons, IH.
  destruct (decide (P (f x))); reflexivity.
Qed.

Lemma before_midnight (m t : Z) :
  m mod msPerDay = 0 -> startOfDay t < m <-> t < m.
Proof.
  intros Hm. pose proof (startOfDay_le t). pose proof (startOfDay_gt t).
  split; [| lia]. intros Hlt.
  pose proof (startOfDay_midnight t) as Ht. unfold msPerDay in *.
  apply Z.mod_divide in Hm as [q Hq]; [| lia].
  apply Z.mod_divide in Ht as [r Hr]; [| lia]. nia.
Qed.

(** The documents of a set of days are the pipeline run over the
    activities of those days. *)
Lemma pipeline_filter (Q : Z -> Prop) `{!forall day, Decision (Q day)}
    (acts : list Activity) :
  filter (fun d => Q (doc_date d))
         (map project (stage_days (stage_hours acts)))
  = map project
        (stage_days (stage_hours
           (filter (fun a => Q (startOfDay (a_createdAt a))) acts))).
Proof.
  rewrite filter_map_commute. f_equal. unfold stage_days, stage_hours.
  rewrite (list_filter_iff _ (fun kb => Q (snd (fst kb)))).
  2:{ now intros [[w day] acc]. }
  pose proof (group_filter day_key (mkDayAcc 0 0 [] []) day_step
                (fun k => Q (snd k))) as Hd.
  cbn beta in Hd. rewrite Hd. clear Hd. f_equal.
  rewrite (list_filter_iff _ (fun kb => Q (snd (day_of (fst kb))))).
  2:{ now intros [[[[[w t] dt] day] h] acc]. }
  pose proof (group_filter hour_key (mkHourAcc 0 0 []) hour_step
                (fun hk => Q (snd (day_of hk)))) as Hh.
  cbn beta in Hh. rewrite Hh. reflexivity.
Qed.

Lemma pipeline_before (startDate mid endDate : Z) (raw : list Activity) :
  mid mod msPerDay = 0 -> mid <= endDate ->
  filter (fun d => doc_date d < mid) (pipeline startDate endDate raw)
  = pipeline startDate mid raw.
Proof.
  intros Hm Hle. unfold pipeline.
  pose proof (pipeline_filter (fun day => day < mid)
                (stage_match startDate endDate raw)) as Hf.
  cbn beta in Hf. rewrite Hf. clear Hf. do 3 f_equal.
  unfold stage_match. rewrite list_filter_filter. apply list_filter_iff.
  intros a. rewrite (before_midnight _ _ Hm). lia.
Qed.

Lemma pipeline_after (startDate mid endDate : Z) (raw : list Activity) :
  mid mod msPerDay = 0 -> startDate <= mid ->
  filter (fun d => ~ doc_date d < mid) (pipeline startDate endDate raw)
  = pipeline mid endDate raw.
Proof.
  intros Hm Hle. unfold pipeline.
  pose proof (pipeline_filter (fun day => ~ day < mid)
                (stage_match startDate endDate raw)) as Hf.
  cbn beta in Hf. rewrite Hf. clear Hf. do 3 f_equal.
  unfold stage_match. rewrite list_filter_filter. apply list_filter_iff.
  intros a. rewrite (before_midnight _ _ Hm). lia.
Qed.

Lemma merge_lookup (docs : list DayDoc) (c : Collection) (k : string * Z) :
  NoDup (map doc_key docs) ->
  snd <$> stored (merge docs c) !! k
  = match head (filter (fun d => doc_key d = k) docs) with
    | Some d => Some d
    | None => snd <$> stored c !! k
    end.
Proof.
  intros Hnd. destruct (filter _ docs) as [|d rest] eqn:Hf; cbn [head].
  - rewrite merge_other; [reflexivity |].
    intros Hin. apply list_elem_of_fmap in Hin as (d & Hk & Hd).
    assert (Hin : d ∈ filter (fun d => doc_key d = k) docs)
      by (apply list_elem_of_filter; auto).
    rewrite Hf in Hin. inversion Hin.
  - assert (Hin : d ∈ filter (fun d => doc_key d = k) docs)
      by (rewrite Hf; left).
    apply list_elem_of_filter in Hin as [Hk Hd].
    destruct (merge_writes docs c Hnd d Hd) as (id & Hid & _).
    rewrite <- Hk, Hid. reflexivity.
Qed.

Lemma filter_none {X} (P : X -> Prop) `{!forall x, Decision (P x)} (l : list X) :
  (forall x, x ∈ l -> ~ P x) -> filter P l = [].
Proof.
  intros Hno. induction l as [|x l IH]; [reflexivity |].
  rewrite filter_cons_False by (apply Hno; left).
  apply IH. intros y Hy. apply Hno. now right.
Qed.

(** Under a key, two runs split at a midnight and the single run store
    what the stages give for that key. *)
Lemma split_lookup (startDate mid endDate : Z) (raw : list Activity)
    (c : Collection) (k : string * Z) :
  mid mod msPerDay = 0 -> startDate <= mid <= endDate ->
  snd <$> stored (archiveActivities mid endDate raw
                    (archiveActivities startDate mid raw c)) !! k
  = snd <$> stored (archiveActivities startDate endDate raw c) !! k.
Proof.
  intros Hm [Hlo Hhi].
  pose proof (pipeline_before startDate mid endDate raw Hm Hhi) as Hb.
  pose proof (pipeline_after startDate mid endDate raw Hm Hlo) as Ha.
  unfold archiveActivities.
  rewrite !merge_lookup by apply pipeline_keys.
  rewrite <- Ha, <- Hb. rewrite !list_filter_filter.
  set (docs := pipeline startDate endDate raw).
  destruct (decide (snd k < mid)) as [Hk | Hk].
  - rewrite (filter_none (fun d => doc_key d = k /\ ~ doc_date d < mid)).
    2:{ intros d _ [<- Hd]. now apply Hd. }
    cbn [head].
    rewrite (list_filter_iff (fun d => doc_key d = k /\ doc_date d < mid)
                             (fun d => doc_key d = k)); [reflexivity |].
    intros d. split; [tauto |]. intros <-. now split.
  - rewrite (filter_none (fun d => doc_key d = k /\ doc_date d < mid)).
    2:{ intros d _ [<- Hd]. now apply Hk. }
    cbn [head].
    rewrite (list_filter_iff (fun d => doc_key d = k /\ ~ doc_date d < mid)
                             (fun d => doc_key d = k)).
    2:{ intros d. split; [tauto |]. intros <-. now split. }
    now destruct (head _).
Qed.

Lemma same_bucket_refl (b : Bucket) : same_bucket b b.
Proof. unfold same_bucket. repeat split; reflexivity. Qed.

Lemma same_document_refl (d : DayDoc) : same_document d d.
Proof.
  repeat split. exists (doc_timeline d). split; [reflexivity |].
  apply Forall2_same_length_lookup. split; [reflexivity |].
  intros i x y Hx Hy. rewrite Hx in Hy. injection Hy as <-.
  apply same_bucket_refl.
Qed.

(** X12. A range can be compacted in two runs split at a UTC midnight:
    the days the single run writes are the days the first part writes,
    all before the midnight, together with the days the second part
    writes, none before it; and under every key the two runs, one after
    the other, store what the single run stores: a document there exactly
    when the single run has one, with the same workspace, date and stats
    and, up to the order of the arrays, the same timeline and the same
    user ids in each entry. *)
Theorem compaction_splits_at_midnight (startDate mid endDate : Z)
    (raw : list Activity) (c : Collection) :
  mid mod msPerDay = 0 -> startDate <= mid <= endDate ->
  (forall k, k ∈ map doc_key (pipeline startDate endDate raw) <->
     k ∈ map doc_key (pipeline startDate mid raw)
     \/ k ∈ map doc_key (pipeline mid endDate raw))
  /\ (forall k, k ∈ map doc_key (pipeline startDate mid raw) -> snd k < mid)
  /\ (forall k, k ∈ map doc_key (pipeline mid endDate raw) -> mid <= snd k)
  /\ (forall k,
        option_Forall2 same_document
          (snd <$> stored (archiveActivities mid endDate raw
                             (archiveActivities startDate mid raw c)) !! k)
          (snd <$> stored (archiveActivities startDate endDate raw c) !! k)).
Proof.
  intros Hm [Hlo Hhi]. split; [| split; [| split]].
  - intros k. rewrite !pipeline_keys_are_days. unfold stage_match. split.
    + intros (a & Ha & ->). apply list_elem_of_filter in Ha as [[Hs He] Ha].
      destruct (decide (a_createdAt a < mid)) as [Hlt | Hge].
      * left. exists a. split; [| reflexivity].
        apply list_elem_of_filter. split; [lia | exact Ha].
      * right. exists a. split; [| reflexivity].
        apply list_elem_of_filter. split; [lia | exact Ha].
    + intros [(a & Ha & ->) | (a & Ha & ->)];
        apply list_elem_of_filter in Ha as [[Hs He] Ha];
        exists a; (split; [| reflexivity]);
        apply list_elem_of_filter; (split; [lia | exact Ha]).
  - intros k Hk. apply pipeline_keys_are_days in Hk as (a & Ha & ->).
    apply list_elem_of_filter in Ha as [[_ He] _]. cbn [snd].
    now apply (before_midnight _ _ Hm).
  - intros k Hk. apply pipeline_keys_are_days in Hk as (a & Ha & ->).
    apply list_elem_of_filter in Ha as [[Hs _] _]. cbn [snd].
    pose proof (before_midnight mid (a_createdAt a) Hm). lia.
  - intros k.
    rewrite (split_lookup startDate mid endDate raw c k Hm (conj Hlo Hhi)).
    destruct (snd <$> _) as [d|]; constructor. apply same_document_refl.
Qed.
End ArchiveMore.

Section ArchiveMoreExamples.
Import Model Clock Archive Samples.

Lemma day_document_totals_witness :
  day_activities 0 86400000 raw0 (doc_workspaceId day0) (doc_date day0) <> []
  /\ totalActivities (doc_stats day0)
     = Z.of_nat (length (day_activities 0 86400000 raw0
                           (doc_workspaceId day0) (doc_date day0)))
  /\ totalPoints (doc_stats day0)
     = sum_of a_points (day_activities 0 86400000 raw0
                          (doc_workspaceId day0) (doc_date day0))
  /\ totalActivities (doc_stats day0) = sum_of b_count (doc_timeline day0)
  /\ totalPoints (doc_stats day0) = sum_of b_points (doc_timeline day0)
  /\ doc_date day0 mod msPerDay = 0
  /\ startOfDay 0 <= doc_date day0 < 86400000.
Proof.
  apply (day_document_totals 0 86400000 raw0 day0).
  change (day0 ∈ [day0]). left.
Defined.

Lemma timeline_bucket_facts_witness :
  0 <= b_hour hour15 <= 23
  /\ bucket_activities 0 86400000 raw0
       (doc_workspaceId day0) (doc_date day0) hour15 <> []
  /\ b_count hour15
     = Z.of_nat (length (bucket_activities 0 86400000 raw0
                           (doc_workspaceId day0) (doc_date day0) hour15))
  /\ b_points hour15
     = sum_of a_points (bucket_activities 0 86400000 raw0
                          (doc_workspaceId day0) (doc_date day0) hour15)
  /\ NoDup (b_userIds hour15)
  /\ (forall u, u ∈ b_userIds hour15 <->
        exists a, a ∈ bucket_activities 0 86400000 raw0
                        (doc_workspaceId day0) (doc_date day0) hour15
                  /\ a_userId a = u)
  /\ (1 <= length (b_userIds hour15) <= Z.to_nat (b_count hour15))%nat.
Proof.
  apply (timeline_bucket_facts 0 86400000 raw0 day0 hour15).
  - change (day0 ∈ [day0]). left.
  - right. left.
Defined.

Lemma compaction_splits_at_midnight_witness :
  (forall k, k ∈ map doc_key (pipeline 0 172800000 raw0) <->
     k ∈ map doc_key (pipeline 0 86400000 raw0)
     \/ k ∈ map doc_key (pipeline 86400000 172800000 raw0))
  /\ (forall k, k ∈ map doc_key (pipeline 0 86400000 raw0) -> snd k < 86400000)
  /\ (forall k, k ∈ map doc_key (pipeline 86400000 172800000 raw0) ->
        86400000 <= snd k)
  /\ (forall k,
        option_Forall2 same_document
          (snd <$> stored (archiveActivities 86400000 172800000 raw0
                             (archiveActivities 0 86400000 raw0 archive0)) !! k)
          (snd <$> stored (archiveActivities 0 172800000 raw0 archive0) !! k)).
Proof.
  apply (compaction_splits_at_midnight 0 86400000 172800000 raw0 archive0).
  - reflexivity.
  - lia.
Defined.

(** The two days of the sample log, compacted day by day. *)
Example two_days_in_two_runs :
  pipeline 0 86400000 raw0 = [day0]
  /\ map doc_key (pipeline 86400000 172800000 raw0) = [(ws_green, 86400000)]
  /\ map doc_key (pipeline 0 172800000 raw0)
     = [(ws_green, 0); (ws_green, 86400000)].
Proof. repeat split. Qed.

End ArchiveMoreExamples.

(** ** More on the archive queries *)

Section GroupMonoid.
Import Archive.
Context {A K B : Type} `{EqDecision K}.
Variable key : A -> K.
Variable empty : B.
Variable step : B -> A -> B.

Lemma add_to_group_pushed {C} (val : B -> list C) (f : A -> C) (a : A)
    (groups : list (K * B)) :
  val empty = [] ->
  (forall b a, val (step b a) = (val b ++ [f a])%list) ->
  concat (map (fun kb => val (snd kb)) (add_to_group key empty step a groups))
  ≡ₚ (concat (map (fun kb => val (snd kb)) groups) ++ [f a])%list.
Proof.
  intros H0 Hstep.
  induction groups as [|[k b] rest IH]; cbn [add_to_group map concat snd].
  - rewrite Hstep, H0. reflexivity.
  - destruct (decide (k = key a)); cbn [map concat snd].
    + rewrite Hstep. rewrite <- !(assoc_L (++)).
      apply Permutation_app_head. apply Permutation_app_comm.
    + rewrite IH. now rewrite (assoc_L (++)).
Qed.

(** What the steps push, group by group, is what the documents give, up to
    the order. *)
Lemma group_pushed {C} (val : B -> list C) (f : A -> C) (docs : list A) :
  val empty = [] ->
  (forall b a, val (step b a) = (val b ++ [f a])%list) ->
  concat (map (fun kb => val (snd kb)) (group key empty step docs))
  ≡ₚ map f docs.
Proof.
  intros H0 Hstep.
  induction docs as [|a docs IH] using rev_ind; [reflexivity |].
  rewrite group_snoc, (add_to_group_pushed val f) by assumption.
  rewrite IH, map_app. reflexivity.
Qed.

Lemma group_nil_inv (docs : list A) :
  group key empty step docs = [] -> docs = [].
Proof.
  destruct docs as [|a docs] using rev_ind; [reflexivity |].
  rewrite group_snoc. intros Hnil. exfalso.
  destruct (group key empty step docs) as [|[k b] rest]; cbn in Hnil;
    [discriminate |].
  destruct (decide (k = key a)); discriminate.
Qed.

End GroupMonoid.

Section ArchiveQueryMore.
Import Model Clock Archive ArchiveQuery.

Lemma foldl_sum {X} (f : X -> Z) (l : list X) : forall n,
  foldl (fun n d => n + f d) n l = n + sum_of f l.
Proof.
  unfold sum_of. induction l as [|x l IH]; intros n; cbn; [lia |].
  rewrite IH. lia.
Qed.

Lemma sum_of_Permutation {X} (f : X -> Z) (l1 l2 : list X) :
  l1 ≡ₚ l2 -> sum_of f l1 = sum_of f l2.
Proof.
  unfold sum_of. induction 1; cbn; lia.
Qed.

Lemma merge_one_keyed (c : Collection) (d : DayDoc) :
  keyed c -> keyed (merge_one c d).
Proof.
  intros Hc k id d' Hk. destruct (decide (k = doc_key d)) as [-> | Hne].
  - destruct (merge_one_writes c d) as (id0 & Hw & _).
    rewrite Hw in Hk. now injection Hk as _ <-.
  - rewrite merge_one_other in Hk by exact Hne. now apply (Hc k id).
Qed.

Lemma merge_keyed (docs : list DayDoc) : forall c,
  keyed c -> keyed (merge docs c).
Proof.
  unfold merge. induction docs as [|d docs IH]; intros c Hc; cbn; [exact Hc |].
  apply IH. now apply merge_one_keyed.
Qed.

Lemma keyed_empty (n : nat) : keyed (mkCollection ∅ n).
Proof. intros k id d Hk. cbn in Hk. now rewrite lookup_empty in Hk. Qed.

Lemma findArchives_elem (c : Collection) (w : string) (s : Z) (d : DayDoc) :
  keyed c ->
  d ∈ findArchives c w s <->
  (exists id, stored c !! doc_key d = Some (id, d))
  /\ doc_workspaceId d = w /\ s <= doc_date d.
Proof.
  intros Hc. unfold findArchives. rewrite list_elem_of_fmap. split.
  - intros ([k [id d']] & -> & Hin). cbn [snd].
    apply list_elem_of_filter in Hin as [[Hw Hs] Hin]. cbn [fst] in Hw, Hs.
    apply elem_of_map_to_list in Hin.
    pose proof (Hc _ _ _ Hin) as Hk. subst k.
    split; [now exists id |]. split; [exact Hw | exact Hs].
  - intros ((id & Hid) & Hw & Hs). exists (doc_key d, (id, d)).
    split; [reflexivity |]. apply list_elem_of_filter. split.
    + split; [exact Hw | exact Hs].
    + now apply elem_of_map_to_list.
Qed.

Lemma findArchives_dates (c : Collection) (w : string) (s : Z) :
  keyed c -> NoDup (map doc_date (findArchives c w s)).
Proof.
  intros Hc. unfold findArchives. rewrite map_map.
  apply NoDup_fmap_2_strong.
  - intros [k1 [id1 d1]] [k2 [id2 d2]] H1 H2 Heq. cbn [snd] in Heq.
    apply list_elem_of_filter in H1 as [[Hw1 _] H1].
    apply list_elem_of_filter in H2 as [[Hw2 _] H2].
    cbn [fst] in Hw1, Hw2.
    apply elem_of_map_to_list in H1, H2.
    pose proof (Hc _ _ _ H1) as Hk1. pose proof (Hc _ _ _ H2) as Hk2.
    assert (Hk : k1 = k2).
    { rewrite <- Hk1, <- Hk2. unfold doc_key.
      rewrite <- Hk1 in Hw1. rewrite <- Hk2 in Hw2. cbn in Hw1, Hw2.
      congruence. }
    rewrite <- Hk in H2. rewrite H1 in H2. injection H2 as -> ->.
    now rewrite Hk.
  - apply NoDup_filter, NoDup_map_to_list.
Qed.

#[local] Instance newest_first_total : Total newest_first.
Proof. intros a b. unfold newest_first. lia. Qed.

#[local] Instance newest_first_trans : Transitive newest_first.
Proof. intros a b c. unfold newest_first. lia. Qed.

Lemma strictly_sorted (l : list DayDoc) :
  Sorted newest_first l -> NoDup (map doc_date l) ->
  StronglySorted (fun a b => doc_date b < doc_date a) l.
Proof.
  intros Hs Hnd. apply Sorted_StronglySorted in Hs; [| apply _].
  induction Hs as [|d l Hs IH Hall]; [constructor |].
  cbn in Hnd. apply NoDup_cons in Hnd as [Hd Hnd].
  constructor; [now apply IH |].
  rewrite Forall_forall in Hall |- *. intros x Hx.
  pose proof (Hall x Hx) as Hle. unfold newest_first in Hle.
  assert (doc_date x <> doc_date d); [| lia].
  intros Heq. apply Hd. rewrite <- Heq. apply list_elem_of_fmap. now exists x.
Qed.

Lemma StronglySorted_map {X Y} (R : relation Y) (f : X -> Y) (l : list X) :
  StronglySorted (fun a b => R (f a) (f b)) l -> StronglySorted R (map f l).
Proof.
  induction 1 as [|x l Hs IH Hall]; cbn; constructor; [exact IH |].
  apply Forall_forall. intros y Hy.
  apply list_elem_of_fmap in Hy as (x' & -> & Hx').
  revert x' Hx'. now apply Forall_forall.
Qed.

Lemma lookbackStart_midnight (now days : Z) :
  lookbackStart now days mod msPerDay = 0.
Proof. apply startOfDay_midnight. Qed.

(** X13. The archive report of a workspace: with every document stored
    under its own key, [dailyBreakdown] has exactly one entry per stored
    document of the workspace dated at or after the look-back start, each
    repeating its document's date and stats; the entries are in strictly
    decreasing order of date; [totalPoints] and [totalActivities] are the
    sums over the entries; and the look-back start is a UTC midnight at
    least [days] days before now. *)
Theorem archived_stats_report (now : Z) (c : Collection) (w : string)
    (days : Z) :
  keyed c ->
  (forall e, e ∈ dailyBreakdown (getArchivedStats now c w days) <->
     exists id d,
       stored c !! (w, day_date e) = Some (id, d)
       /\ lookbackStart now days <= day_date e
       /\ e = mkDaily (doc_date d) (totalPoints (doc_stats d))
                (totalActivities (doc_stats d))
                (activeUsersCount (doc_stats d)))
  /\ StronglySorted (fun a b => day_date b < day_date a)
       (dailyBreakdown (getArchivedStats now c w days))
  /\ sumPoints (getArchivedStats now c w days)
     = sum_of day_points (dailyBreakdown (getArchivedStats now c w days))
  /\ sumActivities (getArchivedStats now c w days)
     = sum_of ArchiveQuery.day_activities
         (dailyBreakdown (getArchivedStats now c w days))
  /\ lookbackStart now days mod msPerDay = 0
  /\ lookbackStart now days <= now - days * msPerDay.
Proof.
  intros Hc. unfold getArchivedStats. cbn [dailyBreakdown sumPoints sumActivities].
  set (start := lookbackStart now days).
  set (archives := merge_sort newest_first (findArchives c w start)).
  assert (Hperm : archives ≡ₚ findArchives c w start)
    by apply merge_sort_Permutation.
  split; [| split; [| split; [| split; [| split]]]].
  - intros e. rewrite list_elem_of_fmap. split.
    + intros (d & -> & Hd). rewrite Hperm in Hd.
      apply (findArchives_elem c w start d Hc) in Hd as ((id & Hid) & Hw & Hs).
      exists id, d. cbn [day_date]. unfold doc_key in Hid. rewrite Hw in Hid.
      split; [exact Hid |]. split; [exact Hs | reflexivity].
    + intros (id & d & Hid & Hs & ->). cbn [day_date] in *.
      exists d. split; [reflexivity |]. rewrite Hperm.
      pose proof (Hc _ _ _ Hid) as Hk. unfold doc_key in Hk.
      injection Hk as Hw.
      apply (findArchives_elem c w start d Hc).
      split; [| split; [exact Hw | exact Hs]].
      exists id. unfold doc_key. now rewrite Hw.
  - apply (StronglySorted_map (fun a b => day_date b < day_date a)).
    cbn [day_date]. apply strictly_sorted.
    + apply Sorted_merge_sort. apply _.
    + rewrite Hperm. now apply findArchives_dates.
  - rewrite foldl_sum, sum_of_map. cbn [day_points]. lia.
  - rewrite foldl_sum, sum_of_map. cbn [ArchiveQuery.day_activities]. lia.
  - apply lookbackStart_midnight.
  - unfold start, lookbackStart, daysBefore. apply startOfDay_le.
Qed.
End ArchiveQueryMore.

Section ArchiveRead.
Import Model Clock Archive ArchiveQuery.

Lemma from_midnight (m t : Z) :
  m mod msPerDay = 0 -> m <= startOfDay t <-> m <= t.
Proof.
  intros Hm. pose proof (startOfDay_le t). pose proof (startOfDay_gt t).
  split; [lia |]. intros Hle.
  pose proof (startOfDay_midnight t) as Ht. unfold msPerDay in *.
  apply Z.mod_divide in Hm as [q Hq]; [| lia].
  apply Z.mod_divide in Ht as [r Hr]; [| lia]. nia.
Qed.

(** The documents of a set of workspaces and days are the stages run over
    the activities of those workspaces and days. *)
Lemma stages_filter (Q : string * Z -> Prop) `{!forall k, Decision (Q k)}
    (acts : list Activity) :
  filter (fun d => Q (doc_key d))
         (map project (stage_days (stage_hours acts)))
  = map project
        (stage_days (stage_hours
           (filter (fun a => Q (a_workspaceId a, startOfDay (a_createdAt a)))
                   acts))).
Proof.
  rewrite filter_map_commute. f_equal. unfold stage_days, stage_hours.
  rewrite (list_filter_iff _ (fun kb => Q (fst kb))).
  2:{ now intros [[w day] acc]. }
  pose proof (group_filter day_key (mkDayAcc 0 0 [] []) day_step Q) as Hd.
  cbn beta in Hd. rewrite Hd. clear Hd. f_equal.
  rewrite (list_filter_iff _ (fun kb => Q (day_of (fst kb)))).
  2:{ now intros [[[[[w t] dt] day] h] acc]. }
  pose proof (group_filter hour_key (mkHourAcc 0 0 []) hour_step
                (fun hk => Q (day_of hk))) as Hh.
  cbn beta in Hh. rewrite Hh. reflexivity.
Qed.

Lemma stages_conserve (acts : list Activity) :
  sum_of (fun d => totalActivities (doc_stats d))
         (map project (stage_days (stage_hours acts)))
  = Z.of_nat (length acts)
  /\ sum_of (fun d => totalPoints (doc_stats d))
            (map project (stage_days (stage_hours acts)))
     = sum_of a_points acts.
Proof.
  unfold stage_days.
  destruct (stage_hours_sums acts) as [Hc Hp].
  rewrite !sum_of_map. split.
  - rewrite <- Hc.
    rewrite <- (group_sum day_key (mkDayAcc 0 0 [] []) day_step
                  dailyTotalActivities (fun g => h_count (snd g))
                  (stage_hours acts)) by reflexivity.
    apply sum_of_ext. now intros [[w day] acc].
  - rewrite <- Hp.
    rewrite <- (group_sum day_key (mkDayAcc 0 0 [] []) day_step
                  dailyTotalPoints (fun g => h_points (snd g))
                  (stage_hours acts)) by reflexivity.
    apply sum_of_ext. now intros [[w day] acc].
Qed.

(** All timelines of the stages' documents together hold one bucket per
    hour group. *)
Lemma stages_timelines (acts : list Activity) :
  concat (map doc_timeline (map project (stage_days (stage_hours acts))))
  ≡ₚ map bucket_of (stage_hours acts).
Proof.
  unfold stage_days. rewrite map_map.
  rewrite (map_ext (fun x => doc_timeline (project x))
                   (fun kb => timeline (snd kb)))
    by (now intros [[w day] acc]).
  apply (group_pushed day_key _ day_step timeline bucket_of); [reflexivity |].
  intros b [[[[[w t] dt] day] h] acc]. reflexivity.
Qed.

Lemma hour_group_users (acts : list Activity) (g : HourKey * HourAcc) :
  g ∈ stage_hours acts ->
  forall u, u ∈ h_userIds (snd g) ->
  exists a, a ∈ acts /\ a_userId a = u.
Proof.
  intros Hg u Hu. destruct g as [hk hacc].
  apply group_spec in Hg as [_ ->]. cbn [snd] in Hu.
  destruct (hour_fold (selected hour_key hk acts) (mkHourAcc 0 0 []))
    as (Hus & _ & _).
  apply (elem_of_list_to_set (C := gset string)) in Hu.
  rewrite Hus in Hu. cbn in Hu. rewrite union_empty_l_L in Hu.
  apply elem_of_list_to_set, list_elem_of_fmap in Hu as (a & -> & Ha).
  exists a. split; [| reflexivity].
  now apply list_elem_of_filter in Ha as [_ Ha].
Qed.

Lemma hour_group_of (acts : list Activity) (a : Activity) :
  a ∈ acts ->
  exists g, g ∈ stage_hours acts /\ a_userId a ∈ h_userIds (snd g).
Proof.
  intros Ha.
  exists (hour_key a,
          foldl hour_step (mkHourAcc 0 0 []) (selected hour_key (hour_key a) acts)).
  split.
  - apply group_spec. split; [now exists a | reflexivity].
  - cbn [snd].
    destruct (hour_fold (selected hour_key (hour_key a) acts) (mkHourAcc 0 0 []))
      as (Hus & _ & _).
    apply (elem_of_list_to_set (C := gset string)). rewrite Hus.
    apply elem_of_union_r, elem_of_list_to_set, list_elem_of_fmap.
    exists a. split; [reflexivity |]. now apply list_elem_of_filter.
Qed.

(** The users of the stages' documents are the users of the activities. *)
Lemma stages_users (acts : list Activity) :
  ⋃ (map users_of (map project (stage_days (stage_hours acts))))
  = (list_to_set (map a_userId acts) : gset string).
Proof.
  assert (Hflat : forall docs : list DayDoc,
    ⋃ (map users_of docs)
    = (list_to_set (concat (map b_userIds (concat (map doc_timeline docs))))
        : gset string)).
  { intros docs. induction docs as [|d docs IH]; [reflexivity |].
    cbn [map concat]. rewrite union_list_cons, IH, map_app, concat_app.
    rewrite list_to_set_app_L. f_equal.
    unfold users_of. now rewrite list_to_set_concat, map_map. }
  rewrite Hflat. apply set_eq. intros u.
  rewrite !elem_of_list_to_set.
  assert (Hperm := stages_timelines acts).
  split.
  - intros Hu. apply list_elem_of_In, in_concat in Hu as (us & Hus & Hu).
    apply list_elem_of_In in Hu.
    apply list_elem_of_In, list_elem_of_fmap in Hus as (b & -> & Hb).
    rewrite Hperm in Hb. apply list_elem_of_fmap in Hb as (g & -> & Hg).
    rewrite bucket_of_users in Hu.
    destruct (hour_group_users acts g Hg u Hu) as (a & Ha & <-).
    apply list_elem_of_fmap. now exists a.
  - intros Hu. apply list_elem_of_fmap in Hu as (a & -> & Ha).
    destruct (hour_group_of acts a Ha) as (g & Hg & Hin).
    apply list_elem_of_In, in_concat. exists (b_userIds (bucket_of g)).
    split.
    + apply list_elem_of_In, list_elem_of_fmap. exists (bucket_of g).
      split; [reflexivity |]. rewrite Hperm.
      apply list_elem_of_fmap. now exists g.
    + apply list_elem_of_In. now rewrite bucket_of_users.
Qed.

Lemma stored_after_merge (docs : list DayDoc) (n : nat) (d : DayDoc) :
  NoDup (map doc_key docs) ->
  (exists id, stored (merge docs (mkCollection ∅ n)) !! doc_key d = Some (id, d))
  <-> d ∈ docs.
Proof.
  intros Hnd. split.
  - intros (id & Hid).
    destruct (decide (doc_key d ∈ map doc_key docs)) as [Hin | Hout].
    + apply list_elem_of_fmap in Hin as (d' & Hk & Hd').
      destruct (merge_writes docs (mkCollection ∅ n) Hnd d' Hd') as (id' & Hw & _).
      rewrite <- Hk, Hid in Hw. now injection Hw as _ ->.
    + rewrite merge_other in Hid by exact Hout. cbn in Hid.
      now rewrite lookup_empty in Hid.
  - intros Hd.
    destruct (merge_writes docs (mkCollection ∅ n) Hnd d Hd) as (id & Hw & _).
    now exists id.
Qed.

(** What the reader finds after a compaction into an empty collection. *)
Lemma findArchives_after (startDate endDate : Z) (raw : list Activity)
    (n : nat) (w : string) (s : Z) :
  findArchives (archiveActivities startDate endDate raw (mkCollection ∅ n)) w s
  ≡ₚ filter (fun d => doc_workspaceId d = w /\ s <= doc_date d)
            (pipeline startDate endDate raw).
Proof.
  unfold archiveActivities.
  assert (Hc : keyed (merge (pipeline startDate endDate raw) (mkCollection ∅ n)))
    by apply merge_keyed, keyed_empty.
  apply NoDup_Permutation.
  - eapply NoDup_fmap_1. now apply findArchives_dates.
  - apply NoDup_filter. eapply NoDup_fmap_1. apply pipeline_keys.
  - intros d. rewrite (findArchives_elem _ w s d Hc).
    rewrite stored_after_merge by apply pipeline_keys.
    rewrite list_elem_of_filter. tauto.
Qed.

Lemma window_documents (now days startDate endDate : Z) (raw : list Activity)
    (w : string) :
  filter (fun d => doc_workspaceId d = w /\ lookbackStart now days <= doc_date d)
         (pipeline startDate endDate raw)
  = map project
      (stage_days (stage_hours
         (window_activities now days startDate endDate raw w))).
Proof.
  unfold pipeline, window_activities.
  transitivity
    (map project
       (stage_days (stage_hours
          (filter (fun a => a_workspaceId a = w
                            /\ lookbackStart now days
                               <= startOfDay (a_createdAt a))
                  (stage_match startDate endDate raw))))).
  - exact (stages_filter
             (fun k => fst k = w /\ lookbackStart now days <= snd k)
             (stage_match startDate endDate raw)).
  - do 3 f_equal. apply list_filter_iff. intros a.
    now rewrite (from_midnight _ _ (lookbackStart_midnight now days)).
Qed.

(** X14. Compaction followed by the report counts the log: after a
    compaction of [startDate, endDate) into an empty collection, the report
    of a workspace gives as [totalActivities] the number of the raw
    activities of that workspace in the range and created at or after the
    look-back start, as [totalPoints] the sum of their points, and as
    [uniqueUsers] the number of distinct users among them. *)
Theorem archived_stats_count_the_log (now days startDate endDate : Z)
    (raw : list Activity) (n : nat) (w : string) :
  sumActivities
    (getArchivedStats now
       (archiveActivities startDate endDate raw (mkCollection ∅ n)) w days)
  = Z.of_nat (length (window_activities now days startDate endDate raw w))
  /\ sumPoints
       (getArchivedStats now
          (archiveActivities startDate endDate raw (mkCollection ∅ n)) w days)
     = sum_of a_points (window_activities now days startDate endDate raw w)
  /\ uniqueUsers
       (getArchivedStats now
          (archiveActivities startDate endDate raw (mkCollection ∅ n)) w days)
     = Z.of_nat
         (size (list_to_set
                  (map a_userId
                     (window_activities now days startDate endDate raw w))
                : gset string)).
Proof.
  unfold getArchivedStats. cbn [sumActivities sumPoints uniqueUsers].
  set (c := archiveActivities startDate endDate raw (mkCollection ∅ n)).
  set (acts := window_activities now days startDate endDate raw w).
  assert (Hperm :
    merge_sort newest_first (findArchives c w (lookbackStart now days))
    ≡ₚ map project (stage_days (stage_hours acts))).
  { rewrite merge_sort_Permutation. unfold c. rewrite findArchives_after.
    now rewrite window_documents. }
  destruct (stages_conserve acts) as [Hc Hp].
  rewrite !foldl_sum.
  rewrite (sum_of_Permutation _ _ _ Hperm), Hc.
  rewrite (sum_of_Permutation _ _ _ Hperm), Hp.
  split; [lia |]. split; [lia |]. f_equal. f_equal.
  rewrite <- stages_users. fold acts.
  apply set_eq. intros u. rewrite !elem_of_union_list.
  split; intros (X & HX & Hu); exists X; (split; [| exact Hu]).
  - apply list_elem_of_fmap in HX as (d & -> & Hd).
    apply list_elem_of_fmap. exists d. split; [reflexivity |].
    now rewrite <- Hperm.
  - apply list_elem_of_fmap in HX as (d & -> & Hd).
    apply list_elem_of_fmap. exists d. split; [reflexivity |].
    now rewrite Hperm.
Qed.
End ArchiveRead.

Section TypeBreakdown.
Import Model Clock Archive ArchiveQuery.

Lemma add_type_lookup (stats : gmap string (Z * Z)) (b : Bucket) (t : string) :
  add_type stats b !! t
  = if decide (b_type b = t)
    then Some (fst (default (0, 0) (stats !! t)) + b_count b,
               snd (default (0, 0) (stats !! t)) + b_points b)
    else stats !! t.
Proof.
  unfold add_type. destruct (decide (b_type b = t)) as [<- | Hne].
  - destruct (default (0, 0) (stats !! b_type b)) as [count points].
    now rewrite lookup_insert_eq.
  - destruct (default (0, 0) (stats !! b_type b)) as [count points].
    now rewrite lookup_insert_ne.
Qed.

(** The entry of a type sums the counts and the points of the timeline
    entries of that type; a type without any has no entry. *)
Lemma add_type_fold (bs : list Bucket) (t : string) :
  foldl add_type ∅ bs !! t
  = match filter (fun b => b_type b = t) bs with
    | [] => None
    | b :: rest => Some (sum_of b_count (b :: rest), sum_of b_points (b :: rest))
    end.
Proof.
  induction bs as [|b bs IH] using rev_ind; [reflexivity |].
  rewrite foldl_snoc, add_type_lookup, filter_app, filter_cons, filter_nil.
  destruct (decide (b_type b = t)) as [Ht | Ht].
  - rewrite IH. destruct (filter _ bs) as [|b0 rest]; cbn [app default fst snd].
    + unfold sum_of. cbn. do 2 f_equal; lia.
    + change (b0 :: (rest ++ [b])%list) with ((b0 :: rest) ++ [b])%list.
      rewrite !sum_of_app. unfold id, sum_of. cbn [fst snd foldr].
      do 2 f_equal; lia.
  - now rewrite app_nil_r.
Qed.

(** Folding the timelines document by document is folding all their
    entries. *)
Lemma fold_timelines (docs : list DayDoc) : forall m : gmap string (Z * Z),
  foldl (fun stats d => foldl add_type stats (doc_timeline d)) m docs
  = foldl add_type m (concat (map doc_timeline docs)).
Proof.
  induction docs as [|d docs IH]; intros m; cbn [foldl map concat];
    [reflexivity |].
  now rewrite IH, foldl_app.
Qed.

(** X15. The type breakdown holds, for every type, the sum of the counts
    and the sum of the points of the timeline entries of that type in the
    documents read, and no entry for a type without timeline entry. *)
Theorem type_breakdown_sums (now : Z) (c : Collection) (w : string) (days : Z)
    (t : string) :
  getActivityTypeBreakdown now c w days !! t
  = match buckets_of_type t (findArchives c w (lookbackStart now days)) with
    | [] => None
    | b :: rest => Some (sum_of b_count (b :: rest), sum_of b_points (b :: rest))
    end.
Proof.
  unfold getActivityTypeBreakdown, buckets_of_type.
  rewrite <- add_type_fold. f_equal. apply fold_timelines.
Qed.

Lemma concat_map_Permutation {X Y} (f : X -> list Y) (l1 l2 : list X) :
  l1 ≡ₚ l2 -> concat (map f l1) ≡ₚ concat (map f l2).
Proof.
  induction 1 as [|x l1 l2 _ IH|x y l|l1 l2 l3 _ IH1 _ IH2]; cbn [map concat].
  - reflexivity.
  - now rewrite IH.
  - rewrite !(assoc_L (++)). apply Permutation_app_tail, Permutation_app_comm.
  - now rewrite IH1.
Qed.

Lemma stages_buckets_of_type (acts : list Activity) (t : string) :
  buckets_of_type t (map project (stage_days (stage_hours acts)))
  ≡ₚ map bucket_of (stage_hours (filter (fun a => a_type a = t) acts)).
Proof.
  unfold buckets_of_type. rewrite stages_timelines, filter_map_commute.
  unfold stage_hours.
  rewrite (list_filter_iff _
             (fun kb : HourKey * HourAcc => snd (fst (fst (fst (fst kb)))) = t))
    by (now intros [[[[[w' t'] dt] day] h] acc]).
  pose proof (group_filter hour_key (mkHourAcc 0 0 []) hour_step
                (fun hk : HourKey => snd (fst (fst (fst hk))) = t) acts) as Hg.
  cbn beta in Hg. rewrite Hg. reflexivity.
Qed.

(** X16. Compaction followed by the type breakdown counts the log by
    type: after a compaction into an empty collection, the entry of a type
    is the number and the points of the raw activities of that type, of the
    workspace, in the range and reached by the look-back; a type without
    such activity has no entry. *)
Theorem type_breakdown_counts_the_log (now days startDate endDate : Z)
    (raw : list Activity) (n : nat) (w t : string) :
  getActivityTypeBreakdown now
    (archiveActivities startDate endDate raw (mkCollection ∅ n)) w days !! t
  = match filter (fun a => a_type a = t)
                 (window_activities now days startDate endDate raw w) with
    | [] => None
    | a :: rest => Some (Z.of_nat (length (a :: rest)),
                         sum_of a_points (a :: rest))
    end.
Proof.
  unfold getActivityTypeBreakdown.
  rewrite fold_timelines, add_type_fold.
  fold (buckets_of_type t
          (findArchives (archiveActivities startDate endDate raw (mkCollection ∅ n))
                        w (lookbackStart now days))).
  set (acts := window_activities now days startDate endDate raw w).
  assert (Hperm :
    buckets_of_type t
      (findArchives (archiveActivities startDate endDate raw (mkCollection ∅ n))
                    w (lookbackStart now days))
    ≡ₚ map bucket_of (stage_hours (filter (fun a => a_type a = t) acts))).
  { rewrite <- stages_buckets_of_type. unfold buckets_of_type.
    apply filter_Permutation, concat_map_Permutation.
    rewrite findArchives_after. now rewrite window_documents. }
  destruct (stage_hours_sums (filter (fun a => a_type a = t) acts)) as [Hc Hp].
  destruct (filter (fun a => a_type a = t) acts) as [|a rest] eqn:Hacts.
  - apply Permutation_nil_r in Hperm. now rewrite Hperm.
  - destruct (buckets_of_type t _) as [|b bs] eqn:Hbs.
    + symmetry in Hperm. apply Permutation_nil_r in Hperm.
      apply fmap_nil_inv in Hperm.
      apply (group_nil_inv hour_key (mkHourAcc 0 0 []) hour_step) in Hperm.
      discriminate.
    + rewrite (sum_of_Permutation _ _ _ Hperm).
      rewrite (sum_of_Permutation b_points _ _ Hperm).
      rewrite !sum_of_map.
      rewrite (sum_of_ext (fun x => b_count (bucket_of x))
                          (fun g => h_count (snd g)))
        by (intros g; apply bucket_of_fields).
      rewrite (sum_of_ext (fun x => b_points (bucket_of x))
                          (fun g => h_points (snd g)))
        by (intros g; apply bucket_of_fields).
      now rewrite Hc, Hp.
Qed.
End TypeBreakdown.

Section ArchiveQueryExamples.
Import Model Clock Archive ArchiveQuery Samples.

Lemma archived_stats_report_witness :
  (forall e,
     e ∈ dailyBreakdown
           (getArchivedStats 259200000
              (archiveActivities 0 172800000 raw0 archive0) ws_green 7) <->
     exists id d,
       stored (archiveActivities 0 172800000 raw0 archive0)
         !! (ws_green, day_date e) = Some (id, d)
       /\ lookbackStart 259200000 7 <= day_date e
       /\ e = mkDaily (doc_date d) (totalPoints (doc_stats d))
                (totalActivities (doc_stats d))
                (activeUsersCount (doc_stats d)))
  /\ StronglySorted (fun a b => day_date b < day_date a)
       (dailyBreakdown
          (getArchivedStats 259200000
             (archiveActivities 0 172800000 raw0 archive0) ws_green 7))
  /\ sumPoints
       (getArchivedStats 259200000
          (archiveActivities 0 172800000 raw0 archive0) ws_green 7)
     = sum_of day_points
         (dailyBreakdown
            (getArchivedStats 259200000
               (archiveActivities 0 172800000 raw0 archive0) ws_green 7))
  /\ sumActivities
       (getArchivedStats 259200000
          (archiveActivities 0 172800000 raw0 archive0) ws_green 7)
     = sum_of ArchiveQuery.day_activities
         (dailyBreakdown
            (getArchivedStats 259200000
               (archiveActivities 0 172800000 raw0 archive0) ws_green 7))
  /\ lookbackStart 259200000 7 mod msPerDay = 0
  /\ lookbackStart 259200000 7 <= 259200000 - 7 * msPerDay.
Proof.
  apply (archived_stats_report 259200000
           (archiveActivities 0 172800000 raw0 archive0) ws_green 7).
  apply merge_keyed, keyed_empty.
Defined.

(** The sample log read back on its fourth day: four scans, forty points,
    two users, thirty of the points on the first day. *)
Example report_of_the_sample_log :
  sumActivities
    (getArchivedStats 259200000
       (archiveActivities 0 172800000 raw0 archive0) ws_green 7) = 4
  /\ sumPoints
       (getArchivedStats 259200000
          (archiveActivities 0 172800000 raw0 archive0) ws_green 7) = 40
  /\ uniqueUsers
       (getArchivedStats 259200000
          (archiveActivities 0 172800000 raw0 archive0) ws_green 7) = 2
  /\ map day_points
       (dailyBreakdown
          (getArchivedStats 259200000
             (archiveActivities 0 172800000 raw0 archive0) ws_green 7))
     = [10; 30]
  /\ getActivityTypeBreakdown 259200000
       (archiveActivities 0 172800000 raw0 archive0) ws_green 7 !! "SCAN"
     = Some (4, 40).
Proof. repeat split; vm_compute; reflexivity. Qed.

End ArchiveQueryExamples.

(** ** The archive administration and more on the activity log *)

Section AlignedRanges.
Import Model Clock Archive.

(** X17. A range between two UTC midnights counts whole days: every day
    document such a compaction writes counts all the raw activities of its
    workspace and day, in [totalActivities] and in [totalPoints], not only
    a part of the day. *)
Theorem aligned_range_counts_whole_days (startDate endDate : Z)
    (raw : list Activity) (d : DayDoc) :
  startDate mod msPerDay = 0 -> endDate mod msPerDay = 0 ->
  d ∈ pipeline startDate endDate raw ->
  day_activities startDate endDate raw (doc_workspaceId d) (doc_date d)
  = filter (fun a => a_workspaceId a = doc_workspaceId d
                     /\ startOfDay (a_createdAt a) = doc_date d) raw
  /\ totalActivities (doc_stats d)
     = Z.of_nat (length (filter (fun a => a_workspaceId a = doc_workspaceId d
                                          /\ startOfDay (a_createdAt a)
                                             = doc_date d) raw))
  /\ totalPoints (doc_stats d)
     = sum_of a_points (filter (fun a => a_workspaceId a = doc_workspaceId d
                                         /\ startOfDay (a_createdAt a)
                                            = doc_date d) raw).
Proof.
  intros Hs He Hd.
  destruct (pipeline_doc _ _ _ _ Hd) as [Hdoc Hne].
  assert (Hrange : startDate <= doc_date d /\ doc_date d + msPerDay <= endDate).
  { destruct (day_activities _ _ _ _ _) as [|a rest] eqn:Hacts;
      [contradiction |].
    assert (Ha : a ∈ day_activities startDate endDate raw
                       (doc_workspaceId d) (doc_date d))
      by (rewrite Hacts; left).
    apply list_elem_of_filter in Ha as [[_ Hday] Ha].
    apply list_elem_of_filter in Ha as [[Hlo Hhi] _].
    rewrite <- Hday. split.
    - now apply from_midnight.
    - assert (Hlt : startOfDay (a_createdAt a) < endDate).
      { pose proof (startOfDay_le (a_createdAt a)). lia. }
      pose proof (startOfDay_midnight (a_createdAt a)) as Hm.
      unfold msPerDay in *.
      apply Z.mod_divide in He as [q Hq]; [| lia].
      apply Z.mod_divide in Hm as [r Hr]; [| lia]. nia. }
  assert (Hall :
    day_activities startDate endDate raw (doc_workspaceId d) (doc_date d)
    = filter (fun a => a_workspaceId a = doc_workspaceId d
                       /\ startOfDay (a_createdAt a) = doc_date d) raw).
  { unfold day_activities, stage_match. rewrite list_filter_filter.
    apply list_filter_iff. intros a. split; [tauto |].
    intros [Hw Hday]. split; [now split |].
    pose proof (startOfDay_le (a_createdAt a)).
    pose proof (startOfDay_gt (a_createdAt a)). lia. }
  split; [exact Hall |].
  destruct (day_fold (stage_hours
              (day_activities startDate endDate raw
                 (doc_workspaceId d) (doc_date d)))) as (Hc & Hp & _).
  destruct (stage_hours_sums
              (day_activities startDate endDate raw
                 (doc_workspaceId d) (doc_date d))) as [Hsc Hsp].
  rewrite <- Hall. split.
  - rewrite Hdoc at 1. cbn. now rewrite Hc.
  - rewrite Hdoc at 1. cbn. now rewrite Hp.
Qed.

End AlignedRanges.

Section AdminFacts.
Import Model Clock Archive ActivityLog Admin.

Lemma archive_again (startDate endDate : Z) (raw : list Activity)
    (c : Collection) :
  archiveActivities startDate endDate raw
    (archiveActivities startDate endDate raw c)
  = archiveActivities startDate endDate raw c.
Proof.
  unfold archiveActivities. apply merge_present. intros d Hd.
  destruct (merge_writes (pipeline startDate endDate raw) c
              (pipeline_keys startDate endDate raw) d Hd) as (id & Hid & _).
  now exists id.
Qed.

(** X18. The range endpoint answers MISSING_DATES when a date is absent,
    else INVALID_DATES when one cannot be read, else INVALID_RANGE when the
    start is not before the end, and leaves the archive untouched in all
    three cases; with a start before the end it runs the compaction of
    that range, which keeps every document dated before the day of the
    start or at or after the end, and asking again leaves the archive as
    the first run left it. *)
Theorem archiveDateRange_answers (startDate endDate : DateParam)
    (raw : list Activity) (c : Collection) :
  (fst (archiveDateRange startDate endDate raw c) = MissingDates <->
     startDate = Absent \/ endDate = Absent)
  /\ (fst (archiveDateRange startDate endDate raw c) = InvalidDates <->
        startDate <> Absent /\ endDate <> Absent
        /\ (startDate = Unreadable \/ endDate = Unreadable))
  /\ (fst (archiveDateRange startDate endDate raw c) = InvalidRange <->
        exists s e, startDate = Instant s /\ endDate = Instant e /\ e <= s)
  /\ (fst (archiveDateRange startDate endDate raw c) <> RangeArchived ->
        snd (archiveDateRange startDate endDate raw c) = c)
  /\ (forall s e, startDate = Instant s -> endDate = Instant e -> s < e ->
        archiveDateRange startDate endDate raw c
        = (RangeArchived, archiveActivities s e raw c)
        /\ (forall k, snd k < startOfDay s \/ e <= snd k ->
              stored (archiveActivities s e raw c) !! k = stored c !! k)
        /\ archiveDateRange startDate endDate raw
             (archiveActivities s e raw c)
           = (RangeArchived, archiveActivities s e raw c)).
Proof.
  split; [| split; [| split; [| split]]].
  - destruct startDate, endDate; cbn; try destruct (_ >=? _);
      split; intros H; try discriminate; auto;
      destruct H as [H | H]; discriminate.
  - destruct startDate, endDate; cbn; try destruct (_ >=? _);
      split; intros H; try discriminate;
      try (destruct H as (H1 & H2 & [H3 | H3]); congruence);
      repeat split; auto; discriminate.
  - destruct startDate as [| |s], endDate as [| |e]; cbn;
      try (split; [discriminate | intros (s' & e' & H1 & H2 & _); discriminate]).
    destruct (Z.geb_spec s e); split; try discriminate; try reflexivity.
    + intros _. exists s, e. repeat split; lia.
    + intros (s' & e' & [= <-] & [= <-] & Hle). lia.
  - destruct startDate as [| |s], endDate as [| |e]; cbn; try reflexivity.
    destruct (s >=? e); cbn; [reflexivity | congruence].
  - intros s e -> -> Hlt. cbn.
    destruct (Z.geb_spec s e); [lia |].
    split; [reflexivity |]. split.
    + intros k Hk. unfold archiveActivities. apply merge_other.
      rewrite pipeline_keys_are_days. intros (a & Ha & ->). cbn in Hk.
      apply list_elem_of_filter in Ha as [[Hlo Hhi] _].
      pose proof (startOfDay_mono _ _ Hlo).
      pose proof (startOfDay_le (a_createdAt a)). lia.
    + now rewrite archive_again.
Qed.

#[local] Instance oldest_first_total : Total oldest_first.
Proof. intros a b. unfold oldest_first. lia. Qed.

#[local] Instance oldest_first_trans : Transitive oldest_first.
Proof. intros a b c. unfold oldest_first. lia. Qed.

#[local] Instance latest_first_total : Total latest_first.
Proof. intros a b. unfold latest_first. lia. Qed.

#[local] Instance latest_first_trans : Transitive latest_first.
Proof. intros a b c. unfold latest_first. lia. Qed.

(** The head of a sorted list bounds the list. *)
Lemma head_merge_sort {X} (R : relation X) `{!RelDecision R, !Total R,
    !Transitive R, !Reflexive R} (l : list X) (x : X) :
  head (merge_sort R l) = Some x -> x ∈ l /\ forall y, y ∈ l -> R x y.
Proof.
  intros Hh.
  pose proof (Sorted_merge_sort R l) as Hs.
  pose proof (merge_sort_Permutation R l) as Hp.
  destruct (merge_sort R l) as [|x' rest]; [discriminate |].
  injection Hh as ->. split.
  - rewrite <- Hp. left.
  - intros y Hy. rewrite <- Hp in Hy.
    apply Sorted_StronglySorted in Hs; [| apply _].
    apply StronglySorted_inv in Hs as [_ Hall].
    apply elem_of_cons in Hy as [-> | Hy]; [reflexivity |].
    rewrite Forall_forall in Hall. now apply Hall.
Qed.

Lemma head_merge_sort_None {X} (R : relation X) `{!RelDecision R} (l : list X) :
  head (merge_sort R l) = None <-> l = [].
Proof.
  pose proof (merge_sort_Permutation R l) as Hp. split.
  - intros Hh. destruct (merge_sort R l); [| discriminate].
    now apply Permutation_nil_l in Hp.
  - intros ->. reflexivity.
Qed.

#[local] Instance oldest_first_refl : Reflexive oldest_first.
Proof. intros a. unfold oldest_first. lia. Qed.

#[local] Instance latest_first_refl : Reflexive latest_first.
Proof. intros a. unfold latest_first. lia. Qed.

Lemma documents_elem (c : Collection) (d : DayDoc) :
  d ∈ documents c <-> exists k id, stored c !! k = Some (id, d).
Proof.
  unfold documents. rewrite list_elem_of_fmap. split.
  - intros ([k [id d']] & -> & Hin). apply elem_of_map_to_list in Hin.
    now exists k, id.
  - intros (k & id & Hk). exists (k, (id, d)). split; [reflexivity |].
    now apply elem_of_map_to_list.
Qed.

(** X19. The health report counts the stored documents and the raw
    activities; its oldest and newest dates are dates of stored documents
    that bound the dates of all stored documents, and they are null
    exactly when the archive is empty. *)
Theorem archive_health_dates (raw : list Activity) (c : Collection) :
  archiveDocuments (getArchiveHealth raw c) = size (stored c)
  /\ rawActivityDocuments (getArchiveHealth raw c) = length raw
  /\ (oldestArchiveDate (getArchiveHealth raw c) = None <-> stored c = ∅)
  /\ (newestArchiveDate (getArchiveHealth raw c) = None <-> stored c = ∅)
  /\ (forall o, oldestArchiveDate (getArchiveHealth raw c) = Some o ->
        (exists k id d, stored c !! k = Some (id, d) /\ doc_date d = o)
        /\ forall k id d, stored c !! k = Some (id, d) -> o <= doc_date d)
  /\ (forall n, newestArchiveDate (getArchiveHealth raw c) = Some n ->
        (exists k id d, stored c !! k = Some (id, d) /\ doc_date d = n)
        /\ forall k id d, stored c !! k = Some (id, d) -> doc_date d <= n).
Proof.
  unfold getArchiveHealth.
  cbn [archiveDocuments rawActivityDocuments oldestArchiveDate newestArchiveDate].
  assert (Hempty : documents c = [] <-> stored c = ∅).
  { unfold documents. rewrite <- map_to_list_empty_iff.
    split; [apply fmap_nil_inv | intros ->; reflexivity]. }
  split; [reflexivity |]. split; [reflexivity |].
  split; [| split; [| split]].
  - rewrite fmap_None, head_merge_sort_None. exact Hempty.
  - rewrite fmap_None, head_merge_sort_None. exact Hempty.
  - intros o Ho. apply fmap_Some in Ho as (d & Hd & ->).
    apply head_merge_sort in Hd as [Hin Hmin]; [| apply _ ..].
    split.
    + apply documents_elem in Hin as (k & id & Hk). now exists k, id, d.
    + intros k id d' Hk. apply (Hmin d'). apply documents_elem. now exists k, id.
  - intros n Hn. apply fmap_Some in Hn as (d & Hd & ->).
    apply head_merge_sort in Hd as [Hin Hmax]; [| apply _ ..].
    split.
    + apply documents_elem in Hin as (k & id & Hk). now exists k, id, d.
    + intros k id d' Hk. apply (Hmax d'). apply documents_elem. now exists k, id.
Qed.

Lemma nightly_day (n : Z) : startOfDay (nightly n) = n * msPerDay.
Proof.
  unfold startOfDay, nightly, msPerDay.
  rewrite (Z.add_comm (n * 86400000)), Z_mod_plus_full.
  change ((30 * 60 * 1000) mod 86400000) with (30 * 60 * 1000). lia.
Qed.

(** X20. The nightly job of a day, half an hour after its midnight,
    compacts the day before; a raw activity is read by the job of the day
    after its creation and by no other, and that job runs more than half
    an hour after the activity was created. *)
Theorem nightly_runs_tile_the_log (raw : list Activity) (c : Collection) :
  (forall n, runArchiveNow (nightly n) raw c
             = archiveActivities ((n - 1) * msPerDay) (n * msPerDay) raw c)
  /\ (forall n a,
        a ∈ stage_match ((n - 1) * msPerDay) (n * msPerDay) raw <->
        a ∈ raw /\ n = a_createdAt a / msPerDay + 1)
  /\ (forall a, a_createdAt a + 30 * 60 * 1000
                < nightly (a_createdAt a / msPerDay + 1)).
Proof.
  split; [| split].
  - intros n. unfold runArchiveNow, archiveYesterdaysActivities, daysBefore.
    rewrite nightly_day. f_equal. lia.
  - intros n a. unfold stage_match. rewrite list_elem_of_filter.
    unfold msPerDay.
    pose proof (Z.div_mod (a_createdAt a) 86400000 ltac:(lia)) as Hdm.
    pose proof (Z.mod_pos_bound (a_createdAt a) 86400000 ltac:(lia)) as Hb.
    split.
    + intros [[Hlo Hhi] Ha]. split; [exact Ha | nia].
    + intros [Ha ->]. split; [lia | exact Ha].
  - intros a. unfold nightly, msPerDay.
    pose proof (Z.div_mod (a_createdAt a) 86400000 ltac:(lia)) as Hdm.
    pose proof (Z.mod_pos_bound (a_createdAt a) 86400000 ltac:(lia)) as Hb.
    lia.
Qed.

End AdminFacts.

Section ActivityLogMore.
Import Model Clock Archive ActivityLog.

#[local] Instance recent_total : Total most_recent_first.
Proof. intros a b. unfold most_recent_first. lia. Qed.

#[local] Instance recent_trans : Transitive most_recent_first.
Proof. intros a b c. unfold most_recent_first. lia. Qed.

#[local] Instance by_day_desc_total : Total by_day_desc.
Proof. intros a b. unfold by_day_desc. lia. Qed.

#[local] Instance by_day_desc_trans : Transitive by_day_desc.
Proof. intros a b c. unfold by_day_desc. lia. Qed.

#[local] Instance earliest_first_total : Total earliest_first.
Proof. intros a b. unfold earliest_first. lia. Qed.

#[local] Instance earliest_first_trans : Transitive earliest_first.
Proof. intros a b c. unfold earliest_first. lia. Qed.

#[local] Instance earliest_first_refl : Reflexive earliest_first.
Proof. intros a. unfold earliest_first. lia. Qed.

(** In a sorted list, what a limit keeps comes before what it cuts. *)
Lemma take_before_drop {X} (R : relation X) (l : list X) :
  StronglySorted R l ->
  forall k a b, a ∈ take k l -> b ∈ drop k l -> R a b.
Proof.
  induction 1 as [|x l Hs IH Hall]; intros k a b Ha Hb.
  - rewrite take_nil in Ha. inversion Ha.
  - destruct k as [|k]; cbn in Ha, Hb; [inversion Ha |].
    apply elem_of_cons in Ha as [-> | Ha].
    + rewrite Forall_forall in Hall. apply Hall.
      now apply (subseteq_drop k l).
    + now apply (IH k).
Qed.

Lemma take_or_drop {X} (l : list X) (k : nat) (x : X) :
  x ∈ l -> x ∈ take k l \/ x ∈ drop k l.
Proof. rewrite <- (take_drop k l) at 1. apply elem_of_app. Qed.

(** X21. A limit keeps the most recent activities: a member's query with
    a positive limit is answered with as many rows as the limit or as
    there are activities of the workspace from the lower bound on,
    whichever is smaller, and no activity left out is more recent than a
    row returned. *)
Theorem getActivities_limit_keeps_most_recent (req : ActivitiesRequest)
    (st : Store) (rows : list Activity) (n : nat) :
  getActivities req st = Activities rows ->
  q_limit req = Some (S n) ->
  exists j membership bound,
    findMember st (q_workspaceId req) (q_userId req) = Some (j, membership)
    /\ lowerBound (q_since req) membership = Some bound
    /\ length rows
       = Nat.min (S n)
           (length (filter (fun a => a_workspaceId a = q_workspaceId req
                                     /\ bound <= a_createdAt a)
                           (activities st)))
    /\ (forall a b, a ∈ rows -> b ∉ rows ->
          b ∈ activities st -> a_workspaceId b = q_workspaceId req ->
          bound <= a_createdAt b ->
          a_createdAt b <= a_createdAt a).
Proof.
  unfold getActivities.
  destruct (findMember st _ _) as [[j membership]|]; [| discriminate].
  destruct (lowerBound (q_since req) membership) as [bound|] eqn:Hb;
    [| discriminate].
  destruct (forallb _ _); [| discriminate]. intros [= <-] Hlimit.
  exists j, membership, bound. split; [reflexivity |]. split; [exact Hb |].
  rewrite Hlimit. cbn [apply_limit].
  set (found := filter _ (activities st)).
  split.
  - rewrite length_take. f_equal. apply Permutation_length.
    apply merge_sort_Permutation.
  - intros a b Ha Hnot Hin Hw Hbound.
    assert (Hb' : b ∈ merge_sort most_recent_first found).
    { rewrite merge_sort_Permutation. apply list_elem_of_filter. auto. }
    apply (take_or_drop _ (S n)) in Hb' as [Hb' | Hb']; [contradiction |].
    apply (take_before_drop most_recent_first
             (merge_sort most_recent_first found)) with (k := S n) (a := a)
      in Hb'; [exact Hb' | | exact Ha].
    apply Sorted_StronglySorted; [apply _ |].
    apply Sorted_merge_sort. apply _.
Qed.

(** X22. How the activity query fails: a caller who is not a member is
    answered 403 whatever since and limit are; a member whose since cannot
    be read is answered 500; every row returned has a user record; and one
    activity in reach whose user record is gone makes the query without
    limit fail with 500. *)
Theorem getActivities_failures (req : ActivitiesRequest) (st : Store) :
  (findMember st (q_workspaceId req) (q_userId req) = None ->
     getActivities req st = NotAMember)
  /\ (is_Some (findMember st (q_workspaceId req) (q_userId req)) ->
      q_since req = Unreadable -> getActivities req st = FailedToGet)
  /\ (forall rows, getActivities req st = Activities rows ->
        forall a, a ∈ rows -> is_Some (findUser st (a_userId a)))
  /\ (forall j membership bound a,
        findMember st (q_workspaceId req) (q_userId req) = Some (j, membership) ->
        lowerBound (q_since req) membership = Some bound ->
        q_limit req = None \/ q_limit req = Some 0%nat ->
        a ∈ activities st -> a_workspaceId a = q_workspaceId req ->
        bound <= a_createdAt a -> findUser st (a_userId a) = None ->
        getActivities req st = FailedToGet).
Proof.
  unfold getActivities. split; [| split; [| split]].
  - now intros ->.
  - intros [[j m] ->] ->. reflexivity.
  - intros rows.
    destruct (findMember st _ _) as [[j membership]|]; [| discriminate].
    destruct (lowerBound (q_since req) membership) as [bound|];
      [| discriminate].
    destruct (forallb _ _) eqn:Hall; [| discriminate]. intros [= <-] a Ha.
    rewrite forallb_forall in Hall.
    apply list_elem_of_In, Hall in Ha. now apply bool_decide_eq_true in Ha.
  - intros j membership bound a -> -> Hlimit Ha Hw Hbound Huser.
    assert (Hrows : apply_limit (q_limit req)
                      (merge_sort most_recent_first
                         (filter (fun a => a_workspaceId a = q_workspaceId req
                                           /\ bound <= a_createdAt a)
                                 (activities st)))
                    = merge_sort most_recent_first
                        (filter (fun a => a_workspaceId a = q_workspaceId req
                                          /\ bound <= a_createdAt a)
                                (activities st)))
      by (destruct Hlimit as [-> | ->]; reflexivity).
    rewrite Hrows.
    destruct (forallb _ _) eqn:Hall; [| reflexivity]. exfalso.
    rewrite forallb_forall in Hall.
    assert (Hin : a ∈ merge_sort most_recent_first
                        (filter (fun a => a_workspaceId a = q_workspaceId req
                                          /\ bound <= a_createdAt a)
                                (activities st))).
    { rewrite merge_sort_Permutation. apply list_elem_of_filter. auto. }
    apply list_elem_of_In, Hall, bool_decide_eq_true in Hin.
    rewrite Huser in Hin. now destruct Hin.
Qed.

(** X23. The rows of a MY_ACTIVITY export are activities of the caller in
    the workspace, created no later than the end of the end day, passing
    the device-type and activity-type filters, most recent first and at
    most ten thousand; below that number they are all such activities from
    the effective start on; the archive is not read. *)
Theorem export_my_activity_rows (now : Z) (req : ExportRequest) (st : Store)
    (archive : Collection) (rows : list Activity) :
  e_ownership req = Some "MY_ACTIVITY" ->
  exportActivities now req st archive = RawRows rows ->
  exists endAt,
    endBound now (e_endDate req) = Some endAt
    /\ (forall a, a ∈ rows ->
          a ∈ activities st
          /\ a_workspaceId a = e_workspaceId req
          /\ a_userId a = e_userId req
          /\ a_createdAt a <= endAt
          /\ passes (e_deviceType req) (a_deviceType a)
          /\ passes (e_activityType req) (Some (a_type a)))
    /\ Sorted most_recent_first rows
    /\ (length rows <= safetyLimit)%nat
    /\ ((length rows < safetyLimit)%nat ->
        rows ≡ₚ filter (fun a => a_workspaceId a = e_workspaceId req
                                 /\ a_userId a = e_userId req
                                 /\ effectiveStart now (e_startDate req)
                                    <= a_createdAt a
                                 /\ a_createdAt a <= endAt
                                 /\ passes (e_deviceType req) (a_deviceType a)
                                 /\ passes (e_activityType req)
                                           (Some (a_type a)))
                       (activities st))
    /\ (forall archive',
          exportActivities now req st archive' = RawRows rows).
Proof.
  intros Hown. unfold exportActivities.
  destruct (findMember st _ _) as [[j m]|]; [| discriminate].
  destruct (endBound now (e_endDate req)) as [endAt|]; [| discriminate].
  rewrite Hown, bool_decide_eq_true_2 by reflexivity.
  intros [= <-]. exists endAt. split; [reflexivity |].
  set (found := filter _ (activities st)).
  split; [| split; [| split; [| split]]].
  - intros a Ha. apply elem_of_merge_sort_filter in Ha
      as [(Hw & Hu & _ & Hend & Hd & Ht) Hin].
    repeat split; assumption.
  - apply Sorted_take, Sorted_merge_sort. apply _.
  - rewrite length_take. lia.
  - intros Hlt. rewrite length_take in Hlt.
    rewrite take_ge by lia. apply merge_sort_Permutation.
  - reflexivity.
Qed.

Lemma flatten_date (deviceType activityType : option string) (d : DayDoc)
    (r : AggregatedRow) :
  r ∈ flatten deviceType activityType d -> r_date r = doc_date d.
Proof.
  unfold flatten. intros Hr.
  now apply list_elem_of_fmap in Hr as (b & -> & _).
Qed.

Lemma flattened_sorted (deviceType activityType : option string)
    (docs : list DayDoc) :
  StronglySorted by_day_desc docs ->
  StronglySorted (fun r1 r2 => r_date r2 <= r_date r1)
    (concat (map (flatten deviceType activityType) docs)).
Proof.
  induction 1 as [|d docs Hs IH Hall]; cbn [map concat]; [constructor |].
  assert (Hrest : forall r, r ∈ concat (map (flatten deviceType activityType) docs)
                            -> r_date r <= doc_date d).
  { intros r Hr. apply list_elem_of_In, in_concat in Hr as (rs & Hrs & Hr).
    apply list_elem_of_In, list_elem_of_fmap in Hrs as (d' & -> & Hd').
    apply list_elem_of_In, flatten_date in Hr. rewrite Hr.
    rewrite Forall_forall in Hall. now apply Hall. }
  assert (Hblock : forall r, r ∈ flatten deviceType activityType d ->
                             r_date r = doc_date d)
    by (intros r; apply flatten_date).
  induction (flatten deviceType activityType d) as [|r rs IHrs]; cbn [app];
    [exact IH |].
  constructor.
  - apply IHrs. intros r' Hr'. apply Hblock. now right.
  - apply Forall_forall. intros r' Hr'.
    rewrite (Hblock r) by left.
    apply elem_of_app in Hr' as [Hr' | Hr'].
    + rewrite (Hblock r') by now right. lia.
    + now apply Hrest.
Qed.

(** X24. The rows of an export of everything are exactly the timeline
    entries, passing the filters, of the stored day documents of the
    workspace dated from the start (if one is given) to the end of the end
    day, with no thirty-day floor; they come newest day first, a missing
    or empty device type printed as N/A; and they do not depend on the raw
    activities or on who among the members asks. *)
Theorem export_all_rows (now : Z) (req : ExportRequest) (st : Store)
    (archive : Collection) (rows : list AggregatedRow) :
  e_ownership req <> Some "MY_ACTIVITY" ->
  exportActivities now req st archive = ArchiveRows rows ->
  exists endAt,
    endBound now (e_endDate req) = Some endAt
    /\ (forall r, r ∈ rows <->
          exists k id d b,
            stored archive !! k = Some (id, d)
            /\ doc_workspaceId d = e_workspaceId req
            /\ from_start (e_startDate req) (doc_date d)
            /\ doc_date d <= endAt
            /\ b ∈ doc_timeline d
            /\ passes (e_deviceType req) (b_deviceType b)
            /\ passes (e_activityType req) (Some (b_type b))
            /\ r = mkAggregatedRow (doc_date d) (b_hour b) (b_type b)
                     (if nonempty (b_deviceType b)
                      then default EmptyString (b_deviceType b) else "N/A")
                     (b_count b) (b_points b))
    /\ StronglySorted (fun r1 r2 => r_date r2 <= r_date r1) rows
    /\ (forall st',
          is_Some (findMember st' (e_workspaceId req) (e_userId req)) ->
          exportActivities now req st' archive = ArchiveRows rows).
Proof.
  intros Hown. unfold exportActivities.
  destruct (findMember st _ _) as [[j m]|]; [| discriminate].
  destruct (endBound now (e_endDate req)) as [endAt|]; [| discriminate].
  rewrite bool_decide_eq_false_2 by exact Hown.
  intros Hrows. exists endAt. split; [reflexivity |].
  assert (Hstart : e_startDate req <> Unreadable)
    by (intros Hs; rewrite Hs in Hrows; discriminate).
  set (docs := filter _ (map _ (map_to_list (stored archive)))) in Hrows.
  assert (Heq : rows = concat (map (flatten (e_deviceType req) (e_activityType req))
                                   (merge_sort by_day_desc docs))).
  { destruct (e_startDate req); [| contradiction |]; now injection Hrows. }
  clear Hrows. subst rows. split; [| split].
  - intros r. rewrite list_elem_of_In, in_concat. split.
    + intros (rs & Hrs & Hr).
      apply list_elem_of_In, list_elem_of_fmap in Hrs as (d & -> & Hd).
      rewrite merge_sort_Permutation in Hd.
      apply list_elem_of_filter in Hd as [(Hw & Hfrom & Hend) Hd].
      apply list_elem_of_fmap in Hd as ([k [id d']] & -> & Hin).
      cbn [snd] in *. apply elem_of_map_to_list in Hin.
      apply list_elem_of_In in Hr. unfold flatten in Hr.
      apply list_elem_of_fmap in Hr as (b & -> & Hb).
      apply list_elem_of_filter in Hb as [[Hdt Hat] Hb].
      exists k, id, d', b. repeat split; assumption.
    + intros (k & id & d & b & Hk & Hw & Hfrom & Hend & Hb & Hdt & Hat & ->).
      exists (flatten (e_deviceType req) (e_activityType req) d). split.
      * apply list_elem_of_In, list_elem_of_fmap. exists d.
        split; [reflexivity |]. rewrite merge_sort_Permutation.
        apply list_elem_of_filter. split; [repeat split; assumption |].
        apply list_elem_of_fmap. exists (k, (id, d)).
        split; [reflexivity |]. now apply elem_of_map_to_list.
      * apply list_elem_of_In. unfold flatten. apply list_elem_of_fmap.
        exists b. split; [reflexivity |].
        apply list_elem_of_filter. split; [split; assumption | exact Hb].
  - apply flattened_sorted. apply Sorted_StronglySorted; [apply _ |].
    apply Sorted_merge_sort. apply _.
  - intros st' [[j' m'] ->]. cbv beta iota.
    fold docs. destruct (e_startDate req); [reflexivity | contradiction | reflexivity].
Qed.

(** X25. The advertised export limits are sound: a caller who is not a
    member is refused by both endpoints; for a member, no row of a
    MY_ACTIVITY export is older than the advertised [myActivity.minDate],
    which is the UTC day of the instant thirty days back, and every row of
    an export of everything is dated at or after the advertised
    [allActivities.minDate], which is then not null. *)
Theorem export_limits_are_sound (now : Z) (req : ExportRequest) (st : Store)
    (archive : Collection) :
  (findMember st (e_workspaceId req) (e_userId req) = None ->
     getExportInfo now (e_workspaceId req) (e_userId req) st archive = InfoDenied
     /\ exportActivities now req st archive = AccessDenied)
  /\ (forall info,
        getExportInfo now (e_workspaceId req) (e_userId req) st archive
        = ExportLimits info ->
        myMinDate info <= thirtyDaysAgo now < myMinDate info + msPerDay
        /\ maxDate info <= now
        /\ (forall rows, exportActivities now req st archive = RawRows rows ->
              forall a, a ∈ rows -> myMinDate info <= a_createdAt a)
        /\ (forall rows, exportActivities now req st archive = ArchiveRows rows ->
              forall r, r ∈ rows ->
              exists m, allMinDate info = Some m /\ m <= r_date r)).
Proof.
  split.
  - intros Hnone. unfold getExportInfo, exportActivities. now rewrite Hnone.
  - intros info. unfold getExportInfo.
    destruct (findMember st _ _) as [[j m]|] eqn:Hm; [| discriminate].
    intros [= <-]. cbn [myMinDate maxDate allMinDate].
    pose proof (startOfDay_le (thirtyDaysAgo now)).
    pose proof (startOfDay_gt (thirtyDaysAgo now)).
    split; [lia |]. split; [apply startOfDay_le |]. split.
    + intros rows. unfold exportActivities. rewrite Hm.
      destruct (endBound now (e_endDate req)) as [endAt|]; [| discriminate].
      destruct (bool_decide _).
      * intros [= <-] a Ha. apply elem_of_merge_sort_filter in Ha
          as [(_ & _ & Hfrom & _) _].
        assert (thirtyDaysAgo now <= effectiveStart now (e_startDate req));
          [| lia].
        unfold effectiveStart. destruct (e_startDate req) as [| |t]; try lia.
        destruct (Z.gtb_spec t (thirtyDaysAgo now)); lia.
      * destruct (e_startDate req); discriminate.
    + intros rows Hrows r Hr.
      assert (Hdoc : exists d,
        d ∈ filter (fun d => doc_workspaceId d = e_workspaceId req)
                   (map (fun kv => snd (snd kv)) (map_to_list (stored archive)))
        /\ r_date r = doc_date d).
      { unfold exportActivities in Hrows. rewrite Hm in Hrows.
        destruct (endBound now (e_endDate req)) as [endAt|]; [| discriminate].
        destruct (bool_decide _); [discriminate |].
        set (docs := filter _ (map _ (map_to_list (stored archive)))) in Hrows.
        assert (Hdocs : forall d, d ∈ docs ->
          doc_workspaceId d = e_workspaceId req
          /\ d ∈ map (fun kv => snd (snd kv)) (map_to_list (stored archive))).
        { intros d Hd. apply list_elem_of_filter in Hd as [(Hw & _) Hd].
          now split. }
        clearbody docs.
        assert (Heq :
          rows = concat (map (flatten (e_deviceType req) (e_activityType req))
                             (merge_sort by_day_desc docs)))
          by (destruct (e_startDate req); [| discriminate |];
              now injection Hrows).
        subst rows.
        apply list_elem_of_In, in_concat in Hr as (rs & Hrs & Hr).
        apply list_elem_of_In, list_elem_of_fmap in Hrs as (d & -> & Hd).
        rewrite merge_sort_Permutation in Hd.
        apply list_elem_of_In, flatten_date in Hr.
        exists d. split; [| exact Hr].
        apply list_elem_of_filter. now apply Hdocs. }
      destruct Hdoc as (d & Hd & Hdate).
      destruct (head (merge_sort earliest_first _)) as [d0|] eqn:Hhead.
      * apply head_merge_sort in Hhead as [_ Hmin]; [| apply _ ..].
        exists (startOfDay (doc_date d0)). split; [reflexivity |].
        pose proof (Hmin d Hd) as Hle. unfold earliest_first in Hle.
        pose proof (startOfDay_le (doc_date d0)). lia.
      * apply head_merge_sort_None in Hhead. rewrite Hhead in Hd. inversion Hd.
Qed.

End ActivityLogMore.

Section MoreExamples.
Import Model Clock Archive ActivityLog Admin Samples.

Lemma aligned_range_counts_whole_days_witness :
  day_activities 0 86400000 raw0 (doc_workspaceId day0) (doc_date day0)
  = filter (fun a => a_workspaceId a = doc_workspaceId day0
                     /\ startOfDay (a_createdAt a) = doc_date day0) raw0
  /\ totalActivities (doc_stats day0)
     = Z.of_nat (length (filter (fun a => a_workspaceId a = doc_workspaceId day0
                                          /\ startOfDay (a_createdAt a)
                                             = doc_date day0) raw0))
  /\ totalPoints (doc_stats day0)
     = sum_of a_points (filter (fun a => a_workspaceId a = doc_workspaceId day0
                                         /\ startOfDay (a_createdAt a)
                                            = doc_date day0) raw0).
Proof.
  apply (aligned_range_counts_whole_days 0 86400000 raw0 day0).
  - reflexivity.
  - reflexivity.
  - change (day0 ∈ [day0]). left.
Defined.

(** A range that starts at noon writes a day document that counts the
    afternoon only, over the document of the whole day. *)
Example noon_range_truncates_the_day :
  (snd <$> stored (archiveActivities 0 86400000 raw0 archive0) !! (ws_green, 0))
  = Some day0
  /\ totalActivities (doc_stats day0) = 3
  /\ (totalActivities ∘ doc_stats ∘ snd
        <$> stored (archiveActivities 43200000 86400000 raw0
                      (archiveActivities 0 86400000 raw0 archive0))
              !! (ws_green, 0))
     = Some 2.
Proof. repeat split. Qed.

Lemma getActivities_limit_keeps_most_recent_witness :
  exists j membership bound,
    findMember store_log ws_green user_ayu = Some (j, membership)
    /\ lowerBound (Instant 2000) membership = Some bound
    /\ length [scan_at user_ayu 3000]
       = Nat.min 1
           (length (filter (fun a => a_workspaceId a = ws_green
                                     /\ bound <= a_createdAt a)
                           (activities store_log)))
    /\ (forall a b, a ∈ [scan_at user_ayu 3000] -> b ∉ [scan_at user_ayu 3000] ->
          b ∈ activities store_log -> a_workspaceId b = ws_green ->
          bound <= a_createdAt b ->
          a_createdAt b <= a_createdAt a).
Proof.
  apply (getActivities_limit_keeps_most_recent
           (mkActivitiesRequest ws_green user_ayu (Instant 2000) (Some 1%nat))
           store_log [scan_at user_ayu 3000] 0%nat).
  - reflexivity.
  - reflexivity.
Defined.

Lemma export_my_activity_rows_witness :
  exists endAt,
    endBound (day 100) Absent = Some endAt
    /\ (forall a, a ∈ [scan_at user_ayu (day 80)] ->
          a ∈ activities store_old
          /\ a_workspaceId a = ws_green
          /\ a_userId a = user_ayu
          /\ a_createdAt a <= endAt
          /\ passes None (a_deviceType a)
          /\ passes None (Some (a_type a)))
    /\ Sorted most_recent_first [scan_at user_ayu (day 80)]
    /\ (length [scan_at user_ayu (day 80)] <= safetyLimit)%nat
    /\ ((length [scan_at user_ayu (day 80)] < safetyLimit)%nat ->
        [scan_at user_ayu (day 80)]
        ≡ₚ filter (fun a => a_workspaceId a = ws_green
                            /\ a_userId a = user_ayu
                            /\ effectiveStart (day 100) (Instant (day 40))
                               <= a_createdAt a
                            /\ a_createdAt a <= endAt
                            /\ passes None (a_deviceType a)
                            /\ passes None (Some (a_type a)))
                  (activities store_old))
    /\ (forall archive',
          exportActivities (day 100)
            (mkExportRequest ws_green user_ayu (Some "MY_ACTIVITY") None None
                             (Instant (day 40)) Absent)
            store_old archive'
          = RawRows [scan_at user_ayu (day 80)]).
Proof.
  apply (export_my_activity_rows (day 100)
           (mkExportRequest ws_green user_ayu (Some "MY_ACTIVITY") None None
                            (Instant (day 40)) Absent)
           store_old archive0 [scan_at user_ayu (day 80)]).
  - reflexivity.
  - reflexivity.
Defined.

Lemma export_all_rows_witness :
  exists endAt,
    endBound (day 3) Absent = Some endAt
    /\ (forall r, r ∈ exported0 <->
          exists k id d b,
            stored (archiveActivities 0 (day 2) raw0 archive0) !! k = Some (id, d)
            /\ doc_workspaceId d = ws_green
            /\ from_start Absent (doc_date d)
            /\ doc_date d <= endAt
            /\ b ∈ doc_timeline d
            /\ passes None (b_deviceType b)
            /\ passes None (Some (b_type b))
            /\ r = mkAggregatedRow (doc_date d) (b_hour b) (b_type b)
                     (if nonempty (b_deviceType b)
                      then default EmptyString (b_deviceType b) else "N/A")
                     (b_count b) (b_points b))
    /\ StronglySorted (fun r1 r2 => r_date r2 <= r_date r1) exported0
    /\ (forall st',
          is_Some (findMember st' ws_green user_ayu) ->
          exportActivities (day 3)
            (mkExportRequest ws_green user_ayu None None None Absent Absent)
            st' (archiveActivities 0 (day 2) raw0 archive0)
          = ArchiveRows exported0).
Proof.
  apply (export_all_rows (day 3)
           (mkExportRequest ws_green user_ayu None None None Absent Absent)
           store0 (archiveActivities 0 (day 2) raw0 archive0) exported0).
  - discriminate.
  - reflexivity.
Defined.

End MoreExamples.

(** ** The scan endpoints compared *)

Section ScanAgreement.
Import Codec Model Scan.

Variable decrypt : string -> option value.

Lemma list_find_and {A} (P Q : A -> Prop) `{!forall x, Decision (P x)}
    `{!forall x, Decision (Q x)} (l : list A) (i : nat) (x : A) :
  list_find P l = Some (i, x) -> Q x ->
  list_find (fun y => P y /\ Q y) l = Some (i, x).
Proof.
  intros Hf HQ. apply list_find_Some in Hf as (Hl & HP & Hbefore).
  apply list_find_Some. split; [exact Hl |]. split; [now split |].
  intros j y Hj Hlt [HPy _]. now apply (Hbefore j y).
Qed.

Lemma list_find_and_None {A} (P Q : A -> Prop) `{!forall x, Decision (P x)}
    `{!forall x, Decision (Q x)} (l : list A) :
  list_find P l = None -> list_find (fun y => P y /\ Q y) l = None.
Proof.
  rewrite !list_find_None, !Forall_forall. intros Hn x Hx [HP _].
  now apply (Hn x).
Qed.

(** The device found across all workspaces is the one found in its own
    workspace. *)
Lemma resolveAnywhere_in_workspace st deviceId i d :
  resolveAnywhere st deviceId = Some (i, d) ->
  resolveInWorkspace st deviceId (d_workspaceId d) = Some (i, d).
Proof.
  unfold resolveAnywhere, resolveInWorkspace, findDeviceByDeviceId,
    findDeviceIn, findDeviceById, findDeviceByIdIn.
  destruct (list_find (fun d0 => d_deviceId d0 = Some (Text.trim deviceId))
              (devices st))
    as [[i' d']|] eqn:H1.
  - intros [= -> ->].
    now rewrite (list_find_and _ (fun y => d_workspaceId y = d_workspaceId d)
                   _ _ _ H1 eq_refl).
  - rewrite (list_find_and_None _ (fun y => d_workspaceId y = d_workspaceId d)
               _ H1).
    destruct (isObjectIdShape deviceId); [| discriminate].
    intros H2.
    now rewrite (list_find_and _ (fun y => d_workspaceId y = d_workspaceId d)
                   _ _ _ H2 eq_refl).
Qed.

(** X26. The two scan endpoints agree: when the global scan succeeds, the
    workspace of the URL is the workspace of the scanned device, and the
    caller has a user record (whose new total is not zero), the workspace
    scan of the same request gives the same answer and leaves the same
    store. *)
Theorem global_scan_agrees_with_workspace_scan now req st data st' k u :
  scanDeviceGlobal decrypt now req st = Some (Success data, st') ->
  targetWorkspace decrypt req st = Some (req_workspaceId req) ->
  findUser st (req_userId req) = Some (k, u) ->
  u_points u + 10 <> 0 ->
  scanDevice decrypt now req st = Some (Success data, st').
Proof.
  intros Hg Ht Hu Hnz.
  apply scanDeviceGlobal_cases in Hg
    as [[_ Hf] | (p & i & d & j & m & Hp & Hact & Hres & Hm & Hle & Haw)];
    [discriminate Hf |].
  unfold targetWorkspace in Ht. rewrite Hp, Hres in Ht. injection Ht as Hw.
  apply payloadOf_decode in Hp as [Henc Hdec].
  unfold scanDevice, decode. rewrite Henc, Hdec, Hact. cbn [present negb or_empty].
  change (String.eqb "SCAN" "SCAN") with true. cbn [orb negb].
  rewrite <- Hw, Hm.
  rewrite (resolveAnywhere_in_workspace _ _ _ _ Hres), Hle.
  cbn [after_replay] in Haw.
  change (findUser (save_device i (set_lastUniqueCode d (p_uniqueCode p)) st)
                   (req_userId req))
    with (findUser st (req_userId req)).
  rewrite Hu in Haw |- *. f_equal. rewrite Haw.
  unfold award.
  assert (Hz : (u_points (award_user u) =? 0) = false)
    by (apply Z.eqb_neq; cbn; exact Hnz).
  rewrite Hz. reflexivity.
Qed.

End ScanAgreement.

Section ScanAgreementExamples.
Import Codec Model Scan Samples.

Lemma global_scan_agrees_with_workspace_scan_witness :
  scanDevice cipher 5000 (encrypted "qr-1001" ws_green user_ayu) store0
  = Some (Success data1001, store1001).
Proof.
  apply (global_scan_agrees_with_workspace_scan cipher 5000
           (encrypted "qr-1001" ws_green user_ayu) store0 data1001 store1001
           0%nat (mkUser user_ayu 120 12)).
  - reflexivity.
  - reflexivity.
  - reflexivity.
  - discriminate.
Defined.

End ScanAgreementExamples.

(** ** The activity graph *)

Section GraphFacts.
Import Model Clock Archive Graph.

Variable objectId : string -> option string.
Variable trimUpper : string -> string.

Lemma sum_of_pick {X} `{EqDecision X} (x : X) (c : Z) (g : X -> Z) (ks : list X) :
  NoDup ks -> x ∈ ks ->
  sum_of (fun k => (if decide (x = k) then c else 0) + g k) ks
  = c + sum_of g ks.
Proof.
  unfold sum_of. induction ks as [|k ks IH]; intros Hnd Hin; [inversion Hin |].
  apply NoDup_cons in Hnd as [Hk Hnd]. cbn [foldr].
  destruct (decide (x = k)) as [-> | Hne].
  - assert (Hrest : foldr (fun x0 n => (if decide (k = x0) then c else 0) + g x0 + n) 0 ks
                    = foldr (fun x0 n => g x0 + n) 0 ks).
    { clear IH Hin Hnd. induction ks as [|k' ks IH]; [reflexivity |].
      cbn [foldr]. rewrite IH by (intros Hin; apply Hk; now right).
      destruct (decide (k = k')) as [-> | _]; [| lia].
      exfalso. apply Hk. left. }
    rewrite Hrest. lia.
  - apply elem_of_cons in Hin as [-> | Hin]; [contradiction |].
    rewrite IH by assumption. lia.
Qed.

(** A sum over a list is the sum, over the keys, of the sums over the
    elements of each key. *)
Lemma sum_by_key {X} (key : X -> Z) (f : X -> Z) (ks : list Z) (l : list X) :
  NoDup ks -> (forall a, a ∈ l -> key a ∈ ks) ->
  sum_of f l
  = sum_of (fun k => sum_of f (filter (fun a => key a = k) l)) ks.
Proof.
  intros Hnd. induction l as [|a l IH]; intros Hin.
  - unfold sum_of at 1. cbn [foldr].
    rewrite (sum_of_ext _ (fun _ => 0)) by reflexivity.
    unfold sum_of. induction ks as [|k ks IHk]; [reflexivity |].
    cbn [foldr]. apply NoDup_cons in Hnd as [_ Hnd]. now rewrite <- IHk.
  - rewrite (sum_of_ext _
               (fun k => (if decide (key a = k) then f a else 0)
                         + sum_of f (filter (fun a => key a = k) l))).
    2:{ intros k. rewrite filter_cons.
        destruct (decide (key a = k)); unfold sum_of; cbn [foldr]; lia. }
    rewrite sum_of_pick; [| exact Hnd | apply Hin; left].
    rewrite <- IH by (intros b Hb; apply Hin; now right).
    unfold sum_of. cbn [foldr]. lia.
Qed.

Lemma tally_fold (l : list Activity) :
  t_count (foldl tally_step (mkTally 0 0 []) l) = Z.of_nat (length l)
  /\ t_points (foldl tally_step (mkTally 0 0 []) l) = sum_of a_points l.
Proof.
  split.
  - rewrite (foldl_measure tally_step t_count (fun _ => 1)) by reflexivity.
    cbn [t_count]. now rewrite sum_of_ones.
  - now rewrite (foldl_measure tally_step t_points a_points) by reflexivity.
Qed.

#[local] Instance ascending_total : Total ascending.
Proof. intros a b. unfold ascending. lia. Qed.

(** A slot's point counts the matched activities of the slot. *)
Lemma point_at_slot (key : Activity -> Z) (matched : list Activity) (slot : Z) :
  point_at (merge_sort ascending
              (group key (mkTally 0 0 []) tally_step matched)) slot
  = mkDataPoint slot
      (Z.of_nat (length (filter (fun a => key a = slot) matched)))
      (sum_of a_points (filter (fun a => key a = slot) matched)).
Proof.
  unfold point_at.
  destruct (list_find _ _) as [[i [k t]]|] eqn:Hfind.
  - apply list_find_Some in Hfind as (Hi & Hk & _). cbn [fst] in Hk. subst k.
    apply list_elem_of_lookup_2 in Hi.
    rewrite merge_sort_Permutation in Hi.
    apply group_spec in Hi as [_ ->]. unfold selected.
    destruct (tally_fold (filter (fun a => key a = slot) matched)) as [-> ->].
    reflexivity.
  - apply list_find_None in Hfind. rewrite Forall_forall in Hfind.
    destruct (filter (fun a => key a = slot) matched) as [|a rest] eqn:Hf;
      [reflexivity |].
    exfalso.
    assert (Ha : a ∈ filter (fun a => key a = slot) matched)
      by (rewrite Hf; left).
    apply list_elem_of_filter in Ha as [Hka Ha].
    apply (Hfind (slot, foldl tally_step (mkTally 0 0 [])
                          (selected key slot matched))); [| reflexivity].
    rewrite merge_sort_Permutation. apply group_spec.
    split; [now exists a | reflexivity].
Qed.

Lemma filter_all {X} (P : X -> Prop) `{!forall x, Decision (P x)} (l : list X) :
  (forall x, x ∈ l -> P x) -> filter P l = l.
Proof.
  intros Hall. induction l as [|x l IH]; [reflexivity |].
  rewrite filter_cons_True by (apply Hall; left).
  f_equal. apply IH. intros y Hy. apply Hall. now right.
Qed.

Lemma totals_of (matched : list Activity) :
  match group (fun _ : Activity => tt) (mkTally 0 0 []) tally_step matched with
  | (_, t) :: _ => (t_count t, t_points t)
  | [] => (0, 0)
  end
  = (Z.of_nat (length matched), sum_of a_points matched).
Proof.
  destruct (group _ _ _ matched) as [|[[] t] rest] eqn:Hg.
  - apply group_nil_inv in Hg. now subst.
  - assert (Hin : (tt, t) ∈ group (fun _ : Activity => tt) (mkTally 0 0 [])
                               tally_step matched)
      by (rewrite Hg; left).
    apply group_spec in Hin as [_ ->]. unfold selected.
    rewrite filter_all by reflexivity.
    now destruct (tally_fold matched) as [-> ->].
Qed.

Lemma seqZ_hours (h : Z) : h ∈ seqZ 0 24 <-> 0 <= h <= 23.
Proof. rewrite elem_of_seqZ. lia. Qed.

(** What the graph is computed from. *)
Lemma graph_inv now req st data :
  getActivityGraph objectId trimUpper now req st = GraphOf data ->
  (g_startDate data, g_endDate data, g_groupBy data) = window now (g_range req)
  /\ (exists id,
        objectId (g_workspaceId req) = Some id
        /\ graphed objectId trimUpper now req st
           = filter (matches id (g_startDate data) (g_endDate data)
                       (typeArray trimUpper (g_types req)))
                    (activities st))
  /\ dataPoints data
     = map (fun slot =>
              mkDataPoint slot
                (Z.of_nat (length
                   (filter (fun a => slot_of (g_groupBy data) a = slot)
                           (graphed objectId trimUpper now req st))))
                (sum_of a_points
                   (filter (fun a => slot_of (g_groupBy data) a = slot)
                           (graphed objectId trimUpper now req st))))
           (slots now (g_groupBy data) (g_range req))
  /\ g_totalActivities data
     = Z.of_nat (length (graphed objectId trimUpper now req st))
  /\ g_totalPoints data
     = sum_of a_points (graphed objectId trimUpper now req st)
  /\ typeBreakdown data
     = toBreakdown (group a_type (mkTally 0 0 []) tally_step
                          (graphed objectId trimUpper now req st)).
Proof.
  unfold getActivityGraph, graphed.
  destruct (findMember st _ _) as [jm|] eqn:Hm; [| discriminate].
  destruct (window now (g_range req)) as [[startDate endDate] groupBy] eqn:Hw.
  destruct (objectId (g_workspaceId req)) as [id|]; [| discriminate].
  intros [= <-].
  cbn [g_startDate g_endDate g_groupBy dataPoints g_totalActivities
       g_totalPoints typeBreakdown].
  rewrite totals_of. cbn [fst snd].
  split; [reflexivity |]. split; [now exists id |].
  split; [| repeat split].
  apply map_ext. intros slot. apply point_at_slot.
Qed.

Lemma startOfDay_shift (n t : Z) :
  startOfDay (t - n * msPerDay) = startOfDay t - n * msPerDay.
Proof.
  unfold startOfDay, msPerDay.
  replace (t - n * 86400000) with (t + (- n) * 86400000) by lia.
  rewrite Z_mod_plus_full. lia.
Qed.

Lemma window_by_hour now range s e :
  window now range = (s, e, ByHour) ->
  s mod msPerDay = 0 /\ s <= e /\ e < s + msPerDay.
Proof.
  unfold window.
  destruct (String.eqb _ "yesterday").
  - intros [= <- <-]. split; [apply startOfDay_midnight |].
    unfold endOfDay.
    assert (Hidem : startOfDay (startOfDay (daysBefore 1 now))
                    = startOfDay (daysBefore 1 now)).
    { apply startOfDay_iff; [apply startOfDay_midnight |].
      unfold msPerDay. lia. }
    rewrite Hidem. unfold msPerDay. lia.
  - destruct (String.eqb _ "7days"); [discriminate |].
    destruct (String.eqb _ "30days"); [discriminate |].
    intros [= <- <-]. split; [apply startOfDay_midnight |].
    pose proof (startOfDay_le now). pose proof (startOfDay_gt now). lia.
Qed.

Lemma window_by_day now range s e :
  window now range = (s, e, ByDay) ->
  (dayCount range = 7 \/ dayCount range = 30)
  /\ s = startOfDay now - dayCount range * msPerDay /\ e = now.
Proof.
  unfold window, dayCount. destruct range as [r|]; cbn.
  - destruct (String.eqb r "yesterday"); [discriminate |].
    destruct (String.eqb r "7days").
    + intros [= <- <-]. unfold daysBefore. rewrite startOfDay_shift. auto.
    + destruct (String.eqb r "30days"); [| discriminate].
      intros [= <- <-]. unfold daysBefore. rewrite startOfDay_shift. auto.
  - discriminate.
Qed.

(** X27. The chart by hour (today, yesterday, and any other range that is
    not 7days or 30days) has the 24 slots of the hours 0 to 23, in order;
    each slot holds the number and the points of the matched activities of
    that UTC hour; the totals are the number and the points of all matched
    activities and are the sums of the slots; and all matched activities
    are of the one UTC day the window starts at. *)
Theorem graph_by_hour now req st data :
  getActivityGraph objectId trimUpper now req st = GraphOf data ->
  g_groupBy data = ByHour ->
  map dp_slot (dataPoints data) = seqZ 0 24
  /\ (forall p, p ∈ dataPoints data ->
        dp_count p
        = Z.of_nat (length (filter (fun a => hourOf (a_createdAt a) = dp_slot p)
                                   (graphed objectId trimUpper now req st)))
        /\ dp_points p
           = sum_of a_points
               (filter (fun a => hourOf (a_createdAt a) = dp_slot p)
                       (graphed objectId trimUpper now req st)))
  /\ g_totalActivities data
     = Z.of_nat (length (graphed objectId trimUpper now req st))
  /\ g_totalPoints data = sum_of a_points (graphed objectId trimUpper now req st)
  /\ sum_of dp_count (dataPoints data) = g_totalActivities data
  /\ sum_of dp_points (dataPoints data) = g_totalPoints data
  /\ (forall a, a ∈ graphed objectId trimUpper now req st ->
        startOfDay (a_createdAt a) = g_startDate data).
Proof.
  intros Hg Hby.
  destruct (graph_inv _ _ _ _ Hg) as (Hw & (id & Hid & Hm) & Hpts & Hta & Htp & _).
  rewrite Hby in Hw, Hpts. cbn [slots slot_of] in Hpts.
  set (matched := graphed objectId trimUpper now req st) in *.
  assert (Hkeys : forall a, a ∈ matched -> hourOf (a_createdAt a) ∈ seqZ 0 24).
  { intros a _. apply seqZ_hours, hourOf_range. }
  split; [| split; [| split; [| split; [| split; [| split]]]]].
  - rewrite Hpts, map_map. cbn [dp_slot]. apply map_id.
  - intros p Hp. rewrite Hpts in Hp.
    apply list_elem_of_fmap in Hp as (slot & -> & _). split; reflexivity.
  - exact Hta.
  - exact Htp.
  - rewrite Hta, Hpts, sum_of_map. cbn [dp_count].
    rewrite <- (sum_of_ones matched).
    rewrite (sum_by_key (fun a => hourOf (a_createdAt a)) _ (seqZ 0 24) matched
               (NoDup_seqZ _ _) Hkeys).
    apply sum_of_ext. intros k. now rewrite sum_of_ones.
  - rewrite Htp, Hpts, sum_of_map. cbn [dp_points].
    symmetry. apply (sum_by_key (fun a => hourOf (a_createdAt a)));
      [apply NoDup_seqZ | exact Hkeys].
  - intros a Ha. rewrite Hm in Ha.
    apply list_elem_of_filter in Ha as [(_ & [Hlo Hhi] & _) _].
    symmetry in Hw. apply window_by_hour in Hw as (Hmid & _ & Hlt).
    apply (startOfDay_iff _ _ Hmid). lia.
Qed.

Lemma day_of_window (now n t : Z) :
  startOfDay now - n * msPerDay <= t <= now ->
  exists k, 0 <= k <= n /\ startOfDay t = startOfDay now - k * msPerDay.
Proof.
  intros [Hlo Hhi].
  pose proof (startOfDay_midnight now) as Hn.
  pose proof (startOfDay_midnight t) as Ht.
  pose proof (startOfDay_le t). pose proof (startOfDay_gt now).
  assert (Hm : (startOfDay now - n * msPerDay) mod msPerDay = 0).
  { rewrite <- startOfDay_shift. apply startOfDay_midnight. }
  apply (from_midnight _ _ Hm) in Hlo.
  unfold msPerDay in *.
  apply Z.mod_divide in Hn as [q Hq]; [| lia].
  apply Z.mod_divide in Ht as [r Hr]; [| lia].
  exists (q - r). split; nia.
Qed.

Lemma day_slots_NoDup (now n : Z) :
  NoDup (map (fun k => startOfDay now - k * msPerDay) (reverse (seqZ 0 n))).
Proof.
  apply NoDup_fmap_2.
  - intros k1 k2 Hk. unfold msPerDay in Hk. lia.
  - rewrite reverse_Permutation. apply NoDup_seqZ.
Qed.

(** X28. The chart by day has 7 or 30 slots, the days from 6 or 29 days
    back to today, in order, each holding the matched activities of its
    day; but the window starts one day earlier, 7 or 30 days back, so the
    totals are the sums of the slots plus the matched activities of that
    first day, which has no slot. *)
Theorem graph_by_day_leaves_out_the_first_day now req st data :
  getActivityGraph objectId trimUpper now req st = GraphOf data ->
  g_groupBy data = ByDay ->
  exists n,
    (n = 7 \/ n = 30)
    /\ g_startDate data = startOfDay now - n * msPerDay
    /\ g_endDate data = now
    /\ map dp_slot (dataPoints data)
       = map (fun k => startOfDay now - k * msPerDay) (reverse (seqZ 0 n))
    /\ (forall p, p ∈ dataPoints data ->
          dp_count p
          = Z.of_nat (length (filter (fun a => startOfDay (a_createdAt a)
                                               = dp_slot p)
                                     (graphed objectId trimUpper now req st)))
          /\ dp_points p
             = sum_of a_points
                 (filter (fun a => startOfDay (a_createdAt a) = dp_slot p)
                         (graphed objectId trimUpper now req st)))
    /\ g_totalActivities data
       = sum_of dp_count (dataPoints data)
         + Z.of_nat (length (filter (fun a => startOfDay (a_createdAt a)
                                              = g_startDate data)
                                    (graphed objectId trimUpper now req st)))
    /\ g_totalPoints data
       = sum_of dp_points (dataPoints data)
         + sum_of a_points (filter (fun a => startOfDay (a_createdAt a)
                                             = g_startDate data)
                                   (graphed objectId trimUpper now req st)).
Proof.
  intros Hg Hby.
  destruct (graph_inv _ _ _ _ Hg) as (Hw & (id & Hid & Hm) & Hpts & Hta & Htp & _).
  rewrite Hby in Hw, Hpts. cbn [slots slot_of] in Hpts.
  symmetry in Hw. apply window_by_day in Hw as (Hn & Hs & He).
  set (n := dayCount (g_range req)) in *.
  set (matched := graphed objectId trimUpper now req st) in *.
  set (F := fun k => startOfDay now - k * msPerDay).
  assert (Hslots : map (fun d => startOfDay (daysBefore d now)) (reverse (seqZ 0 n))
                   = map F (reverse (seqZ 0 n))).
  { apply map_ext. intros k. unfold F, daysBefore. apply startOfDay_shift. }
  rewrite Hslots in Hpts.
  assert (Hn0 : 0 <= n) by lia.
  assert (Hall : NoDup (F n :: map F (reverse (seqZ 0 n)))).
  { apply NoDup_cons. split; [| apply day_slots_NoDup].
    intros Hin. apply list_elem_of_fmap in Hin as (k & Hk & Hin).
    apply elem_of_reverse, elem_of_seqZ in Hin.
    unfold F, msPerDay in Hk. lia. }
  assert (Hkeys : forall a, a ∈ matched ->
            startOfDay (a_createdAt a) ∈ F n :: map F (reverse (seqZ 0 n))).
  { intros a Ha. rewrite Hm in Ha.
    apply list_elem_of_filter in Ha as [(_ & Hrange & _) _].
    rewrite Hs, He in Hrange.
    destruct (day_of_window now n _ Hrange) as (k & Hk & ->).
    destruct (decide (k = n)) as [-> | Hne]; [left |].
    right. apply list_elem_of_fmap. exists k. split; [reflexivity |].
    apply elem_of_reverse, elem_of_seqZ. lia. }
  exists n. split; [exact Hn |]. split; [exact Hs |]. split; [exact He |].
  split; [| split; [| split]].
  - rewrite Hpts, map_map. cbn [dp_slot]. apply map_id.
  - intros p Hp. rewrite Hpts in Hp.
    apply list_elem_of_fmap in Hp as (slot & -> & _). split; reflexivity.
  - rewrite Hta, Hpts, sum_of_map. cbn [dp_count].
    rewrite <- (sum_of_ones matched).
    rewrite (sum_by_key (fun a => startOfDay (a_createdAt a)) _ _ _ Hall Hkeys).
    rewrite Hs. fold (F n).
    change (sum_of ?f (F n :: ?l)) with (f (F n) + sum_of f l).
    cbn beta. rewrite sum_of_ones.
    rewrite (sum_of_ext _ (fun x => Z.of_nat (length (filter (fun a => startOfDay (a_createdAt a) = x) matched))))
      by (intros k; apply sum_of_ones).
    lia.
  - rewrite Htp, Hpts, sum_of_map. cbn [dp_points].
    rewrite (sum_by_key (fun a => startOfDay (a_createdAt a)) _ _ _ Hall Hkeys).
    rewrite Hs. fold (F n).
    change (sum_of ?f (F n :: ?l)) with (f (F n) + sum_of f l).
    cbn beta. lia.
Qed.

Lemma breakdown_of (groups : list (string * Tally)) (t : string) :
  NoDup (map fst groups) ->
  (forall tally, (t, tally) ∈ groups ->
     toBreakdown groups !! t = Some (t_count tally, t_points tally))
  /\ (t ∉ map fst groups -> toBreakdown groups !! t = None).
Proof.
  induction groups as [|[k b] groups IH] using rev_ind; intros Hnd.
  - split; [intros tally Hin; inversion Hin | reflexivity].
  - unfold toBreakdown in *. rewrite foldl_snoc. cbn [fst snd].
    rewrite map_app in Hnd.
    apply NoDup_app in Hnd as (Hnd & Hdisj & _).
    destruct (IH Hnd) as [IHin IHout]. split.
    + intros tally Hin. apply elem_of_app in Hin as [Hin | Hin].
      * rewrite lookup_insert_ne; [now apply IHin |].
        intros ->. apply (Hdisj t); [| left].
        apply list_elem_of_fmap. now exists (t, tally).
      * apply list_elem_of_singleton in Hin. injection Hin as -> ->.
        now rewrite lookup_insert_eq.
    + intros Hout. rewrite map_app in Hout. cbn [map fst] in Hout.
      rewrite lookup_insert_ne.
      * apply IHout. intros Hin. apply Hout, elem_of_app. now left.
      * intros ->. apply Hout, elem_of_app. right. left.
Qed.

(** X29. The type breakdown of the graph has, for every type, the number
    and the points of the matched activities of that type and no entry for
    a type without any; with a type filter only listed types have an
    entry; and the matched activities are activities of the requested
    workspace created within the window, bounds included. *)
Theorem graph_type_breakdown now req st data :
  getActivityGraph objectId trimUpper now req st = GraphOf data ->
  (forall t,
     typeBreakdown data !! t
     = match filter (fun a => a_type a = t)
                    (graphed objectId trimUpper now req st) with
       | [] => None
       | a :: rest => Some (Z.of_nat (length (a :: rest)),
                            sum_of a_points (a :: rest))
       end)
  /\ (forall wanted t,
        typeArray trimUpper (g_types req) = Some wanted ->
        is_Some (typeBreakdown data !! t) -> t ∈ wanted)
  /\ (forall a, a ∈ graphed objectId trimUpper now req st ->
        a ∈ activities st
        /\ objectId (g_workspaceId req) = Some (a_workspaceId a)
        /\ g_startDate data <= a_createdAt a <= g_endDate data).
Proof.
  intros Hg.
  destruct (graph_inv _ _ _ _ Hg) as (_ & (id & Hid & Hm) & _ & _ & _ & Htb).
  set (matched := graphed objectId trimUpper now req st) in *.
  assert (Hlookup : forall t,
    typeBreakdown data !! t
    = match filter (fun a => a_type a = t) matched with
      | [] => None
      | a :: rest => Some (Z.of_nat (length (a :: rest)),
                           sum_of a_points (a :: rest))
      end).
  { intros t. rewrite Htb.
    destruct (breakdown_of (group a_type (mkTally 0 0 []) tally_step matched) t
                (group_NoDup _ _ _ _)) as [Hin Hout].
    destruct (filter (fun a => a_type a = t) matched) as [|a rest] eqn:Hf.
    - apply Hout. intros Hk. apply list_elem_of_fmap in Hk as ([k b] & -> & Hkb).
      apply group_spec in Hkb as [(a & Ha & Hka) _]. cbn [fst] in Hf.
      assert (Hin' : a ∈ filter (fun a0 => a_type a0 = k) matched)
        by (apply list_elem_of_filter; auto).
      rewrite Hf in Hin'. inversion Hin'.
    - assert (Ha : a ∈ filter (fun a => a_type a = t) matched)
        by (rewrite Hf; left).
      apply list_elem_of_filter in Ha as [Hta Ha].
      rewrite (Hin (foldl tally_step (mkTally 0 0 []) (selected a_type t matched))).
      + unfold selected. rewrite Hf.
        now destruct (tally_fold (a :: rest)) as [-> ->].
      + apply group_spec. split; [now exists a | reflexivity]. }
  split; [exact Hlookup |]. split.
  - intros ts t Hts [v Hv]. rewrite Hlookup in Hv.
    destruct (filter (fun a => a_type a = t) matched) as [|a rest] eqn:Hf;
      [discriminate |].
    assert (Ha : a ∈ filter (fun a => a_type a = t) matched)
      by (rewrite Hf; left).
    apply list_elem_of_filter in Ha as [<- Ha].
    rewrite Hm in Ha. apply list_elem_of_filter in Ha as [(_ & _ & Hty) _].
    now rewrite Hts in Hty.
  - intros a Ha. rewrite Hm in Ha.
    apply list_elem_of_filter in Ha as [(Hw & Hrange & _) Ha].
    split; [exact Ha |]. split; [now rewrite Hw | exact Hrange].
Qed.

End GraphFacts.

Section GraphExamples.
Import Model Clock Archive Graph Samples.

Lemma graph_by_hour_witness :
  map dp_slot (dataPoints graph_today) = seqZ 0 24
  /\ (forall p, p ∈ dataPoints graph_today ->
        dp_count p
        = Z.of_nat (length (filter (fun a => hourOf (a_createdAt a) = dp_slot p)
                              (graphed cast_id as_given 4000
                                 (mkGraphRequest ws_green user_ayu None None)
                                 store_log)))
        /\ dp_points p
           = sum_of a_points
               (filter (fun a => hourOf (a_createdAt a) = dp_slot p)
                  (graphed cast_id as_given 4000
                     (mkGraphRequest ws_green user_ayu None None) store_log)))
  /\ g_totalActivities graph_today
     = Z.of_nat (length (graphed cast_id as_given 4000
                           (mkGraphRequest ws_green user_ayu None None)
                           store_log))
  /\ g_totalPoints graph_today
     = sum_of a_points (graphed cast_id as_given 4000
                          (mkGraphRequest ws_green user_ayu None None)
                          store_log)
  /\ sum_of dp_count (dataPoints graph_today) = g_totalActivities graph_today
  /\ sum_of dp_points (dataPoints graph_today) = g_totalPoints graph_today
  /\ (forall a, a ∈ graphed cast_id as_given 4000
                      (mkGraphRequest ws_green user_ayu None None) store_log ->
        startOfDay (a_createdAt a) = g_startDate graph_today).
Proof.
  apply (graph_by_hour cast_id as_given 4000
           (mkGraphRequest ws_green user_ayu None None) store_log graph_today).
  - reflexivity.
  - reflexivity.
Defined.

Lemma graph_by_day_leaves_out_the_first_day_witness :
  exists n,
    (n = 7 \/ n = 30)
    /\ g_startDate graph_month = startOfDay (day 80) - n * msPerDay
    /\ g_endDate graph_month = day 80
    /\ map dp_slot (dataPoints graph_month)
       = map (fun k => startOfDay (day 80) - k * msPerDay) (reverse (seqZ 0 n))
    /\ (forall p, p ∈ dataPoints graph_month ->
          dp_count p
          = Z.of_nat (length (filter (fun a => startOfDay (a_createdAt a)
                                               = dp_slot p)
                                (graphed cast_id as_given (day 80)
                                   (mkGraphRequest ws_green user_ayu
                                      (Some "30days") None) store_old)))
          /\ dp_points p
             = sum_of a_points
                 (filter (fun a => startOfDay (a_createdAt a) = dp_slot p)
                    (graphed cast_id as_given (day 80)
                       (mkGraphRequest ws_green user_ayu (Some "30days") None)
                       store_old)))
    /\ g_totalActivities graph_month
       = sum_of dp_count (dataPoints graph_month)
         + Z.of_nat (length (filter (fun a => startOfDay (a_createdAt a)
                                              = g_startDate graph_month)
                               (graphed cast_id as_given (day 80)
                                  (mkGraphRequest ws_green user_ayu
                                     (Some "30days") None) store_old)))
    /\ g_totalPoints graph_month
       = sum_of dp_points (dataPoints graph_month)
         + sum_of a_points (filter (fun a => startOfDay (a_createdAt a)
                                             = g_startDate graph_month)
                              (graphed cast_id as_given (day 80)
                                 (mkGraphRequest ws_green user_ayu
                                    (Some "30days") None) store_old)).
Proof.
  apply (graph_by_day_leaves_out_the_first_day cast_id as_given (day 80)
           (mkGraphRequest ws_green user_ayu (Some "30days") None)
           store_old graph_month).
  - vm_compute. reflexivity.
  - reflexivity.
Defined.

(** The chart of thirty days shows one scan where the totals count two. *)
Example month_chart_shows_less_than_its_totals :
  getActivityGraph cast_id as_given (day 80)
    (mkGraphRequest ws_green user_ayu (Some "30days") None) store_old
  = GraphOf graph_month
  /\ sum_of dp_count (dataPoints graph_month) = 1
  /\ g_totalActivities graph_month = 2.
Proof. repeat split. Qed.

Lemma graph_type_breakdown_witness :
  (forall t,
     typeBreakdown graph_today !! t
     = match filter (fun a => a_type a = t)
                    (graphed cast_id as_given 4000
                       (mkGraphRequest ws_green user_ayu None (Some "SCAN,REWARD"))
                       store_log) with
       | [] => None
       | a :: rest => Some (Z.of_nat (length (a :: rest)),
                            sum_of a_points (a :: rest))
       end)
  /\ (forall wanted t,
        typeArray as_given (Some "SCAN,REWARD") = Some wanted ->
        is_Some (typeBreakdown graph_today !! t) -> t ∈ wanted)
  /\ (forall a, a ∈ graphed cast_id as_given 4000
                      (mkGraphRequest ws_green user_ayu None (Some "SCAN,REWARD"))
                      store_log ->
        a ∈ activities store_log
        /\ cast_id ws_green = Some (a_workspaceId a)
        /\ g_startDate graph_today <= a_createdAt a <= g_endDate graph_today).
Proof.
  apply (graph_type_breakdown cast_id as_given 4000
           (mkGraphRequest ws_green user_ayu None (Some "SCAN,REWARD"))
           store_log graph_today).
  vm_compute. reflexivity.
Defined.

End GraphExamples.

(** ** The points ledger *)

Section PointsLedger.
Import Codec Model Scan Archive.

Variable decrypt : string -> option value.

Lemma sum_of_insert {X} (f : X -> Z) (l : list X) (j : nat) (x y : X) :
  l !! j = Some x ->
  sum_of f (<[j := y]> l) = sum_of f l - f x + f y.
Proof.
  unfold sum_of. revert j. induction l as [|z l IH]; intros j Hj;
    [discriminate |].
  destruct j as [|j]; cbn in Hj.
  - injection Hj as ->.
    change (<[0%nat := y]> (x :: l)) with (y :: l). cbn [foldr]. lia.
  - change (<[S j := y]> (z :: l)) with (z :: <[j := y]> l). cbn [foldr].
    rewrite (IH j Hj). lia.
Qed.

Lemma sum_of_insert_le {X} (f : X -> Z) (l : list X) (j : nat) (y : X) (c : Z) :
  (forall x, l !! j = Some x -> f y = f x + c) -> 0 <= c ->
  sum_of f l <= sum_of f (<[j := y]> l) <= sum_of f l + c.
Proof.
  intros Hy Hc. destruct (l !! j) as [x|] eqn:Hj.
  - rewrite (sum_of_insert f l j x y Hj), (Hy x eq_refl). lia.
  - rewrite list_insert_ge; [lia |]. now apply lookup_ge_None.
Qed.

(** What an award does to the books. *)
Lemma award_books g now w uid ft dev j m usr st r st' :
  award g now w uid ft dev j m usr st = (r, st') ->
  members st !! j = Some m ->
  (forall k u, usr = Some (k, u) -> users st !! k = Some u) ->
  is_failure r = false
  /\ sum_of m_points (members st') = sum_of m_points (members st) + 10
  /\ sum_of u_points (users st')
     = sum_of u_points (users st)
       + match usr with Some _ => 10 | None => 0 end
  /\ exists a, activities st' = (activities st ++ [a])%list
               /\ a_points a = 10 /\ a_type a = "SCAN".
Proof.
  unfold award. intros [= <- <-] Hj Hu. split; [reflexivity |].
  cbn [members users activities create_activity save_member].
  split; [| split].
  - destruct usr as [[k u]|]; cbn [members save_user save_member];
      rewrite (sum_of_insert m_points _ j m _ Hj); cbn; lia.
  - destruct usr as [[k u]|]; cbn [users save_user save_member]; [| lia].
    rewrite (sum_of_insert u_points _ k u _ (Hu k u eq_refl)). cbn. lia.
  - exists (scanActivity now w uid ft dev). split; [| split; reflexivity].
    destruct usr as [[k u]|]; reflexivity.
Qed.

Lemma after_replay_books payload i d st :
  members (after_replay payload i d st) = members st
  /\ users (after_replay payload i d st) = users st
  /\ activities (after_replay payload i d st) = activities st.
Proof. destruct payload; repeat split. Qed.

(** One call: a success books ten points and logs one activity of ten
    points; a failure books and logs nothing. *)
Lemma serve_books c st r st' :
  serve decrypt c st = Some (r, st') ->
  sum_of m_points (members st')
  = sum_of m_points (members st) + (if is_failure r then 0 else 10)
  /\ sum_of u_points (users st) <= sum_of u_points (users st')
     <= sum_of u_points (users st) + (if is_failure r then 0 else 10)
  /\ exists logged,
       activities st' = (activities st ++ logged)%list
       /\ Z.of_nat (length logged) = (if is_failure r then 0 else 1)
       /\ sum_of a_points logged = (if is_failure r then 0 else 10).
Proof.
  destruct c as [now req | now req]; cbn [serve]; intros H.
  - apply scanDevice_cases in H
      as [(-> & -> & _) | (payload & deviceId & ft & j & m & i & d & Hdec & Hm
                          & Hres & Hfresh & [(_ & -> & ->) | (k & u & Hu & Haw)])].
    + split; [lia |]. split; [lia |]. exists []. now rewrite app_nil_r.
    + destruct (after_replay_books payload i d st) as (-> & -> & ->). cbn.
      split; [lia |]. split; [lia |]. exists []. now rewrite app_nil_r.
    + symmetry in Haw.
      destruct (after_replay_books payload i d st) as (Hmem & Husers & Hacts).
      apply award_books in Haw as (-> & Hmp & Hup & a & Hlog & Hap & _).
      * rewrite Hmem in Hmp. rewrite Husers in Hup. rewrite Hacts in Hlog.
        split; [exact Hmp |]. split; [lia |]. exists [a].
        split; [exact Hlog |]. split; [reflexivity |].
        unfold sum_of. cbn. lia.
      * rewrite Hmem. now apply list_find_Some in Hm as (Hm & _).
      * intros k' u' [= <- <-]. rewrite Husers.
        now apply list_find_Some in Hu as (Hu & _).
  - apply scanDeviceGlobal_cases in H
      as [[-> ->] | (p & i & d & j & m & _ & _ & _ & Hm & _ & Haw)].
    + split; [lia |]. split; [lia |]. exists []. now rewrite app_nil_r.
    + symmetry in Haw.
      destruct (after_replay_books (Some p) i d st) as (Hmem & Husers & Hacts).
      apply award_books in Haw as (-> & Hmp & Hup & a & Hlog & Hap & _).
      * rewrite Hmem in Hmp. rewrite Husers in Hup. rewrite Hacts in Hlog.
        split; [exact Hmp |]. split; [destruct (findUser st _); lia |].
        exists [a]. split; [exact Hlog |]. split; [reflexivity |].
        unfold sum_of. cbn. lia.
      * rewrite Hmem. now apply list_find_Some in Hm as (Hm & _).
      * intros k' u' Hu. rewrite Husers.
        now apply list_find_Some in Hu as (Hu & _).
Qed.

Lemma successes_cons r rs :
  successes (r :: rs) = (if is_failure r then 0 else 1) + successes rs.
Proof.
  unfold successes. rewrite filter_cons.
  destruct (is_failure r); cbn [length].
  - rewrite decide_False by discriminate. lia.
  - rewrite decide_True by reflexivity. cbn [length]. lia.
Qed.

(** X30. The points booked match the activities logged: over any
    sequence of calls of the two scan endpoints, the points of all
    memberships grow by ten for each success answer and by nothing else,
    the points of all user records by at most as much, and the log grows
    by exactly one activity of ten points per success, so that the points
    added to the memberships are the points of the activities added. *)
Theorem points_match_the_activity_log calls : forall st answers st',
  serveAll decrypt calls st = Some (answers, st') ->
  length answers = length calls
  /\ sum_of m_points (members st')
     = sum_of m_points (members st) + 10 * successes answers
  /\ sum_of u_points (users st) <= sum_of u_points (users st')
     <= sum_of u_points (users st) + 10 * successes answers
  /\ exists logged,
       activities st' = (activities st ++ logged)%list
       /\ Z.of_nat (length logged) = successes answers
       /\ sum_of a_points logged = 10 * successes answers
       /\ sum_of m_points (members st') - sum_of m_points (members st)
          = sum_of a_points logged.
Proof.
  induction calls as [|c calls IH]; intros st answers st'; cbn [serveAll].
  - intros [= <- <-]. unfold successes. cbn.
    split; [reflexivity |]. split; [lia |]. split; [lia |].
    exists []. rewrite app_nil_r. repeat split; unfold sum_of; cbn; lia.
  - destruct (serve decrypt c st) as [[r st1]|] eqn:Hc; [| discriminate].
    destruct (serveAll decrypt calls st1) as [[rs st2]|] eqn:Hrest;
      [| discriminate].
    intros [= <- <-].
    apply serve_books in Hc as (Hm1 & Hu1 & l1 & Ha1 & Hn1 & Hp1).
    destruct (IH _ _ _ Hrest) as (Hlen & Hm2 & Hu2 & l2 & Ha2 & Hn2 & Hp2 & _).
    rewrite successes_cons. cbn [length].
    split; [now rewrite Hlen |].
    split; [destruct (is_failure r); lia |].
    split; [destruct (is_failure r); lia |].
    exists (l1 ++ l2)%list. rewrite Ha2, Ha1, (assoc_L (++)).
    split; [reflexivity |]. rewrite length_app, sum_of_app.
    destruct (is_failure r); repeat split; lia.
Qed.

End PointsLedger.

Section PointsLedgerExamples.
Import Codec Model Scan Archive Samples.

Lemma points_match_the_activity_log_witness :
  length [Success data1001; replayDetected]
  = length [ToWorkspace 5000 (encrypted "qr-1001" ws_green user_ayu);
            ToAnywhere 6000 (encrypted "qr-1001" ws_green user_ayu)]
  /\ sum_of m_points (members store1001)
     = sum_of m_points (members store0)
       + 10 * successes [Success data1001; replayDetected]
  /\ sum_of u_points (users store0) <= sum_of u_points (users store1001)
     <= sum_of u_points (users store0)
        + 10 * successes [Success data1001; replayDetected]
  /\ exists logged,
       activities store1001 = (activities store0 ++ logged)%list
       /\ Z.of_nat (length logged) = successes [Success data1001; replayDetected]
       /\ sum_of a_points logged
          = 10 * successes [Success data1001; replayDetected]
       /\ sum_of m_points (members store1001) - sum_of m_points (members store0)
          = sum_of a_points logged.
Proof.
  apply (points_match_the_activity_log cipher
           [ToWorkspace 5000 (encrypted "qr-1001" ws_green user_ayu);
            ToAnywhere 6000 (encrypted "qr-1001" ws_green user_ayu)]
           store0 [Success data1001; replayDetected] store1001).
  reflexivity.
Defined.

End PointsLedgerExamples.

(** ** White space around a deviceId and before a number *)

Section TrimExamples.
Import Codec Model Scan Samples.

(** The white space around the text is cut, of whatever kind; the white
    space inside stays. *)
Example trim_samples :
  Text.trim " BIN-004 " = "BIN-004"
  /\ Text.trim (nbsp ++ "BIN-004" ++ wide_space ++ " ") = "BIN-004"
  /\ Text.trim " Lobby Bin " = "Lobby Bin"
  /\ Text.trim (" " ++ wide_space) = EmptyString
  /\ Text.trim "BIN-004" = "BIN-004".
Proof. repeat split. Qed.

(** The deviceId of a query filter is trimmed: a legacy scan that names
    the bin with spaces around it finds the bin and earns the points. *)
Example padded_deviceId_resolves :
  resolveInWorkspace store0 " BIN-004 " ws_green = Some (0%nat, bin004)
  /\ exists data st',
       scanDevice cipher 5000 (legacy " BIN-004 " "SCAN" ws_green user_ayu)
                  store0
       = Some (Success data, st')
       /\ pointsEarned data = 10 /\ workspacePoints data = 60
       /\ length (activities st') = 1%nat.
Proof. split; [reflexivity |]. eexists _, _. repeat split. Qed.

End TrimExamples.

Section ParseIntExamples.
Import Model Clock Archive ArchiveQuery Samples.

(** [parseInt] skips a no-break space as it skips a space: 366 days after
    one are refused, not replaced by the default. *)
Example days_after_a_no_break_space :
  parseInt (Some (nbsp ++ "366")) = Some 366
  /\ parseInt (Some (wide_space ++ " 12abc")) = Some 12
  /\ getWorkspaceArchiveStats 0 archive0 ws_green (Some (nbsp ++ "366"))
     = InvalidDays
  /\ getWorkspaceTypeBreakdown 0 archive0 ws_green (Some (nbsp ++ "366"))
     = InvalidDays.
Proof. repeat split. Qed.

End ParseIntExamples.
